(** * PulserBot: selection store, rotation controller and job lock

    A shallow embedding of [src/services/sheets_service.py],
    [src/services/dynamic_content_service.py] and [trigger_jobs.py], and
    of their callers in [src/prompt_type] and [src/core.py].

    The Python code talks to a remote spreadsheet through gspread, writes
    to the [logging] module, draws from [random] and reads the wall clock.
    All of this is made explicit in a [World] that every operation
    threads; Python exceptions are the [Raise] outcome of a computation.

    What the model fixes about the surroundings of the code:
    - one process at a time works on the sheets, and a request either
      fails as a whole or is served as a whole;
    - a request fails when the fault schedule of the world says so, or
      when the sheet it addresses does not exist;
    - a sheet has no size limit, and a value written is read back as
      written;
    - [random.choice] on [n] items takes the next draw, reduced below
      [n]: a draw that is uniform below [n] gives a uniform choice;
    - the clock is read as the rendered text of the current time. *)

From Stdlib Require Import Ascii String Sorted.
From stdpp Require Import gmap strings list fin_maps pretty.

(** ** Strings

    Cell values are Python [str]; here they are their UTF-8 texts.
    [upper] and [lower] stand for [str.upper] and [str.lower], the case
    mappings of the Unicode tables Python is built with.  What is used
    of them is what every Python has: on ASCII text they map the ASCII
    letters and leave every other character alone, and lower-casing a
    lower-cased text changes nothing.  Beyond ASCII (["ſ"] upper-cases
    to ["S"], the Kelvin sign lower-cases to ["k"]) they are whatever
    the tables say. *)

Definition ascii_upper (c : ascii) : ascii :=
  let n := nat_of_ascii c in
  if (97 <=? n)%nat && (n <=? 122)%nat then ascii_of_nat (n - 32) else c.

Definition ascii_lower (c : ascii) : ascii :=
  let n := nat_of_ascii c in
  if (65 <=? n)%nat && (n <=? 90)%nat then ascii_of_nat (n + 32) else c.

Fixpoint map_text (f : ascii → ascii) (s : string) : string :=
  match s with
  | EmptyString => EmptyString
  | String c s' => String (f c) (map_text f s')
  end.

(** Text of ASCII characters only: every byte is below 128. *)
Fixpoint ascii_text (s : string) : bool :=
  match s with
  | EmptyString => true
  | String c s' => (nat_of_ascii c <? 128)%nat && ascii_text s'
  end.

Class CaseMap := {
  upper : string → string;
  lower : string → string;
  upper_ascii_text s : ascii_text s = true → upper s = map_text ascii_upper s;
  lower_ascii_text s : ascii_text s = true → lower s = map_text ascii_lower s;
  lower_lower s : lower (lower s) = lower s
}.

(** ** Exceptions *)

Inductive exn :=
| ValueError (msg : string)
| KeyError (msg : string)
| IndexError (msg : string)
| RemoteError (msg : string)        (* gspread / transport failures *)
| SpreadsheetNotFound
| WorksheetNotFound (name : string)
| CalledProcessError (msg : string)
| OtherError (msg : string)         (* any other subclass of Exception *)
| SystemExit (code : nat).

(** [str(e)] *)
Definition exn_str (e : exn) : string :=
  match e with
  | ValueError m | KeyError m | IndexError m
  | RemoteError m | CalledProcessError m | WorksheetNotFound m
  | OtherError m => m
  | SpreadsheetNotFound => ""
  | SystemExit c => pretty c
  end.

(** [except Exception] does not catch [SystemExit]. *)
Definition is_Exception (e : exn) : bool :=
  match e with SystemExit _ => false | _ => true end.

(** ** The world *)

Abbreviation Grid := (list (list string)).

(** A [gspread.Worksheet]: the document URL and the tab name.  The tab
    name is also the worksheet's [title]. *)
Abbreviation Handle := (string * string)%type.

Definition title (worksheet : Handle) : string := snd worksheet.

(** [gspread.Cell(row, col, value)], both coordinates 1-based. *)
Record Cell := mkCell { cell_row : nat; cell_col : nat; cell_value : string }.

(** Requests that leave the process. *)
Inductive Call :=
| Authorize
| OpenByUrl (url : string)
| OpenWorksheet (url name : string)
| GetAllValues (h : Handle)
| RowValues (h : Handle) (r : nat)
| ColValues (h : Handle) (c : nat)
| UpdateCells (h : Handle) (cells : list Cell)
| AppendRow (h : Handle) (row : list string)
| Subprocess (argv : list string).

Inductive Level := INFO | WARNING | ERROR | CRITICAL.

Record World := mkWorld {
  sheets : gmap Handle Grid;        (* the remote documents *)
  faults : list (option string);    (* outcome of the next requests:
                                       [Some msg] makes the request raise *)
  rng : list nat;                   (* the next draws of [random] *)
  local_now : option string;        (* datetime.now(ZoneInfo(TZ)) rendered
                                       "%Y-%m-%d %H:%M:%S"; [None] when TZ
                                       names no zone *)
  utc_now : string;                 (* datetime.now(timezone.utc), same
                                       rendering *)
  client : bool;                    (* SheetsService._client is set *)
  calls : list Call;                (* requests issued so far *)
  log : list (Level * string)       (* records handed to [logging] *)
}.

Definition set_sheets (f : gmap Handle Grid → gmap Handle Grid) (w : World) : World :=
  mkWorld (f (sheets w)) (faults w) (rng w) (local_now w) (utc_now w)
          (client w) (calls w) (log w).

Definition set_faults (fs : list (option string)) (w : World) : World :=
  mkWorld (sheets w) fs (rng w) (local_now w) (utc_now w)
          (client w) (calls w) (log w).

Definition set_rng (r : list nat) (w : World) : World :=
  mkWorld (sheets w) (faults w) r (local_now w) (utc_now w)
          (client w) (calls w) (log w).

Definition set_client (b : bool) (w : World) : World :=
  mkWorld (sheets w) (faults w) (rng w) (local_now w) (utc_now w)
          b (calls w) (log w).

Definition record_call (c : Call) (w : World) : World :=
  mkWorld (sheets w) (faults w) (rng w) (local_now w) (utc_now w)
          (client w) (calls w ++ [c]) (log w).

Definition record_log (lvl : Level) (msg : string) (w : World) : World :=
  mkWorld (sheets w) (faults w) (rng w) (local_now w) (utc_now w)
          (client w) (calls w) (log w ++ [(lvl, msg)]).

(** ** Computations *)

Inductive outcome (A : Type) :=
| Return (a : A)
| Raise (e : exn).
Arguments Return {A} a.
Arguments Raise {A} e.

Definition Py (A : Type) : Type := World → outcome A * World.

Definition ret {A} (a : A) : Py A := λ w, (Return a, w).

Definition raise {A} (e : exn) : Py A := λ w, (Raise e, w).

Definition bind {A B} (m : Py A) (k : A → Py B) : Py B := λ w,
  match m w with
  | (Return a, w') => k a w'
  | (Raise e, w') => (Raise e, w')
  end.

Notation "'let!' x ':=' m 'in' k" := (bind m (λ x, k))
  (at level 10, x pattern, m at level 100, k at level 200,
   format "'[v' 'let!'  x  ':='  m  'in' '/' k ']'").
Notation "m ';;;' k" := (bind m (λ _, k))
  (at level 100, k at level 200, right associativity,
   format "'[v' m  ';;;' '/' k ']'").

(** [try: body / except ...: handler]; the handler decides per exception
    and re-raises what its [except] clauses do not name. *)
Definition try_except {A} (body : Py A) (handler : exn → Py A) : Py A := λ w,
  match body w with
  | (Return a, w') => (Return a, w')
  | (Raise e, w') => handler e w'
  end.

Definition logging (lvl : Level) (msg : string) : Py unit := λ w,
  (Return tt, record_log lvl msg w).

(** A request: it is recorded, then either the fault schedule makes it
    raise, or the remote side serves it. *)
Definition request {A} (c : Call) (serve : Py A) : Py A := λ w,
  let w1 := set_faults (tail (faults w)) (record_call c w) in
  match head (faults w) with
  | Some (Some msg) => (Raise (RemoteError msg), w1)
  | _ => serve w1
  end.

(** ** The gspread worksheet interface

    A worksheet is the grid of strings that the values API returns, row 1
    first.  Rows may differ in length; a missing cell reads as the empty
    string. *)

Fixpoint strip_trailing (l : list string) : list string :=
  match l with
  | [] => []
  | x :: l' =>
      match strip_trailing l' with
      | [] => if String.eqb x "" then [] else [x]
      | t => x :: t
      end
  end.

Definition with_sheet {A} (h : Handle) (k : Grid → Py A) : Py A := λ w,
  match sheets w !! h with
  | Some g => k g w
  | None => (Raise (RemoteError "worksheet not found"), w)
  end.

(** [worksheet.get_all_values()] *)
Definition get_all_values (h : Handle) : Py Grid :=
  request (GetAllValues h) (with_sheet h ret).

(** [worksheet.row_values(r)]: trailing empty cells are not returned. *)
Definition row_values (h : Handle) (r : nat) : Py (list string) :=
  match r with
  | O => raise (RemoteError "invalid range")
  | S r' => request (RowValues h r)
              (with_sheet h (λ g, ret (strip_trailing (nth r' g []))))
  end.

(** [worksheet.col_values(c)]: trailing empty cells are not returned. *)
Definition col_values (h : Handle) (c : nat) : Py (list string) :=
  match c with
  | O => raise (RemoteError "invalid range")
  | S c' => request (ColValues h c)
              (with_sheet h (λ g, ret (strip_trailing (map (λ row, nth c' row "") g))))
  end.

Definition pad_to {A} (n : nat) (d : A) (l : list A) : list A :=
  l ++ replicate (n - length l) d.

(** Writing column [c] (1-based) of a row; the row grows as needed. *)
Definition set_in_row (c : nat) (v : string) (row : list string) : list string :=
  <[c - 1 := v]> (pad_to c "" row).

(** Writing one cell; the grid grows as needed. *)
Definition set_cell (g : Grid) (c : Cell) : Grid :=
  let r := cell_row c - 1 in
  let g' := pad_to (cell_row c) [] g in
  <[r := set_in_row (cell_col c) (cell_value c) (nth r g' [])]> g'.

Definition write_cells (cells : list Cell) (g : Grid) : Grid :=
  foldl set_cell g cells.

Definition valid_cell (c : Cell) : bool :=
  (1 <=? cell_row c)%nat && (1 <=? cell_col c)%nat.

(** [worksheet.update_cells(cells, value_input_option="USER_ENTERED")]:
    one request that writes exactly the listed cells. *)
Definition update_cells (h : Handle) (cells : list Cell) : Py unit :=
  match cells with
  | [] => raise (ValueError "min() arg is an empty sequence")
  | _ =>
      if forallb valid_cell cells then
        request (UpdateCells h cells)
          (with_sheet h (λ g w, (Return tt, set_sheets (insert h (write_cells cells g)) w)))
      else raise (RemoteError "incorrect cell label")
  end.

(** [worksheet.append_row(row)]: the row lands below the last row. *)
Definition append_row (h : Handle) (row : list string) : Py unit :=
  request (AppendRow h row)
    (with_sheet h (λ g w, (Return tt, set_sheets (insert h (g ++ [row])) w))).

(** [random.choice(seq)] *)
Definition random_choice {A} (seq : list A) : Py A := λ w,
  match seq with
  | [] => (Raise (IndexError "Cannot choose from an empty sequence"), w)
  | x :: _ =>
      let k := hd 0 (rng w) in
      (Return (nth (k mod length seq) seq x), set_rng (tail (rng w)) w)
  end.

(** ** Python containers *)

Abbreviation Dict := (gmap string string).

(** [dict(zip(header, row))]: pairs up to the shorter list; a later
    column of the same name overwrites an earlier one. *)
Definition dict_zip (header row : list string) : Dict :=
  foldl (λ d kv, <[kv.1 := kv.2]> d) ∅ (zip header row).

(** [d.get(key, dflt)] *)
Definition dict_get (d : Dict) (key dflt : string) : string :=
  default dflt (d !! key).

Fixpoint list_index (x : string) (l : list string) : option nat :=
  match l with
  | [] => None
  | y :: l' => if decide (y = x) then Some 0 else S <$> list_index x l'
  end.

(** [l.index(x)]: the first position, or [ValueError]. *)
Definition index (l : list string) (x : string) : Py nat :=
  match list_index x l with
  | Some i => ret i
  | None => raise (ValueError ("'" +:+ x +:+ "' is not in list"))
  end.

(** The clock as [mark_item_as_used] reads it. *)
Definition local_time : Py string := λ w,
  match local_now w with
  | Some s => (Return s, w)
  | None => (Raise (KeyError "'No time zone found'"), w)
  end.

(** ** src/services/sheets_service.py *)

Definition is_unused {case_map : CaseMap} (row : Dict) : bool :=
  String.eqb (upper (dict_get row "used" "")) "FALSE".

Definition lang_match {case_map : CaseMap} (row : Dict) (language : string) : bool :=
  String.eqb (lower (dict_get row "language" "")) language.

(** The loop of [_filter_unused_items], at position [i] of [enumerate]. *)
Fixpoint filter_from {case_map : CaseMap} (i : nat) (records : list Dict) (language : option string)
  : list (nat * Dict) :=
  match records with
  | [] => []
  | row :: rest =>
      match language with
      | Some l =>
          if is_unused row && lang_match row l
          then (i + 2, row) :: filter_from (S i) rest language
          else filter_from (S i) rest language
      | None =>
          if is_unused row
          then (i + 2, row) :: filter_from (S i) rest language
          else filter_from (S i) rest language
      end
  end.

Definition _filter_unused_items {case_map : CaseMap} (records : list Dict) (language : option string)
  : list (nat * Dict) :=
  filter_from 0 records language.

(** The loop of [_reset_used_flags]. *)
Fixpoint reset_from {case_map : CaseMap} (i : nat) (records : list Dict) (language : option string)
    (used_col_index : nat) : list Cell :=
  match records with
  | [] => []
  | row :: rest =>
      match language with
      | Some l =>
          if lang_match row l
          then mkCell (i + 2) used_col_index "FALSE"
                 :: reset_from (S i) rest language used_col_index
          else reset_from (S i) rest language used_col_index
      | None =>
          mkCell (i + 2) used_col_index "FALSE"
            :: reset_from (S i) rest language used_col_index
      end
  end.

Definition _reset_used_flags {case_map : CaseMap} (worksheet : Handle) (language : option string) : Py bool :=
  let log_lang := match language with
                  | Some l => "language '" +:+ l +:+ "'"
                  | None => "all rows"
                  end in
  logging WARNING ("Resetting 'used' flags for " +:+ log_lang +:+ " in '"
                   +:+ title worksheet +:+ "'...") ;;;
  try_except
    (let! all_values := get_all_values worksheet in
     if (length all_values <? 2)%nat then ret false
     else
       let header := hd [] all_values in
       let records := dict_zip header <$> tail all_values in
       let! i := index header "used" in
       let used_col_index := i + 1 in
       let updates := reset_from 0 records language used_col_index in
       match updates with
       | [] => logging INFO "No rows found to reset." ;;; ret false
       | _ => update_cells worksheet updates ;;;
              logging INFO ("Successfully reset " +:+ pretty (length updates) +:+ " rows.") ;;;
              ret true
       end)
    (λ e, match e with
          | ValueError _ =>
              logging ERROR ("Header 'used' not found in '" +:+ title worksheet +:+ "'.") ;;;
              ret false
          | SystemExit _ => raise e
          | _ =>
              logging ERROR ("Failed to reset 'used' flags: " +:+ exn_str e) ;;;
              ret false
          end).

(** The tail shared by both paths of [get_unused_item]: the second
    emptiness test and the draw.  The result [None] is Python's
    [(None, None)]. *)
Definition choose_unused (unused_items : list (nat * Dict)) : Py (option (nat * Dict)) :=
  match unused_items with
  | [] => logging ERROR "Still no unused content after reset attempt." ;;; ret None
  | _ => let! item := random_choice unused_items in ret (Some item)
  end.

Definition get_unused_item {case_map : CaseMap} (worksheet : Handle) (language : option string)
  : Py (option (nat * Dict)) :=
  try_except
    (let! all_values := get_all_values worksheet in
     if (length all_values <? 2)%nat then
       logging WARNING ("Worksheet '" +:+ title worksheet +:+ "' is empty.") ;;;
       ret None
     else
       let header := hd [] all_values in
       let all_records := dict_zip header <$> tail all_values in
       let unused_items := _filter_unused_items all_records language in
       match unused_items with
       | [] =>
           logging WARNING "No unused content found. Triggering auto-reset." ;;;
           let! ok := _reset_used_flags worksheet language in
           if ok then
             let! all_values := get_all_values worksheet in
             let all_records := dict_zip header <$> tail all_values in
             let unused_items := _filter_unused_items all_records language in
             choose_unused unused_items
           else
             logging ERROR "Auto-reset failed." ;;;
             ret None
       | _ => choose_unused unused_items
       end)
    (λ e, if is_Exception e then
            logging ERROR ("Error getting an unused item: " +:+ exn_str e) ;;;
            ret None
          else raise e).

Definition mark_item_as_used (worksheet : Handle) (row_index : nat) : Py unit :=
  try_except
    (let! now_str := local_time in
     let! header := row_values worksheet 1 in
     let! i := index header "used" in
     let used_col := i + 1 in
     let! j := index header "date_used" in
     let date_used_col := j + 1 in
     let updates := [ mkCell row_index used_col "TRUE";
                      mkCell row_index date_used_col now_str ] in
     update_cells worksheet updates ;;;
     logging INFO ("Successfully marked row " +:+ pretty row_index +:+ " as used."))
    (λ e, match e with
          | ValueError _ =>
              logging WARNING ("Could not find required columns in sheet '"
                               +:+ title worksheet +:+ "': " +:+ exn_str e)
          | SystemExit _ => raise e
          | _ =>
              logging WARNING ("Could not mark row " +:+ pretty row_index
                               +:+ " as used: " +:+ exn_str e)
          end).

(** [get_worksheet]: the cached client, then two requests. *)
Definition _get_client : Py bool := λ w,
  if client w then (Return true, w)
  else
    try_except
      (logging INFO "Initializing Google Sheets client (v2 - using google.auth.default)..." ;;;
       request Authorize (λ w, (Return tt, set_client true w)) ;;;
       logging INFO "Successfully connected and authorized with Google API." ;;;
       ret true)
      (λ e, if is_Exception e then
              logging CRITICAL ("Google API Authentication failed: " +:+ exn_str e) ;;;
              ret false
            else raise e)
      w.

Definition has_spreadsheet (url : string) (w : World) : bool :=
  bool_decide (set_Exists (λ k : Handle, k.1 = url) (dom (sheets w))).

Definition open_by_url (url : string) : Py unit :=
  request (OpenByUrl url)
    (λ w, if has_spreadsheet url w then (Return tt, w) else (Raise SpreadsheetNotFound, w)).

Definition open_worksheet (url name : string) : Py Handle :=
  request (OpenWorksheet url name)
    (λ w, match sheets w !! (url, name) with
          | Some _ => (Return (url, name), w)
          | None => (Raise (WorksheetNotFound name), w)
          end).

Definition get_worksheet (spreadsheet_url worksheet_name : string) : Py (option Handle) :=
  let! ok := _get_client in
  if negb ok then ret None
  else
    try_except
      (open_by_url spreadsheet_url ;;;
       let! ws := open_worksheet spreadsheet_url worksheet_name in
       ret (Some ws))
      (λ e, match e with
            | SpreadsheetNotFound =>
                logging ERROR ("Spreadsheet not found at URL: " +:+ spreadsheet_url) ;;;
                ret None
            | WorksheetNotFound _ =>
                logging ERROR ("Worksheet '" +:+ worksheet_name +:+ "' not found.") ;;;
                ret None
            | SystemExit _ => raise e
            | _ =>
                logging ERROR ("Error opening worksheet '" +:+ worksheet_name +:+ "': "
                               +:+ exn_str e) ;;;
                ret None
            end).

(** ** trigger_jobs.py *)

Definition TIME_WINDOW_MINUTES : Z := 29.

(** [datetime.now(timezone.utc).strftime("%Y-%m-%d %H:%M:%S UTC")] *)
Definition utc_time : Py string := λ w, (Return (utc_now w +:+ " UTC"), w).

Definition check_if_job_ran (worksheet : Handle) (job_key : string) : Py bool :=
  try_except
    (logging INFO ("Verifying lock key '" +:+ job_key +:+ "'...") ;;;
     let! all_job_keys_in_sheet := col_values worksheet 1 in
     if bool_decide (job_key ∈ all_job_keys_in_sheet) then
       logging INFO ("Lock key '" +:+ job_key
                     +:+ "' found in column A. Job has already run. Skipping.") ;;;
       ret true
     else
       logging INFO ("Lock key '" +:+ job_key +:+ "' not found. Job is clear to run.") ;;;
       ret false)
    (λ e, if is_Exception e then
            logging ERROR ("Error checking job status for '" +:+ job_key +:+ "': "
                           +:+ exn_str e) ;;;
            ret true  (* Assume it ran to be safe *)
          else raise e).

Definition mark_job_as_triggered (worksheet : Handle) (job_key : string) : Py unit :=
  try_except
    (let! timestamp_utc := utc_time in
     let status := "TRIGGERED" in
     append_row worksheet [job_key; timestamp_utc; status] ;;;
     logging INFO ("Successfully wrote lock key '" +:+ job_key +:+ "' to Jobs sheet."))
    (λ e, if is_Exception e then
            logging ERROR ("Failed to write job log for '" +:+ job_key +:+ "': "
                           +:+ exn_str e)
          else raise e).

(** [config.json] when it holds a JSON object.  [schedule] is the entry
    of that name when it is a dictionary, as its items in order. *)
Record AppConfig := mkConfig {
  schedule : option (list (string * string));
  logging_spreadsheet : option Dict;
  data_sources : gmap string Dict
}.

(** What [open("config.json")] followed by [json.load] gives: an object;
    [FileNotFoundError] or [JSONDecodeError], with its text; or any other
    exception, with its text ([PermissionError] from [open], or
    [AttributeError] from [.get] on JSON that is not an object). *)
Inductive ConfigFile :=
| ConfigObject (app_config : AppConfig)
| ConfigUnreadable (msg : string)
| ConfigFailure (msg : string).

Definition get_scheduled_jobs (file : ConfigFile) : Py (list (string * string)) :=
  match file with
  | ConfigObject app_config =>
      match schedule app_config with
      | Some schedule => ret schedule
      | None =>
          logging ERROR "'schedule' key not found or is not a dictionary in config.json." ;;;
          ret []
      end
  | ConfigUnreadable msg =>
      logging CRITICAL ("Failed to load or parse config.json: " +:+ msg) ;;;
      ret []
  | ConfigFailure msg => raise (OtherError msg)
  end.

(** [datetime.now(target_tz).strftime("%Y-%m-%d")]: the date part of the
    local clock reading. *)
Definition today_of (w : World) : option string :=
  String.substring 0 10 <$> local_now w.

Definition sys_exit {A} (code : nat) : Py A := raise (SystemExit code).

Section Dispatcher.

(** Lines 146 to 153 of [main]: parse the slot's ["HH:MM"], place it on
    today's local date, convert to UTC and measure from that instant to
    now.  The measure is a [timedelta], here in microseconds; dividing
    its seconds by 60 and comparing with 0 and [TIME_WINDOW_MINUTES] is
    comparing the microseconds with 0 and that many minutes.  Text that
    does not parse raises [ValueError], here [inr] with its message. *)
Variable elapsed_us : string → World → Z + string.

(** What the job started by [subprocess.run] does to the remote
    documents, and whether it exits with status 0. *)
Variable run_once : list string → World → bool * gmap Handle Grid.

(** How [ZoneInfo(tz_str)] fails when the zone cannot be loaded:
    [inl tz_str] is [ZoneInfoNotFoundError] for the name looked up,
    [inr msg] any other exception ([ValueError] for a malformed key). *)
Variable zone_failure : string + string.

(** [repr] of a [str]. *)
Variable repr : string → string.

(** [str] of a list of [str]. *)
Definition list_str (l : list string) : string :=
  "[" +:+ String.concat ", " (repr <$> l) +:+ "]".

Definition time_diff (scheduled_time_str : string) : Py Z := λ w,
  match elapsed_us scheduled_time_str w with
  | inl us => (Return us, w)
  | inr msg => (Raise (ValueError msg), w)
  end.

(** [subprocess.run(argv, check=True)] *)
Definition subprocess_run (argv : list string) : Py unit := λ w,
  let w1 := record_call (Subprocess argv) w in
  let w2 := set_sheets (λ _, (run_once argv w1).2) w1 in
  if (run_once argv w1).1 then (Return tt, w2)
  else (Raise (CalledProcessError "returned non-zero exit status"), w2).

Definition job_key_of (time_key today_local : string) : string :=
  time_key +:+ "_" +:+ today_local.

(** The body of the loop over [scheduled_jobs.items()]. *)
Definition dispatch_slot (log_worksheet : Handle) (today_local : string)
    (time_key scheduled_time_str : string) : Py unit :=
  try_except
    (let! us := time_diff scheduled_time_str in
     if ((0 <=? us) && (us <=? TIME_WINDOW_MINUTES * 60000000))%Z then
       let job_key := job_key_of time_key today_local in
       let! ran := check_if_job_ran log_worksheet job_key in
       if negb ran then
         mark_job_as_triggered log_worksheet job_key ;;;
         logging INFO ("--> Dispatcher: Triggering command: python run_once.py "
                       +:+ time_key) ;;;
         subprocess_run ["python"; "run_once.py"; time_key] ;;;
         logging INFO ("--> Dispatcher: Finished triggering for " +:+ time_key +:+ ".")
       else ret tt
     else ret tt)
    (λ e, if is_Exception e then
            logging CRITICAL ("Dispatcher: An unhandled error occurred for job "
                              +:+ time_key +:+ ": " +:+ exn_str e)
          else raise e).

Fixpoint dispatch_all (log_worksheet : Handle) (today_local : string)
    (scheduled_jobs : list (string * string)) : Py unit :=
  match scheduled_jobs with
  | [] => ret tt
  | (time_key, scheduled_time_str) :: rest =>
      dispatch_slot log_worksheet today_local time_key scheduled_time_str ;;;
      dispatch_all log_worksheet today_local rest
  end.

Definition required_headers : list string :=
  ["job_key"; "trigger_timestamp_utc"; "status"].

(** The second [try] of [main]: find and validate the log sheet. *)
Definition open_log_sheet (file : ConfigFile) : Py Handle :=
  try_except
    (let! app_config :=
       match file with
       | ConfigObject app_config => ret app_config
       | ConfigUnreadable msg | ConfigFailure msg => raise (OtherError msg)
       end in
     match logging_spreadsheet app_config with
     | None =>
         logging CRITICAL "Dispatcher: 'logging_spreadsheet' section with 'spreadsheet_url' not found. Aborting." ;;;
         sys_exit 1
     | Some logging_config =>
         if bool_decide (logging_config = ∅)
            || String.eqb (dict_get logging_config "spreadsheet_url" "") ""
         then
           logging CRITICAL "Dispatcher: 'logging_spreadsheet' section with 'spreadsheet_url' not found. Aborting." ;;;
           sys_exit 1
         else
           let spreadsheet_url := dict_get logging_config "spreadsheet_url" "" in
           let log_sheet_name := dict_get logging_config "jobs_worksheet_name" "Jobs" in
           let! log_worksheet := get_worksheet spreadsheet_url log_sheet_name in
           match log_worksheet with
           | None =>
               logging CRITICAL ("Dispatcher: Could not access log sheet '"
                                 +:+ log_sheet_name +:+ "'. Aborting.") ;;;
               sys_exit 1
           | Some log_worksheet =>
               let! headers := row_values log_worksheet 1 in
               if forallb (λ h, bool_decide (h ∈ headers)) required_headers then
                 logging INFO ("Log sheet headers validated successfully: "
                               +:+ list_str headers) ;;;
                 ret log_worksheet
               else
                 logging CRITICAL ("Log sheet '" +:+ log_sheet_name
                                   +:+ "' is missing required headers. Aborting.") ;;;
                 sys_exit 1
           end
     end)
    (λ e, if is_Exception e then
            logging CRITICAL ("Dispatcher: Failed to access or validate the log sheet: "
                              +:+ exn_str e) ;;;
            sys_exit 1
          else raise e).

(** The first [try] of [main], with the date read from the zone it
    loads: only [ZoneInfoNotFoundError] is caught. *)
Definition local_date : Py string := λ w,
  match today_of w with
  | Some today_local => (Return today_local, w)
  | None =>
      match zone_failure with
      | inl tz_str =>
          (logging CRITICAL ("Timezone '" +:+ tz_str +:+ "' is invalid. Aborting.") ;;;
           sys_exit 1) w
      | inr msg => (Raise (OtherError msg), w)
      end
  end.

Definition main (file : ConfigFile) : Py unit :=
  logging INFO "---  dispatcher: Starting job dispatcher ---" ;;;
  let! scheduled_jobs := get_scheduled_jobs file in
  match scheduled_jobs with
  | [] => logging INFO "Dispatcher: No schedules found. Exiting."
  | _ =>
      let! today_local := local_date in
      let! log_worksheet := open_log_sheet file in
      dispatch_all log_worksheet today_local scheduled_jobs ;;;
      logging INFO "--- dispatcher: Finished checking all schedules ---"
  end.

End Dispatcher.

(** ** src/services/dynamic_content_service.py *)

(** [d[key]] *)
Definition subscript (d : Dict) (key : string) : Py string :=
  match d !! key with
  | Some v => ret v
  | None => raise (KeyError ("'" +:+ key +:+ "'"))
  end.

(** Lines 152 to 172 of [_get_rotating_content]: from the lookup of the
    category's data source to the end. *)
Definition fetch_payload {case_map : CaseMap} (app_config : AppConfig) (content_type_key : string)
  : Py (string * string) :=
  match data_sources app_config !! content_type_key with
  | None =>
      logging ERROR ("Data source for '" +:+ content_type_key +:+ "' not found.") ;;;
      ret (""%string, ""%string)
  | Some content_config =>
      if bool_decide (content_config = ∅) then
        logging ERROR ("Data source for '" +:+ content_type_key +:+ "' not found.") ;;;
        ret (""%string, ""%string)
      else
        let header_text := dict_get content_config "header_text" "" in
        let! spreadsheet_url := subscript content_config "spreadsheet_url" in
        let! worksheet_name := subscript content_config "worksheet_name" in
        let! content_ws := get_worksheet spreadsheet_url worksheet_name in
        match content_ws with
        | None => ret (header_text, "Obsah pre túto tému nie je dostupný."%string)
        | Some content_ws =>
            let! item := get_unused_item content_ws None in
            match item with
            | None => ret (header_text, "Všetok obsah pre túto kategóriu sa vyčerpal."%string)
            | Some (content_idx, content_data) =>
                if bool_decide (content_data = ∅) then
                  ret (header_text, "Všetok obsah pre túto kategóriu sa vyčerpal."%string)
                else
                  let content_body := dict_get content_data "content" "" in
                  mark_item_as_used content_ws content_idx ;;;
                  ret (header_text, content_body)
            end
        end
  end.

Definition _get_rotating_content {case_map : CaseMap} (app_config : AppConfig) (rotation_source_key : string)
  : Py (string * string) :=
  match data_sources app_config !! rotation_source_key with
  | None =>
      logging ERROR ("Rotation source '" +:+ rotation_source_key
                     +:+ "' not found in data_sources.") ;;;
      ret (""%string, ""%string)
  | Some rotation_config =>
      if bool_decide (rotation_config = ∅) then
        logging ERROR ("Rotation source '" +:+ rotation_source_key
                       +:+ "' not found in data_sources.") ;;;
        ret (""%string, ""%string)
      else
        let! spreadsheet_url := subscript rotation_config "spreadsheet_url" in
        let! worksheet_name := subscript rotation_config "worksheet_name" in
        let! rotation_ws := get_worksheet spreadsheet_url worksheet_name in
        match rotation_ws with
        | None => ret (""%string, ""%string)
        | Some rotation_ws =>
            let! item := get_unused_item rotation_ws None in
            match item with
            | None =>
                logging ERROR "Could not get a content type from the rotation sheet." ;;;
                ret ("Chyba"%string, "Nepodarilo sa načítať typ obsahu."%string)
            | Some (rot_idx, rot_data) =>
                if bool_decide (rot_data = ∅) then
                  logging ERROR "Could not get a content type from the rotation sheet." ;;;
                  ret ("Chyba"%string, "Nepodarilo sa načítať typ obsahu."%string)
                else
                  let content_type_key := dict_get rot_data "content" "" in
                  if String.eqb content_type_key "" then
                    logging ERROR "Rotation sheet is missing 'content' column." ;;;
                    ret (""%string, ""%string)
                  else
                    mark_item_as_used rotation_ws rot_idx ;;;
                    fetch_payload app_config content_type_key
            end
        end
  end.

(** ** Vocabulary of the statements *)

(** A record counts as unused when its [used] value upper-cases to
    ["FALSE"], and matches a language filter when its [language] value
    lower-cases to the filter as given. *)
Definition Unused {case_map : CaseMap} (d : Dict) : Prop := upper (dict_get d "used" "") = "FALSE".

Definition Matches {case_map : CaseMap} (language : option string) (d : Dict) : Prop :=
  ∀ l, language = Some l → lower (dict_get d "language" "") = l.

(** The cell at 1-based position [(r, c)]; missing cells read empty. *)
Definition cell_at (g : Grid) (r c : nat) : string :=
  nth (c - 1) (nth (r - 1) g []) "".

(** Strings with the same image under [str.lower]. *)
Definition same_ci {case_map : CaseMap} (a b : string) : Prop := lower a = lower b.

(** A column name that heads at most one column. *)
Definition single_column (name : string) (header : list string) : Prop :=
  ∀ j1 j2, header !! j1 = Some name → header !! j2 = Some name → j1 = j2.

(** The rows a reset addresses. *)
Definition lang_hit {case_map : CaseMap} (language : option string) (d : Dict) : bool :=
  match language with
  | Some l => lang_match d l
  | None => true
  end.

(** The grid after a reset that wrote column [col]: the addressed rows
    carry ["FALSE"] there, every other row is as before. *)
Definition reset_grid {case_map : CaseMap} (language : option string) (col : nat) (g : Grid) : Grid :=
  match g with
  | [] => []
  | header :: rows =>
      header :: map (λ row, if lang_hit language (dict_zip header row)
                            then set_in_row col "FALSE" row else row) rows
  end.

(** The candidates of a grid. *)
Definition candidates {case_map : CaseMap} (g : Grid) (language : option string) : list (nat * Dict) :=
  _filter_unused_items (dict_zip (hd [] g) <$> tail g) language.


(** ** Sample stores *)

Definition quotes : Handle := ("https://docs.example/d/1", "Quotes").

Definition world_of (g : Grid) (draws : list nat) : World :=
  mkWorld {[ quotes := g ]} [] draws (Some "2025-03-14 08:00:00")
          "2025-03-14 07:00:00" true [] [].

Definition mixed_case_grid : Grid :=
  [ ["content"; "used"; "date_used"];
    ["a"; "FALSE"; ""];
    ["b"; "false"; ""] ].

Definition slovak_grid : Grid :=
  [ ["content"; "language"; "used"; "date_used"];
    ["Dobre rano"; "Slovak"; "FALSE"; ""] ].

Definition spent_grid : Grid :=
  [ ["content"; "language"; "used"; "date_used"];
    ["Good morning"; "English"; "TRUE"; "2025-03-01 08:00:00"];
    ["Dobre rano"; "slovak"; "TRUE"; "2025-03-02 08:00:00"];
    ["Good night"; "english"; "TRUE"; "2025-03-03 08:00:00"] ].

Definition no_used_grid : Grid :=
  [ ["content"; "language"];
    ["Good morning"; "english"] ].

(** The cells [mark_item_as_used] sends for row [r]. *)
Definition mark_cells (r i k : nat) (t : string) : list Cell :=
  [mkCell r (i + 1) "TRUE"; mkCell r (k + 1) t].


(** Row [r] is no candidate of the grid. *)
Definition consumed {case_map : CaseMap} (g : Grid) (r : nat) : Prop :=
  ∀ d, (r, d) ∉ candidates g None.

(** A caller working one store: selections and marks, in sequence. *)
Inductive StoreOp :=
| Select (language : option string)
| MarkUsed (row_index : nat).

Definition run_op {case_map : CaseMap} (h : Handle) (op : StoreOp) : Py (option (nat * Dict)) :=
  match op with
  | Select language => get_unused_item h language
  | MarkUsed row_index => mark_item_as_used h row_index ;;; ret None
  end.

Fixpoint run_ops {case_map : CaseMap} (h : Handle) (ops : list StoreOp) : Py (list (option (nat * Dict))) :=
  match ops with
  | [] => ret []
  | op :: rest =>
      let! x := run_op h op in
      let! xs := run_ops h rest in
      ret (x :: xs)
  end.

(** Row indices a caller may pass to [mark_item_as_used]: those a
    selection can have returned. *)
Definition data_rows (ops : list StoreOp) : Prop :=
  ∀ r, MarkUsed r ∈ ops → 2 ≤ r.

(** No request among [new] writes ["FALSE"] into row [r] of [h]. *)
Definition no_reset_of (h : Handle) (r : nat) (new : list Call) : Prop :=
  ∀ cells c, UpdateCells h cells ∈ new → c ∈ cells → cell_row c = r →
             cell_value c ≠ "FALSE"%string.

(** Column A of a grid as [col_values(1)] returns it: the first cell of
    every row, the header row included. *)
Definition column_A (g : Grid) : list string :=
  strip_trailing (map (λ row, nth 0 row "") g).

(** Spec reading of "the ledger's [job_key] column": the data cells under
    the header cell of that name. *)
Definition column_named (name : string) (g : Grid) : list string :=
  match list_index name (hd [] g) with
  | Some j => map (λ row, nth j row "") (tail g)
  | None => []
  end.

Definition jobs : Handle := ("https://docs.example/d/2", "Jobs").

Definition ledger_world (g : Grid) (fs : list (option string)) : World :=
  mkWorld {[ jobs := g ]} fs [] (Some "2025-03-14 08:05:00")
          "2025-03-14 07:05:00" true [] [].

Definition reordered_ledger : Grid :=
  [ ["status"; "job_key"; "trigger_timestamp_utc"] ].

(** The log sheet that [main] opens. *)
Definition ledger_of (app_config : AppConfig) : Handle :=
  match logging_spreadsheet app_config with
  | Some logging_config =>
      (dict_get logging_config "spreadsheet_url" "",
       dict_get logging_config "jobs_worksheet_name" "Jobs")
  | None => (""%string, "Jobs"%string)
  end.




(** Requests that neither append to a sheet nor start a job. *)
Definition quiet (c : Call) : Prop :=
  match c with
  | AppendRow _ _ | Subprocess _ => False
  | _ => True
  end.



Definition sample_config : AppConfig :=
  mkConfig (Some [("time1", "08:00"); ("time2", "20:00")]%string)
           (Some {[ "spreadsheet_url"%string := "https://docs.example/d/2"%string ]})
           ∅.

Definition plain_ledger : Grid :=
  [ ["job_key"; "trigger_timestamp_utc"; "status"]%string ].

(** A clock five minutes past the first slot, far from the second. *)
Definition sample_elapsed (scheduled_time_str : string) (w : World) : Z + string :=
  if String.eqb scheduled_time_str "08:00" then inl 300000000%Z
  else if String.eqb scheduled_time_str "20:00" then inl (-42900000000)%Z
  else inr "invalid literal for int() with base 10"%string.

Definition sample_job (argv : list string) (w : World) : bool * gmap Handle Grid :=
  (false, sheets w).


Definition sample_repr (s : string) : string := "'" +:+ s +:+ "'".



Definition rotation_config : AppConfig :=
  mkConfig None None
    {[ "rotation"%string :=
         {[ "spreadsheet_url"%string := "https://docs.example/d/3"%string;
            "worksheet_name"%string := "Rotation"%string ]} ]}.




(** A computation that only adds to the history of requests. *)
Definition grows {A} (m : Py A) : Prop :=
  ∀ w, ∃ new, calls (m w).2 = calls w ++ new.

(** ** Further vocabulary *)

(** The same world at another reading of the local clock. *)
Definition set_local_now (t : option string) (w : World) : World :=
  mkWorld (sheets w) (faults w) (rng w) t (utc_now w) (client w) (calls w) (log w).

(** A computation that lets only exceptions in [P] reach its caller. *)
Definition raises_only {A} (P : exn → Prop) (m : Py A) : Prop :=
  ∀ w e w', m w = (Raise e, w') → P e.

(** A computation that leaves the sheets alone and issues only requests
    that neither append a row nor start a job. *)
Definition reads_only {A} (m : Py A) : Prop :=
  ∀ w, sheets (m w).2 = sheets w
       ∧ ∃ new, calls (m w).2 = calls w ++ new ∧ Forall quiet new.

(** No exception at all. *)
Definition never (e : exn) : Prop := False.

(** [_get_daily_greeting]; the triple is (greeting, language of origin,
    Slovak translation). *)
Definition _get_daily_greeting {case_map : CaseMap} (app_config : AppConfig) : Py (string * string * string) :=
  match data_sources app_config !! "daily_greetings"%string with
  | None =>
      logging WARNING "Data source 'daily_greetings' not configured." ;;;
      ret (""%string, ""%string, ""%string)
  | Some greeting_config =>
      if bool_decide (greeting_config = ∅) then
        logging WARNING "Data source 'daily_greetings' not configured." ;;;
        ret (""%string, ""%string, ""%string)
      else
        let! spreadsheet_url := subscript greeting_config "spreadsheet_url" in
        let! worksheet_name := subscript greeting_config "worksheet_name" in
        let! worksheet := get_worksheet spreadsheet_url worksheet_name in
        match worksheet with
        | None => ret (""%string, ""%string, ""%string)
        | Some worksheet =>
            let! item := get_unused_item worksheet None in
            match item with
            | None =>
                logging WARNING "No unused greetings found." ;;;
                ret (""%string, ""%string, ""%string)
            | Some (row_idx, item_data) =>
                if bool_decide (item_data = ∅) then
                  logging WARNING "No unused greetings found." ;;;
                  ret (""%string, ""%string, ""%string)
                else
                  mark_item_as_used worksheet row_idx ;;;
                  ret (dict_get item_data "greeting_foreign" "",
                       dict_get item_data "language_origin" "",
                       dict_get item_data "translation_sk" "")
            end
        end
  end.

(** The one exception the content services let through: the
    [KeyError] of a data source that lacks its URL or its worksheet
    name. *)
Definition missing_source_key (app_config : AppConfig) (e : exn) : Prop :=
  ∃ src cfg k,
    data_sources app_config !! src = Some cfg ∧ cfg !! k = None
    ∧ k ∈ ["spreadsheet_url"; "worksheet_name"]%string
    ∧ e = KeyError ("'" +:+ k +:+ "'").

Definition greetings : Handle := ("https://docs.example/d/4", "Greetings")%string.

Definition greetings_config : AppConfig :=
  mkConfig None None
    {[ "daily_greetings"%string :=
         {[ "spreadsheet_url"%string := "https://docs.example/d/4"%string;
            "worksheet_name"%string := "Greetings"%string ]} ]}.

Definition greetings_grid : Grid :=
  [ ["greeting_foreign"; "language_origin"; "translation_sk"; "used"; "date_used"]%string;
    ["Bonjour"; "French"; "Dobry den"; "TRUE"; "2025-03-13 08:00:00"]%string;
    ["Hola"; "Spanish"; "Ahoj"; "FALSE"; ""]%string ].

Definition greetings_world (fs : list (option string)) : World :=
  mkWorld {[ greetings := greetings_grid ]} fs [0] (Some "2025-03-14 08:00:00"%string)
          "2025-03-14 07:00:00"%string true [] [].

(** ** src/prompt_type: the strategies that use no language model

    Two things of their surroundings are parameters here.
    [prompt_text theme language] is what [config.load_prompt] finds for
    a theme and a language: the text of the prompt file, or the message
    of the error it logs (a missing configuration key, a missing file,
    any other failure).  [format template kwargs] is [template.format]
    on keyword arguments: the text, or the exception it raises. *)

(** The requests of opening and selecting: everything but the reads and
    writes of [mark_item_as_used].  A write that clears [used] flags
    belongs to them. *)
Definition unmarked (c : Call) : Prop :=
  match c with
  | Authorize | OpenByUrl _ | OpenWorksheet _ _ | GetAllValues _ => True
  | UpdateCells _ cells => Forall (λ x, cell_value x = "FALSE"%string) cells
  | _ => False
  end.

(** The requests of [get_worksheet url name]. *)
Definition opening (url name : string) (c : Call) : Prop :=
  c = Authorize ∨ c = OpenByUrl url ∨ c = OpenWorksheet url name.

(** A computation all of whose requests satisfy [P]. *)
Definition issues {A} (P : Call → Prop) (m : Py A) : Prop :=
  ∀ w, ∃ new, calls (m w).2 = calls w ++ new ∧ Forall P new.

(** Python's truth value of a string or [None]. *)
Definition truthy (s : option string) : bool :=
  match s with
  | Some s => negb (String.eqb s "")
  | None => false
  end.

Section Prompts.

Variable prompt_text : string → string → string + string.
Variable format : string → list (string * string) → string + exn.

(** [config.load_prompt(config, theme, language)] *)
Definition load_prompt (theme language : string) : Py (option string) :=
  match prompt_text theme language with
  | inl text => ret (Some text)
  | inr msg => logging ERROR msg ;;; ret None
  end.

Definition str_format (template : string) (kwargs : list (string * string)) : Py string :=
  match format template kwargs with
  | inl text => ret text
  | inr e => raise e
  end.

End Prompts.

Module SimpleStaticStrategy.
Section Run.

Variable prompt_text : string → string → string + string.
Variable format : string → list (string * string) → string + exn.

(** [SimpleStaticStrategy.execute]; the result [(None, None)] is a pair
    of [None], and a missing [photo_url] gives [None] as image. *)
Definition execute {case_map : CaseMap} (theme_config : Dict) (lang : string)
  : Py (option string * option string) :=
  let! spreadsheet_url := subscript theme_config "spreadsheet_url" in
  let! worksheet_name := subscript theme_config "worksheet_name" in
  let! worksheet := get_worksheet spreadsheet_url worksheet_name in
  match worksheet with
  | None => ret (None, None)
  | Some worksheet =>
      let! item := get_unused_item worksheet None in
      let no_content :=
        logging WARNING ("No unused content found for theme '"
                         +:+ dict_get theme_config "worksheet_name" "None" +:+ "'.") ;;;
        ret (None, None) in
      match item with
      | None => no_content
      | Some (row_index, item_data) =>
          if bool_decide (item_data = ∅) then no_content
          else
            let! base_template :=
              load_prompt prompt_text (dict_get theme_config "theme_name" "") lang in
            if negb (truthy base_template) then
              logging ERROR "Could not load prompt template for simple_static theme." ;;;
              ret (None, None)
            else
              let base_template := default ""%string base_template in
              let image_url := item_data !! "photo_url"%string in
              let caption := dict_get item_data "caption" "" in
              let family_quote := dict_get item_data "family_quotes" "" in
              let! final_text :=
                try_except
                  (let! final_text := str_format format base_template
                                        [("caption", caption); ("family_quote", family_quote)]%string in
                   ret (Some final_text))
                  (λ e, match e with
                        | KeyError _ =>
                            logging ERROR ("Placeholder " +:+ exn_str e
                                           +:+ " not found in prompt for theme '"
                                           +:+ dict_get theme_config "theme_name" "" +:+ "'.") ;;;
                            ret None
                        | _ => raise e
                        end) in
              match final_text with
              | None => ret (None, None)
              | Some final_text =>
                  mark_item_as_used worksheet row_index ;;;
                  ret (Some final_text, image_url)
              end
      end
  end.

End Run.
End SimpleStaticStrategy.

Module HybridDualStaticStrategy.

(** The state of a [HybridDualStaticStrategy]. *)
Record Strategy := mkStrategy {
  theme_config : Dict;
  lang : string;
  app_config : AppConfig;
  art_ws : option Handle;
  lang_ws : option Handle;
  art_data : option Dict;
  art_idx : option nat;
  lang_data : option Dict;
  lang_idx : option nat
}.

(** [HybridDualStaticStrategy.__init__] *)
Definition __init__ (theme_config : Dict) (lang : string) (app_config : AppConfig)
  : Strategy :=
  mkStrategy theme_config lang app_config None None None None None None.

Definition set_art_ws (ws : option Handle) (s : Strategy) : Strategy :=
  mkStrategy (theme_config s) (lang s) (app_config s) ws (lang_ws s)
             (art_data s) (art_idx s) (lang_data s) (lang_idx s).

Definition set_lang_ws (ws : option Handle) (s : Strategy) : Strategy :=
  mkStrategy (theme_config s) (lang s) (app_config s) (art_ws s) ws
             (art_data s) (art_idx s) (lang_data s) (lang_idx s).

(** [self.art_idx, self.art_data = ...] *)
Definition set_art_item (item : option (nat * Dict)) (s : Strategy) : Strategy :=
  mkStrategy (theme_config s) (lang s) (app_config s) (art_ws s) (lang_ws s)
             (snd <$> item) (fst <$> item) (lang_data s) (lang_idx s).

Definition set_lang_item (item : option (nat * Dict)) (s : Strategy) : Strategy :=
  mkStrategy (theme_config s) (lang s) (app_config s) (art_ws s) (lang_ws s)
             (art_data s) (art_idx s) (snd <$> item) (fst <$> item).

(** [not data]: [None] or an empty dictionary. *)
Definition no_data (data : option Dict) : bool :=
  match data with
  | Some d => bool_decide (d = ∅)
  | None => true
  end.

(** [str(name)] of a source name that may be [None]. *)
Definition source_str (name : option string) : string := default "None"%string name.

(** [app_config.get("data_sources", {}).get(name)], falsy results as
    [None]. *)
Definition source_config (app_config : AppConfig) (name : option string) : option Dict :=
  match name ≫= (data_sources app_config !!.) with
  | Some cfg => if bool_decide (cfg = ∅) then None else Some cfg
  | None => None
  end.

Definition _fetch_art_data {case_map : CaseMap} (s : Strategy) : Py (bool * Strategy) :=
  let art_source_name := theme_config s !! "art_source"%string in
  match source_config (app_config s) art_source_name with
  | None =>
      logging ERROR ("Art source '" +:+ source_str art_source_name
                     +:+ "' not found in data_sources.") ;;;
      ret (false, s)
  | Some art_config =>
      let! spreadsheet_url := subscript art_config "spreadsheet_url" in
      let! worksheet_name := subscript art_config "worksheet_name" in
      let! ws := get_worksheet spreadsheet_url worksheet_name in
      let s := set_art_ws ws s in
      match ws with
      | None => ret (false, s)
      | Some ws =>
          let! item := get_unused_item ws None in
          let s := set_art_item item s in
          if no_data (art_data s) || bool_decide (art_idx s = None) then
            logging WARNING ("No unused art content found in '"
                             +:+ source_str art_source_name +:+ "'.") ;;;
            ret (false, s)
          else ret (true, s)
      end
  end.

Definition _fetch_language_data {case_map : CaseMap} (s : Strategy) : Py (bool * Strategy) :=
  let lang_source_name := theme_config s !! "language_source"%string in
  match source_config (app_config s) lang_source_name with
  | None =>
      logging ERROR ("Language source '" +:+ source_str lang_source_name
                     +:+ "' not found.") ;;;
      ret (false, s)
  | Some lang_config =>
      let! spreadsheet_url := subscript lang_config "spreadsheet_url" in
      let! worksheet_name := subscript lang_config "worksheet_name" in
      let! ws := get_worksheet spreadsheet_url worksheet_name in
      let s := set_lang_ws ws s in
      match ws with
      | None => ret (false, s)
      | Some ws =>
          let! item := get_unused_item ws None in
          let s := set_lang_item item s in
          if no_data (lang_data s) || bool_decide (lang_idx s = None) then
            logging WARNING ("No unused language content found in '"
                             +:+ source_str lang_source_name +:+ "'.") ;;;
            ret (false, s)
          else ret (true, s)
      end
  end.

Section Run.

Variable prompt_text : string → string → string + string.
Variable format : string → list (string * string) → string + exn.

Definition _format_text (s : Strategy) : Py (option string * option string) :=
  if no_data (art_data s) || no_data (lang_data s) then ret (None, None)
  else
    let art := default ∅ (art_data s) in
    let language := default ∅ (lang_data s) in
    let image_url := art !! "image_url"%string in
    let! base_template :=
      load_prompt prompt_text (dict_get (theme_config s) "theme_name" "") (lang s) in
    if negb (truthy base_template) then
      logging ERROR "Could not load prompt template for hybrid_dual_static theme." ;;;
      ret (None, None)
    else
      let! final_text :=
        str_format format (default ""%string base_template)
          [ ("art_title", dict_get art "title" "");
            ("art_artist", dict_get art "artist" "");
            ("art_year", dict_get art "year" "");
            ("art_medium", dict_get art "medium" "");
            ("art_owner", dict_get art "owner" "");
            ("art_credit_line", dict_get art "creditLine" "");
            ("art_object_url", dict_get art "objectURL" "");
            ("lang_name", dict_get language "name" "");
            ("lang_link", dict_get language "link" "") ]%string in
      ret (Some final_text, image_url).

Definition _mark_items_as_used (s : Strategy) : Py unit :=
  match art_ws s, art_idx s with
  | Some ws, Some idx => mark_item_as_used ws idx
  | _, _ => ret tt
  end ;;;
  match lang_ws s, lang_idx s with
  | Some ws, Some idx => mark_item_as_used ws idx
  | _, _ => ret tt
  end.

(** [HybridDualStaticStrategy.execute]; [or] does not evaluate its
    second operand when the first fetch has failed. *)
Definition execute {case_map : CaseMap} (s : Strategy) : Py (option string * option string) :=
  let! (ok, s) := _fetch_art_data s in
  if negb ok then ret (None, None)
  else
    let! (ok, s) := _fetch_language_data s in
    if negb ok then ret (None, None)
    else
      let! (final_text, image_url) := _format_text s in
      (if truthy final_text then _mark_items_as_used s else ret tt) ;;;
      ret (final_text, image_url).

End Run.
End HybridDualStaticStrategy.

(** ** The name-day lookup of src/services/dynamic_content_service.py

    [int] is Python's [int] on a cell text: the number, or nothing where
    Python raises [ValueError].  [strip] is [str.strip].  The date is
    given by its day and month. *)

Section DailyInfo.

Variable int : string → option Z.
Variable strip : string → string.

(** [int(row.get(key, 0))] *)
Definition int_field (row : Dict) (key : string) : Py Z :=
  match row !! key with
  | None => ret 0%Z
  | Some text =>
      match int text with
      | Some z => ret z
      | None => raise (ValueError ("invalid literal for int() with base 10: '"
                                   +:+ text +:+ "'"))
      end
  end.

(** The condition of the loop; [and] reads the month only when the day
    matches. *)
Definition is_today (row : Dict) (now_day now_month : nat) : Py bool :=
  let! d := int_field row "day" in
  if (d =? Z.of_nat now_day)%Z then
    let! m := int_field row "month" in
    ret (m =? Z.of_nat now_month)%Z
  else ret false.

(** The loop over the records and what follows it. *)
Fixpoint find_entry (all_records : list Dict) (now_day now_month : nat)
  : Py (string * string) :=
  match all_records with
  | [] =>
      logging WARNING ("No name day entry found for date " +:+ pretty now_day +:+ "."
                       +:+ pretty now_month +:+ ".") ;;;
      ret ("dnes nikto neoslavuje", "—")%string
  | row :: rest =>
      let! today := is_today row now_day now_month in
      if today then
        let name := dict_get row "name" "N/A" in
        let international_day := strip (dict_get row "international_day" "") in
        ret (name, if String.eqb international_day "" then "—"%string
                   else international_day)
      else find_entry rest now_day now_month
  end.

Definition _get_daily_info_from_sheet (app_config : AppConfig) (now_day now_month : nat)
  : Py (string * string) :=
  logging INFO "Fetching daily info (name day, international day)..." ;;;
  try_except
    (match data_sources app_config !! "name_days_sk"%string with
     | None =>
         logging ERROR "Data source 'name_days_sk' not found in config." ;;;
         ret ("N/A", "—")%string
     | Some source_config =>
         if bool_decide (source_config = ∅) then
           logging ERROR "Data source 'name_days_sk' not found in config." ;;;
           ret ("N/A", "—")%string
         else
           let! spreadsheet_url := subscript source_config "spreadsheet_url" in
           let! worksheet_name := subscript source_config "worksheet_name" in
           let! worksheet := get_worksheet spreadsheet_url worksheet_name in
           match worksheet with
           | None => ret ("N/A", "—")%string
           | Some worksheet =>
               let! all_values := get_all_values worksheet in
               if (length all_values <? 2)%nat then
                 logging WARNING "Worksheet for name days is empty." ;;;
                 ret ("N/A", "—")%string
               else
                 let header := hd [] all_values in
                 let all_records := dict_zip header <$> tail all_values in
                 find_entry all_records now_day now_month
           end
     end)
    (λ e, if is_Exception e then
            logging ERROR ("Failed to get daily info from Google Sheet: " +:+ exn_str e) ;;;
            ret ("N/A", "—")%string
          else raise e).

End DailyInfo.

(** A record whose [day] and [month] read as numbers other than the
    date's. *)
Definition other_day (int : string → option Z) (now_day now_month : nat) (row : Dict)
  : Prop :=
  ∃ d, int_field int row "day" = ret d
       ∧ (d ≠ Z.of_nat now_day
          ∨ ∃ m, int_field int row "month" = ret m ∧ m ≠ Z.of_nat now_month).

(** A record of the date. *)
Definition this_day (int : string → option Z) (now_day now_month : nat) (row : Dict)
  : Prop :=
  int_field int row "day" = ret (Z.of_nat now_day)
  ∧ int_field int row "month" = ret (Z.of_nat now_month).

Definition name_days : Handle := ("https://docs.example/d/5", "NameDays")%string.

Definition name_days_config : AppConfig :=
  mkConfig None None
    {[ "name_days_sk"%string :=
         {[ "spreadsheet_url"%string := "https://docs.example/d/5"%string;
            "worksheet_name"%string := "NameDays"%string ]} ]}.

Definition name_days_grid : Grid :=
  [ ["day"; "month"; "name"; "international_day"]%string;
    ["13"; "3"; "Vlastimil"; ""]%string;
    ["x"; "3"; "Broken"; ""]%string;
    ["14"; "3"; "Matilda"; "Pi Day"]%string ].

Definition name_days_world (g : Grid) : World :=
  mkWorld {[ name_days := g ]} [] [] (Some "2025-03-14 08:00:00"%string)
          "2025-03-14 07:00:00"%string true [] [].

(** A reading of the decimal numbers the samples use. *)
Definition sample_int (text : string) : option Z :=
  if String.eqb text "3" then Some 3%Z
  else if String.eqb text "13" then Some 13%Z
  else if String.eqb text "14" then Some 14%Z
  else None.

(** ** src/core.py: the content groups of a job *)

Module JobProcessor.

(** A user of [config.json], by the entries this code reads; an absent
    entry is [None]. *)
Record User := mkUser {
  active : option bool;
  description : option string;
  language : option string;
  subscriptions : option (gmap string (list string))
}.

(** A [defaultdict(list)] keyed by (theme, language), in insertion
    order. *)
Abbreviation Groups := (list ((string * string) * list User)).

(** [content_groups[key].append(user)] *)
Fixpoint append_to (key : string * string) (user : User) (content_groups : Groups)
  : Groups :=
  match content_groups with
  | [] => [(key, [user])]
  | (k, us) :: rest =>
      if decide (k = key) then (k, us ++ [user]) :: rest
      else (k, us) :: append_to key user rest
  end.

(** [u.get("subscriptions", {}).get(time_key)], nothing as the empty
    list. *)
Definition themes_of (time_key : string) (u : User) : list string :=
  default [] (default ∅ (subscriptions u) !! time_key).

Definition is_active (u : User) : bool := default true (active u).

Definition described_in (user_filter : list string) (u : User) : bool :=
  match description u with
  | Some d => bool_decide (d ∈ user_filter)
  | None => false
  end.

Definition is_subscribed (time_key : string) (u : User) : bool :=
  match themes_of time_key u with
  | [] => false
  | _ => true
  end.

(** [str] of a list of strings that need no escaping. *)
Definition str_list (l : list string) : string :=
  "[" +:+ String.concat ", " ((λ s, "'" +:+ s +:+ "'") <$> l) +:+ "]".

Definition _prepare_content_groups (users : list User) (time_key : string)
    (user_filter : option (list string)) : Py (option Groups) :=
  let active_users := List.filter is_active users in
  let! target_users :=
    match user_filter with
    | None | Some [] => ret (Some active_users)
    | Some user_filter =>
        logging INFO ("Applying user filter for: " +:+ str_list user_filter) ;;;
        match List.filter (described_in user_filter) active_users with
        | [] =>
            logging WARNING "No active users found matching the filter." ;;;
            ret None
        | target_users => ret (Some target_users)
        end
    end in
  match target_users with
  | None => ret None
  | Some target_users =>
      match List.filter (is_subscribed time_key) target_users with
      | [] =>
          logging INFO ("No active users subscribed for '" +:+ time_key +:+ "'.") ;;;
          ret None
      | subscribed_users =>
          let content_groups :=
            foldl (λ content_groups user,
                     let lang := default "slovak"%string (language user) in
                     foldl (λ content_groups theme, append_to (theme, lang) user content_groups)
                           content_groups (themes_of time_key user))
                  [] subscribed_users in
          logging INFO ("Found " +:+ pretty (length content_groups) +:+ " content groups.") ;;;
          ret (Some content_groups)
      end
  end.

(** The body of the loop over the subscribed users. *)
Definition add_user (time_key : string) (content_groups : Groups) (user : User) : Groups :=
  foldl (λ content_groups theme,
           append_to (theme, default "slovak"%string (language user)) user content_groups)
        content_groups (themes_of time_key user).

(** User [u] is in the group of [key]. *)
Definition in_group (content_groups : Groups) (key : string * string) (u : User) : Prop :=
  ∃ us, (key, us) ∈ content_groups ∧ u ∈ us.

(** The users a job addresses: active, named by the filter when there
    is one, and subscribed to the slot. *)
Definition addressed (user_filter : option (list string)) (time_key : string) (u : User)
  : Prop :=
  is_active u = true
  ∧ match user_filter with
    | None | Some [] => True
    | Some user_filter => described_in user_filter u = true
    end
  ∧ is_subscribed time_key u = true.

End JobProcessor.

(** A payload source over the sample store [quotes]. *)
Definition payload_config : AppConfig :=
  mkConfig None None
    {[ "quotes"%string :=
         {[ "spreadsheet_url"%string := "https://docs.example/d/1"%string;
            "worksheet_name"%string := "Quotes"%string;
            "header_text"%string := "Quote of the day"%string ]} ]}.

(** ** The case maps of ASCII text

    The samples are ASCII text, and on ASCII text [str.upper] and
    [str.lower] are these maps. *)
Definition ascii_case : CaseMap :=
  {| upper := map_text ascii_upper;
     lower := map_text ascii_lower;
     upper_ascii_text := λ s _, eq_refl;
     lower_ascii_text := λ s _, eq_refl;
     lower_lower := ltac:(intros s; induction s as [|c s IH]; simpl;
                          [reflexivity | rewrite IH; f_equal;
                           destruct c as [[] [] [] [] [] [] [] []]; reflexivity]) |}.

#[global] Existing Instance ascii_case.
(** * Facts about the building blocks *)

Section WithCaseMap.
Context {case_map : CaseMap}.

Lemma upper_FALSE : upper "FALSE" = "FALSE"%string.
Proof. by rewrite upper_ascii_text. Qed.

Lemma upper_TRUE : upper "TRUE" ≠ "FALSE"%string.
Proof. by rewrite upper_ascii_text. Qed.

Lemma upper_empty : upper "" ≠ "FALSE"%string.
Proof. by rewrite upper_ascii_text. Qed.

Lemma is_unused_spec d : is_unused d = true ↔ Unused d.
Proof. unfold is_unused, Unused. apply String.eqb_eq. Qed.

Lemma lang_match_spec d l : lang_match d l = true ↔ lower (dict_get d "language" "") = l.
Proof. unfold lang_match. apply String.eqb_eq. Qed.

Lemma filter_from_elem i records language n d :
  (n, d) ∈ filter_from i records language ↔
  ∃ j, n = i + j + 2 ∧ records !! j = Some d ∧ Unused d ∧ Matches language d.
Proof.
  revert i. induction records as [|row rest IH]; intros i; simpl.
  - split; [by intros ?%elem_of_nil | by intros (j & _ & ? & _)].
  - assert (Hstep : (n, d) ∈ filter_from (S i) rest language ↔
              ∃ j, n = i + S j + 2 ∧ rest !! j = Some d ∧ Unused d ∧ Matches language d).
    { rewrite IH. split; intros (j & -> & ?); exists j; split; auto; lia. }
    assert (Hhere : ∀ P : Prop, (P ↔ Unused row ∧ Matches language row) →
              ((n, d) = (i + 2, row) ∧ P ∨ (n, d) ∈ filter_from (S i) rest language) ↔
              ∃ j, n = i + j + 2 ∧ (row :: rest) !! j = Some d ∧ Unused d ∧ Matches language d).
    { intros P HP. rewrite Hstep. split.
      - intros [[[= -> ->] HPr] | (j & -> & ? & ?)].
        + exists 0. rewrite Nat.add_0_r. split; [done|]. split; [done|]. by apply HP.
        + exists (S j). auto.
      - intros ([|j] & -> & Hl & Hu).
        + simpl in Hl. injection Hl as ->. left. rewrite Nat.add_0_r.
          split; [done|]. by apply HP.
        + right. exists j. auto. }
    destruct language as [l|].
    + destruct (is_unused row && lang_match row l) eqn:E.
      * rewrite elem_of_cons, <- (Hhere True); [tauto|].
        apply andb_true_iff in E as [E1 E2]. split; [|done]. intros _.
        split; [by apply is_unused_spec|]. intros ? [= <-]. by apply lang_match_spec.
      * rewrite <- (Hhere False); [tauto|]. split; [done|].
        intros [Hu Hm]. apply is_unused_spec in Hu. specialize (Hm l eq_refl).
        apply lang_match_spec in Hm. rewrite Hu, Hm in E. done.
    + destruct (is_unused row) eqn:E.
      * rewrite elem_of_cons, <- (Hhere True); [tauto|]. split; [|done]. intros _.
        split; [by apply is_unused_spec|]. intros ? [=].
      * rewrite <- (Hhere False); [tauto|]. split; [done|].
        intros [Hu _]. apply is_unused_spec in Hu. congruence.
Qed.

Lemma filter_from_bound i records language n d :
  (n, d) ∈ filter_from i records language → i + 2 ≤ n.
Proof. rewrite filter_from_elem. intros (j & -> & _). lia. Qed.

Lemma filter_from_NoDup i records language :
  NoDup (filter_from i records language).*1.
Proof.
  revert i. induction records as [|row rest IH]; intros i; simpl; [constructor|].
  assert (Hfresh : i + 2 ∉ (filter_from (S i) rest language).*1).
  { intros ((n & d) & Hn & Hin)%list_elem_of_fmap. simpl in Hn. subst n.
    apply filter_from_bound in Hin. lia. }
  destruct language as [l|].
  - destruct (is_unused row && lang_match row l); [|apply IH].
    rewrite fmap_cons. constructor; [apply Hfresh | apply IH].
  - destruct (is_unused row); [|apply IH].
    rewrite fmap_cons. constructor; [apply Hfresh | apply IH].
Qed.

(** ** Running requests when the remote side answers *)

Lemma quiet_step c w :
  faults w = [] → set_faults (tail (faults w)) (record_call c w) = record_call c w.
Proof. intros Hf. destruct w; simpl in *; subst; reflexivity. Qed.

Lemma request_run {A} c (serve : Py A) w :
  faults w = [] → request c serve w = serve (record_call c w).
Proof. intros Hf. unfold request. rewrite quiet_step by done. by rewrite Hf. Qed.

Lemma get_all_values_run h w g :
  faults w = [] → sheets w !! h = Some g →
  get_all_values h w = (Return g, record_call (GetAllValues h) w).
Proof.
  intros Hf Hs. unfold get_all_values. rewrite request_run by done.
  unfold with_sheet, ret. simpl. by rewrite Hs.
Qed.

Lemma choose_unused_run (c : nat * Dict) cs w :
  choose_unused (c :: cs) w =
  (Return ((c :: cs) !! (hd 0 (rng w) mod length (c :: cs))), set_rng (tail (rng w)) w).
Proof.
  unfold choose_unused, bind, random_choice, ret.
  assert (Hlt : hd 0 (rng w) mod length (c :: cs) < length (c :: cs)).
  { apply Nat.mod_upper_bound. simpl. lia. }
  destruct (lookup_lt_is_Some_2 _ _ Hlt) as [x Hx].
  rewrite Hx. f_equal. f_equal. f_equal.
  rewrite nth_lookup, Hx. done.
Qed.

Lemma candidates_elem header rows language i d :
  (i, d) ∈ candidates (header :: rows) language ↔
  2 ≤ i ∧ ∃ row, (header :: rows) !! (i - 1) = Some row ∧ d = dict_zip header row
                 ∧ Unused d ∧ Matches language d.
Proof.
  unfold candidates, _filter_unused_items. simpl. rewrite filter_from_elem. split.
  - intros (j & -> & Hl & Hu).
    apply list_lookup_fmap_Some in Hl as (row & -> & Hrow).
    split; [lia|]. exists row. replace (0 + j + 2 - 1) with (S j) by lia. auto.
  - intros (Hi & row & Hl & -> & Hu). exists (i - 2). split; [lia|].
    replace (i - 1) with (S (i - 2)) in Hl by lia. simpl in Hl.
    rewrite list_lookup_fmap, Hl. auto.
Qed.

Lemma get_unused_item_run w h language g c cs :
  faults w = [] → sheets w !! h = Some g →
  candidates g language = c :: cs →
  get_unused_item h language w =
  (Return ((c :: cs) !! (hd 0 (rng w) mod length (c :: cs))),
   set_rng (tail (rng w)) (record_call (GetAllValues h) w)).
Proof.
  intros Hf Hs Hc. unfold get_unused_item, try_except, bind at 1.
  rewrite (get_all_values_run h w g Hf Hs).
  destruct (length g <? 2)%nat eqn:Hlen.
  { apply Nat.ltb_lt in Hlen. destruct g as [|? [|]]; simpl in Hlen; [done|done|lia]. }
  unfold candidates in Hc. rewrite Hc, choose_unused_run. done.
Qed.

(** * Selection: [get_unused_item] *)

End WithCaseMap.

(** C1 (as stated, refuted): a store with a row whose [used] is ["FALSE"]
    and a row whose [used] is ["false"]; the draw picks the second row, so
    the record returned does not carry [used] = ["FALSE"]. *)
Lemma select_returns_lowercase_false :
  (∃ row, row ∈ tail mixed_case_grid
          ∧ dict_get (dict_zip (hd [] mixed_case_grid) row) "used" "" = "FALSE")
  ∧ ∃ d w', get_unused_item quotes None (world_of mixed_case_grid [1])
            = (Return (Some (3, d)), w')
            ∧ dict_get d "used" "" = "false"
            ∧ dict_get d "used" "" ≠ "FALSE".
Proof.
  split.
  - exists ["a"; "FALSE"; ""]. split; [apply list_elem_of_here | reflexivity].
  - eexists _, _. split; [vm_compute; reflexivity|].
    split; [reflexivity | discriminate].
Qed.

Section WithCaseMap.
Context {case_map : CaseMap}.


(** C1 (amended): when the store answers and holds a data row that is
    unused ([str.upper] of its [used] value is ["FALSE"]) and matches the
    language filter ([str.lower] of its [language] value is the filter),
    [get_unused_item] returns the candidate selected by the draw.  The candidates are exactly the unused matching rows, each
    once, with its 1-based row index (at least 2) and the record of the
    store's row at that index; a draw [j] below the number of candidates
    selects the [j]-th one, so a uniform draw is a uniform choice.  The
    store is not written. *)
Theorem get_unused_item_selects w h language header rows :
  faults w = [] →
  sheets w !! h = Some (header :: rows) →
  (∃ row, row ∈ rows ∧ Unused (dict_zip header row)
          ∧ Matches language (dict_zip header row)) →
  let cands := candidates (header :: rows) language in
  let k := hd 0 (rng w) mod length cands in
  NoDup cands.*1
  ∧ (∀ i d, (i, d) ∈ cands ↔
       2 ≤ i ∧ ∃ row, (header :: rows) !! (i - 1) = Some row
                      ∧ d = dict_zip header row ∧ Unused d ∧ Matches language d)
  ∧ k < length cands
  ∧ (hd 0 (rng w) < length cands → k = hd 0 (rng w))
  ∧ ∃ i d, cands !! k = Some (i, d)
      ∧ get_unused_item h language w
        = (Return (Some (i, d)),
           set_rng (tail (rng w)) (record_call (GetAllValues h) w)).
Proof.
  intros Hf Hs (row & Hin & Hu & Hm) cands k.
  assert (Hne : cands ≠ []).
  { apply list_elem_of_lookup in Hin as [j Hj].
    assert (Hc : (j + 2, dict_zip header row) ∈ cands).
    { apply candidates_elem. split; [lia|]. exists row.
      replace (j + 2 - 1) with (S j) by lia. auto. }
    intros E. rewrite E in Hc. by apply elem_of_nil in Hc. }
  assert (Hk : k < length cands).
  { apply Nat.mod_upper_bound. destruct cands; simpl; [done | lia]. }
  split; [apply filter_from_NoDup|].
  split; [intros; apply candidates_elem|].
  split; [done|].
  split; [intros; by apply Nat.mod_small|].
  destruct (lookup_lt_is_Some_2 _ _ Hk) as [[i d] Hid].
  exists i, d. split; [done|].
  destruct cands as [|c cs] eqn:E; [done|].
  rewrite (get_unused_item_run w h language _ c cs Hf Hs E).
  fold k. by rewrite Hid.
Qed.

End WithCaseMap.

Lemma get_unused_item_selects_witness :
  ∃ i d, candidates mixed_case_grid None !! 1 = Some (i, d)
    ∧ get_unused_item quotes None (world_of mixed_case_grid [1])
      = (Return (Some (i, d)),
         set_rng [] (record_call (GetAllValues quotes) (world_of mixed_case_grid [1]))).
Proof.
  refine (proj2 (proj2 (proj2 (proj2
    (get_unused_item_selects (case_map := ascii_case) (world_of mixed_case_grid [1]) quotes None
       ["content"; "used"; "date_used"] [["a"; "FALSE"; ""]; ["b"; "false"; ""]]
       eq_refl eq_refl _))))).
  exists ["a"; "FALSE"; ""]. split; [apply list_elem_of_here|].
  split; [reflexivity | intros l Hl; discriminate Hl].
Defined.

Section WithCaseMap.
Context {case_map : CaseMap}.


(** * The language filter *)

Lemma reset_from_elem i records language col c :
  c ∈ reset_from i records language col ↔
  ∃ j d, c = mkCell (i + j + 2) col "FALSE" ∧ records !! j = Some d ∧ Matches language d.
Proof.
  revert i. induction records as [|row rest IH]; intros i; simpl.
  - split; [by intros ?%elem_of_nil | by intros (j & d & _ & ? & _)].
  - assert (Hstep : c ∈ reset_from (S i) rest language col ↔
              ∃ j d, c = mkCell (i + S j + 2) col "FALSE" ∧ rest !! j = Some d
                     ∧ Matches language d).
    { rewrite IH. split; intros (j & d & -> & ?); exists j, d; split; auto; f_equal; lia. }
    assert (Hhere : ∀ P : Prop, (P ↔ Matches language row) →
              (c = mkCell (i + 2) col "FALSE" ∧ P
               ∨ c ∈ reset_from (S i) rest language col) ↔
              ∃ j d, c = mkCell (i + j + 2) col "FALSE" ∧ (row :: rest) !! j = Some d
                     ∧ Matches language d).
    { intros P HP. rewrite Hstep. split.
      - intros [[-> HPr] | (j & d & -> & ? & ?)].
        + exists 0, row. rewrite Nat.add_0_r. split; [done|]. split; [done|]. by apply HP.
        + exists (S j), d. auto.
      - intros ([|j] & d & -> & Hl & Hm).
        + simpl in Hl. injection Hl as ->. left. rewrite Nat.add_0_r.
          split; [done|]. by apply HP.
        + right. exists j, d. auto. }
    destruct language as [l|].
    + destruct (lang_match row l) eqn:E.
      * rewrite elem_of_cons, <- (Hhere True); [tauto|]. split; [|done]. intros _.
        intros ? [= <-]. by apply lang_match_spec.
      * rewrite <- (Hhere False); [tauto|]. split; [done|].
        intros Hm. specialize (Hm l eq_refl). apply lang_match_spec in Hm. congruence.
    + rewrite elem_of_cons, <- (Hhere True); [tauto|]. split; [|done]. intros _ ? [=].
Qed.

End WithCaseMap.

(** C6 (as stated, refuted): the filter ["Slovak"] and a single unused row
    whose language is ["Slovak"] as well.  The row equals the filter, yet
    it is no candidate, and the call ends with no item. *)
Lemma capitalised_filter_selects_nothing :
  (∃ row, tail slovak_grid = [row]
          ∧ Unused (dict_zip (hd [] slovak_grid) row)
          ∧ same_ci (dict_get (dict_zip (hd [] slovak_grid) row) "language" "") "Slovak")
  ∧ candidates slovak_grid (Some "Slovak") = []
  ∧ ∃ w', get_unused_item quotes (Some "Slovak") (world_of slovak_grid [0])
          = (Return None, w').
Proof.
  split; [|split].
  - eexists. split; [reflexivity|]. split; reflexivity.
  - reflexivity.
  - eexists. vm_compute. reflexivity.
Qed.

Section WithCaseMap.
Context {case_map : CaseMap}.


(** C6 (amended): with a filter [f], the candidates of the selection are
    exactly the rows for which [str.upper] of the [used] value is
    ["FALSE"] and [str.lower] of the [language] value is [f] as given
    ([f] itself is not lower-cased).  So a candidate's language and [f]
    have the same image under [str.lower]; a row whose language has the
    same image as [f] is a candidate when [str.lower] leaves [f] as it
    is; and a filter that [str.lower] changes has no candidates.  The
    reset picks its rows by the same test.  This holds of every text,
    ASCII or not: only what every [str.lower] satisfies is used. *)
Theorem filter_language_exact (records : list Dict) (f : string) :
  (∀ i d, (i, d) ∈ _filter_unused_items records (Some f) ↔
     2 ≤ i ∧ records !! (i - 2) = Some d
     ∧ upper (dict_get d "used" "") = "FALSE"
     ∧ lower (dict_get d "language" "") = f)
  ∧ (∀ i d, (i, d) ∈ _filter_unused_items records (Some f) →
       same_ci (dict_get d "language" "") f)
  ∧ (lower f = f → ∀ j d, records !! j = Some d → Unused d →
       same_ci (dict_get d "language" "") f →
       (j + 2, d) ∈ _filter_unused_items records (Some f))
  ∧ (lower f ≠ f → _filter_unused_items records (Some f) = [])
  ∧ (∀ col c, c ∈ reset_from 0 records (Some f) col ↔
       ∃ j d, c = mkCell (j + 2) col "FALSE" ∧ records !! j = Some d
              ∧ lower (dict_get d "language" "") = f).
Proof.
  assert (Hm : ∀ d, Matches (Some f) d ↔ lower (dict_get d "language" "") = f).
  { intros d. unfold Matches. split; [auto | by intros ? ? [= <-]]. }
  assert (H1 : ∀ i d, (i, d) ∈ _filter_unused_items records (Some f) ↔
     2 ≤ i ∧ records !! (i - 2) = Some d
     ∧ upper (dict_get d "used" "") = "FALSE"
     ∧ lower (dict_get d "language" "") = f).
  { intros i d. unfold _filter_unused_items. rewrite filter_from_elem. split.
    - intros (j & -> & Hl & Hu & Hl'). simpl. replace (j + 2 - 2) with j by lia.
      split; [lia|]. split; [done|]. split; [exact Hu|]. by apply (proj1 (Hm d)).
    - intros (Hi & Hl & Hu & Hl'). exists (i - 2). split; [simpl; lia|].
      split; [done|]. split; [exact Hu|]. by apply (proj2 (Hm d)). }
  split; [exact H1|]. split; [|split; [|split]].
  - intros i d (_ & _ & _ & Hl)%H1. unfold same_ci.
    rewrite <- Hl. by rewrite lower_lower.
  - intros Hf j d Hl Hu Hci. apply H1. replace (j + 2 - 2) with j by lia.
    split; [lia|]. split; [done|]. split; [done|].
    unfold same_ci in Hci. by rewrite Hci.
  - intros Hf. destruct (_filter_unused_items records (Some f)) as [|[i d] l] eqn:E; [done|].
    destruct (proj1 (H1 i d) (list_elem_of_here _ _)) as (_ & _ & _ & Hl). destruct Hf.
    rewrite <- Hl. apply lower_lower.
  - intros col c. rewrite reset_from_elem. simpl.
    split; intros (j & d & -> & Hl & Hx); exists j, d; (split; [done|]); (split; [done|]).
    + exact (proj1 (Hm d) Hx).
    + exact (proj2 (Hm d) Hx).
Qed.

End WithCaseMap.

Lemma filter_language_exact_witness :
  (2, dict_zip (hd [] slovak_grid) ["Dobre rano"; "Slovak"; "FALSE"; ""])
    ∈ _filter_unused_items (dict_zip (hd [] slovak_grid) <$> tail slovak_grid)
        (Some "slovak").
Proof.
  refine (proj1 (proj2 (proj2 (filter_language_exact (case_map := ascii_case)
            (dict_zip (hd [] slovak_grid) <$> tail slovak_grid) "slovak")))
          eq_refl 0 _ eq_refl _ _); reflexivity.
Defined.

Section WithCaseMap.
Context {case_map : CaseMap}.


(** * Headers and records *)

Lemma list_index_Some x l j :
  list_index x l = Some j → l !! j = Some x ∧ ∀ j', j' < j → l !! j' ≠ Some x.
Proof.
  revert j. induction l as [|y l IH]; intros j; simpl; [done|].
  case_decide as Hy.
  - intros [= <-]. split; [by subst|]. lia.
  - destruct (list_index x l) as [i|] eqn:E; simpl; [|done].
    intros [= <-]. destruct (IH i eq_refl) as [H1 H2]. split; [done|].
    intros [|j'] Hlt; simpl; [congruence|]. apply H2. lia.
Qed.

Lemma list_index_None x l : list_index x l = None ↔ x ∉ l.
Proof.
  induction l as [|y l IH]; simpl.
  - split; [intros _; apply not_elem_of_nil | done].
  - case_decide as Hy.
    + subst. split; [done|]. intros H. destruct H. apply list_elem_of_here.
    + destruct (list_index x l) eqn:E; simpl.
      * split; [done|]. intros H. exfalso. apply H. apply list_elem_of_further.
        destruct (decide (x ∈ l)) as [|Hn]; [done|]. apply IH in Hn. done.
      * split; [|done]. intros _. apply not_elem_of_cons. split; [congruence|].
        by apply IH.
Qed.

Lemma strip_trailing_index x l :
  x ≠ "" → list_index x (strip_trailing l) = list_index x l.
Proof.
  intros Hx. induction l as [|y l IH]; simpl; [done|].
  destruct (strip_trailing l) as [|t ts] eqn:E.
  - simpl in IH. rewrite <- IH.
    destruct (String.eqb_spec y ""); simpl.
    + subst. case_decide; [congruence | done].
    + case_decide; done.
  - rewrite <- IH. simpl. done.
Qed.

Lemma foldl_insert_union (l : list (string * string)) (m : Dict) :
  foldl (λ d kv, <[kv.1 := kv.2]> d) m l
  = foldl (λ d kv, <[kv.1 := kv.2]> d) ∅ l ∪ m.
Proof.
  revert m. induction l as [|[k v] l IH]; intros m; simpl.
  - by rewrite (left_id_L ∅ (∪)).
  - rewrite (IH (<[k:=v]> m)), (IH (<[k:=v]> ∅)).
    rewrite <- (assoc_L (∪)). f_equal.
    rewrite insert_union_singleton_l. by rewrite insert_empty.
Qed.

Lemma dict_zip_cons h hs r rs k :
  dict_zip (h :: hs) (r :: rs) !! k
  = match dict_zip hs rs !! k with
    | Some v => Some v
    | None => if decide (h = k) then Some r else None
    end.
Proof.
  unfold dict_zip. simpl. rewrite foldl_insert_union, lookup_union.
  destruct (foldl _ ∅ (zip hs rs) !! k) as [v|] eqn:E.
  - by rewrite union_Some_l.
  - rewrite (left_id_L None union). rewrite lookup_insert. case_decide; [done|].
    apply lookup_empty.
Qed.

Lemma dict_zip_nil_r header k : dict_zip header [] !! k = None.
Proof. unfold dict_zip. destruct header; apply lookup_empty. Qed.

Lemma dict_zip_absent header row k : k ∉ header → dict_zip header row !! k = None.
Proof.
  revert row. induction header as [|h hs IH]; intros row Hk.
  - apply lookup_empty.
  - destruct row as [|r rs]; [apply dict_zip_nil_r|].
    apply not_elem_of_cons in Hk as [Hne Hk].
    rewrite dict_zip_cons, (IH rs Hk). case_decide; congruence.
Qed.

Lemma single_column_tail name h hs : single_column name (h :: hs) → single_column name hs.
Proof. intros Hs j1 j2 H1 H2. assert (S j1 = S j2) by (by apply Hs). lia. Qed.

(** With a single column of that name, the record reads the row's cell
    under it. *)
Lemma dict_zip_lookup header row k j :
  header !! j = Some k → single_column k header →
  dict_zip header row !! k = row !! j.
Proof.
  revert row j. induction header as [|h hs IH]; intros row j Hj Hs; [done|].
  destruct row as [|r rs]; [by rewrite dict_zip_nil_r|].
  rewrite dict_zip_cons. destruct j as [|j]; simpl in *.
  - injection Hj as ->. rewrite dict_zip_absent.
    + case_decide; done.
    + intros [i Hi]%list_elem_of_lookup. specialize (Hs 0 (S i) eq_refl Hi). done.
  - rewrite (IH rs j Hj (single_column_tail _ _ _ Hs)).
    destruct (rs !! j); [done|]. case_decide as Hh; [|done].
    subst. specialize (Hs 0 (S j) eq_refl Hj). done.
Qed.

(** * Writing cells *)

Lemma pad_to_ge {A} n (d : A) l : n ≤ length l → pad_to n d l = l.
Proof.
  intros Hn. unfold pad_to. replace (n - length l) with 0 by lia.
  apply app_nil_r.
Qed.

Lemma set_cell_row pre row rest c v :
  set_cell (pre ++ row :: rest) (mkCell (length pre + 1) c v)
  = pre ++ set_in_row c v row :: rest.
Proof.
  unfold set_cell. simpl.
  rewrite pad_to_ge by (rewrite length_app; simpl; lia).
  replace (length pre + 1 - 1) with (length pre + 0) by lia.
  rewrite insert_app_r. simpl. f_equal. f_equal. f_equal.
  rewrite Nat.add_0_r, nth_lookup, list_lookup_middle by done. done.
Qed.

Lemma write_reset_from header language col pre rows i :
  length pre = i + 1 →
  write_cells (reset_from i (dict_zip header <$> rows) language col) (pre ++ rows)
  = pre ++ map (λ row, if lang_hit language (dict_zip header row)
                       then set_in_row col "FALSE" row else row) rows.
Proof.
  revert pre i. induction rows as [|row rest IH]; intros pre i Hlen; [done|].
  simpl.
  assert (Hrec : ∀ row', write_cells (reset_from (S i) (dict_zip header <$> rest) language col)
                   (pre ++ row' :: rest)
                 = pre ++ row' :: map (λ row, if lang_hit language (dict_zip header row)
                       then set_in_row col "FALSE" row else row) rest).
  { intros row'. rewrite (cons_middle row' pre rest), (assoc_L (++)).
    rewrite IH by (rewrite length_app; simpl; lia).
    by rewrite <- (assoc_L (++)). }
  assert (Hset : ∀ cells, write_cells (mkCell (i + 2) col "FALSE" :: cells) (pre ++ row :: rest)
                 = write_cells cells (pre ++ set_in_row col "FALSE" row :: rest)).
  { intros cells. unfold write_cells. simpl. f_equal.
    replace (i + 2) with (length pre + 1) by lia. apply set_cell_row. }
  destruct language as [l|]; simpl.
  - destruct (lang_match (dict_zip header row) l).
    + etrans; [apply Hset | apply Hrec].
    + apply Hrec.
  - etrans; [apply Hset | apply Hrec].
Qed.

Lemma write_reset header rows language col :
  write_cells (reset_from 0 (dict_zip header <$> rows) language col) (header :: rows)
  = reset_grid language col (header :: rows).
Proof. apply (write_reset_from header language col [header] rows 0). done. Qed.

Lemma reset_from_valid i records language col :
  1 ≤ col → forallb valid_cell (reset_from i records language col) = true.
Proof.
  intros Hc. apply forallb_forall. intros c Hin.
  apply list_elem_of_In, reset_from_elem in Hin as (j & d & -> & _).
  unfold valid_cell. cbn [cell_row cell_col].
  apply andb_true_iff. split; apply Nat.leb_le; lia.
Qed.

Lemma update_cells_run h cells w g :
  faults w = [] → sheets w !! h = Some g → cells ≠ [] →
  forallb valid_cell cells = true →
  update_cells h cells w
  = (Return tt, set_sheets (insert h (write_cells cells g)) (record_call (UpdateCells h cells) w)).
Proof.
  intros Hf Hs Hne Hv. unfold update_cells. destruct cells; [done|].
  rewrite Hv, request_run by done. unfold with_sheet. simpl. by rewrite Hs.
Qed.

(** * The reset *)

Lemma index_run l x j w : list_index x l = Some j → index l x w = (Return j, w).
Proof. intros H. unfold index. by rewrite H. Qed.

Lemma reset_run w h language header rows j :
  faults w = [] → sheets w !! h = Some (header :: rows) →
  list_index "used" header = Some j →
  let hits := reset_from 0 (dict_zip header <$> rows) language (j + 1) in
  ∃ w', _reset_used_flags h language w = (Return (bool_decide (hits ≠ [])), w')
    ∧ faults w' = [] ∧ rng w' = rng w
    ∧ sheets w' = (if decide (hits = []) then sheets w
                   else <[h := reset_grid language (j + 1) (header :: rows)]> (sheets w))
    ∧ calls w' = calls w ++ GetAllValues h
                   :: (if decide (hits = []) then [] else [UpdateCells h hits]).
Proof.
  intros Hf Hs Hj hits. unfold _reset_used_flags.
  set (msg := (_ +:+ _)%string). unfold bind at 1, logging at 1.
  set (w0 := record_log WARNING msg w).
  assert (Hf0 : faults w0 = []) by done.
  assert (Hs0 : sheets w0 !! h = Some (header :: rows)) by done.
  unfold try_except, bind at 1. rewrite (get_all_values_run h w0 _ Hf0 Hs0).
  set (w1 := record_call (GetAllValues h) w0).
  destruct rows as [|row rest].
  { simpl. unfold ret. eexists. split; [done|]. simpl. done. }
  replace (length (header :: row :: rest) <? 2)%nat with false
    by (symmetry; apply Nat.ltb_ge; simpl; lia).
  unfold bind at 1. cbn [hd tail]. rewrite (index_run _ _ j w1 Hj).
  fold hits. destruct hits as [|c cs] eqn:E.
  - unfold bind, logging, ret. eexists. split; [done|]. simpl. done.
  - assert (Hv : forallb valid_cell (c :: cs) = true).
    { rewrite <- E. apply reset_from_valid. lia. }
    unfold bind at 1.
    rewrite (update_cells_run h (c :: cs) w1 (header :: row :: rest)) by done.
    assert (Hw : write_cells (c :: cs) (header :: row :: rest)
                 = reset_grid language (j + 1) (header :: row :: rest)).
    { rewrite <- E. apply write_reset. }
    unfold bind, logging, ret. eexists. split; [done|].
    cbn -[write_cells reset_grid]. rewrite Hw, <- (assoc_L (++)). done.
Qed.

Lemma lang_hit_spec language d : lang_hit language d = true ↔ Matches language d.
Proof.
  unfold Matches. destruct language as [l|]; simpl.
  - rewrite lang_match_spec. split; [by intros ? ? [= <-] | auto].
  - split; [by intros _ ? [=] | done].
Qed.

Lemma length_pad_to {A} n (d : A) l : length (pad_to n d l) = n `max` length l.
Proof. unfold pad_to. rewrite length_app, length_replicate. lia. Qed.

Lemma set_in_row_lookup c v row i :
  1 ≤ c →
  set_in_row c v row !! i
  = if decide (i = c - 1) then Some v
    else if decide (i < length row) then row !! i
    else if decide (i < c) then Some ""%string else None.
Proof.
  intros Hc. unfold set_in_row. case_decide as Hi.
  - subst. apply list_lookup_insert_eq. rewrite length_pad_to. lia.
  - rewrite list_lookup_insert_ne by done. unfold pad_to.
    case_decide as Hl; [by rewrite lookup_app_l|].
    rewrite lookup_app_r by lia. case_decide.
    + apply lookup_replicate_2. lia.
    + apply lookup_ge_None. rewrite length_replicate. lia.
Qed.

(** After writing the [used] column, the record reads the value written. *)
Lemma dict_zip_written header row j v :
  header !! j = Some "used"%string → single_column "used" header →
  dict_zip header (set_in_row (j + 1) v row) !! "used"%string = Some v.
Proof.
  intros Hj Hs. rewrite (dict_zip_lookup _ _ _ j Hj Hs).
  rewrite set_in_row_lookup by lia. case_decide; [done | lia].
Qed.

(** ... and reads every other single column as before. *)
Lemma dict_get_written header row j v k :
  header !! j = Some "used"%string → k ≠ "used"%string → single_column k header →
  dict_get (dict_zip header (set_in_row (j + 1) v row)) k "" = dict_get (dict_zip header row) k "".
Proof.
  intros Hj Hk Hs. unfold dict_get.
  destruct (decide (k ∈ header)) as [Hin|Hin].
  - apply list_elem_of_lookup in Hin as [i Hi].
    rewrite !(dict_zip_lookup _ _ _ i Hi Hs), set_in_row_lookup by lia.
    case_decide; [subst; replace (j + 1 - 1) with j in Hi by lia; congruence|].
    case_decide; [done|]. rewrite (lookup_ge_None_2 row i) by lia.
    case_decide; done.
  - by rewrite !dict_zip_absent.
Qed.

(** The candidates after a reset, when [used] and [language] each head a
    single column: exactly the rows the reset addressed. *)
Lemma candidates_after_reset header rows language j i d :
  header !! j = Some "used"%string →
  single_column "used" header → single_column "language" header →
  (i, d) ∈ candidates (reset_grid language (j + 1) (header :: rows)) language ↔
  2 ≤ i ∧ ∃ row, rows !! (i - 2) = Some row
                 ∧ Matches language (dict_zip header row)
                 ∧ d = dict_zip header (set_in_row (j + 1) "FALSE" row).
Proof.
  intros Hj Hu Hl. unfold reset_grid. rewrite candidates_elem.
  assert (Hlang : ∀ row, Matches language (dict_zip header (set_in_row (j + 1) "FALSE" row))
                          ↔ Matches language (dict_zip header row)).
  { intros row. unfold Matches. by rewrite dict_get_written. }
  split.
  - intros (Hi & row' & Hlook & -> & Hun & Hm). split; [done|].
    replace (i - 1) with (S (i - 2)) in Hlook by lia. simpl in Hlook.
    rewrite list_lookup_fmap in Hlook.
    destruct (rows !! (i - 2)) as [row|] eqn:E; [|done]. simpl in Hlook.
    injection Hlook as <-. exists row. split; [done|].
    destruct (lang_hit language (dict_zip header row)) eqn:Eh.
    + split; [by apply lang_hit_spec | done].
    + exfalso. apply lang_hit_spec in Hm. congruence.
  - intros (Hi & row & Hlook & Hm & ->). split; [done|].
    exists (set_in_row (j + 1) "FALSE" row).
    replace (i - 1) with (S (i - 2)) by lia. simpl.
    rewrite list_lookup_fmap, Hlook. simpl.
    apply lang_hit_spec in Hm as Hh. rewrite Hh. split; [done|]. split; [done|].
    split; [|by apply Hlang].
    unfold Unused, dict_get. rewrite dict_zip_written by done. apply upper_FALSE.
Qed.

(** * Exhaustion: reset and retry *)

(** C2: when the store answers, has a [used] column and no candidate, one
    reset is attempted.  If it addresses no row (no data row, or none
    matching the language filter) nothing is written and the result is
    [(None, None)].  Otherwise exactly one [update_cells] request is
    issued, carrying one ["FALSE"] cell in the [used] column for every
    row matching the filter (every row without a filter); the sheet is
    read once more, and the result is drawn from the candidates of the
    reset sheet, or is [(None, None)] if there are none.  When [used] and
    [language] each head a single column, those candidates are exactly
    the rows that were reset. *)
Theorem get_unused_item_exhausted w h language header rows j :
  faults w = [] →
  sheets w !! h = Some (header :: rows) →
  list_index "used" header = Some j →
  candidates (header :: rows) language = [] →
  let hits := reset_from 0 (dict_zip header <$> rows) language (j + 1) in
  let g' := reset_grid language (j + 1) (header :: rows) in
  let cands' := candidates g' language in
  (∀ c, c ∈ hits ↔ ∃ i row, c = mkCell (i + 2) (j + 1) "FALSE"
                            ∧ rows !! i = Some row
                            ∧ Matches language (dict_zip header row))
  ∧ (single_column "used" header → single_column "language" header →
     (hits ≠ [] → cands' ≠ [])
     ∧ ∀ i d, (i, d) ∈ cands' ↔
         2 ≤ i ∧ ∃ row, rows !! (i - 2) = Some row
                        ∧ Matches language (dict_zip header row)
                        ∧ d = dict_zip header (set_in_row (j + 1) "FALSE" row))
  ∧ ∃ res w', get_unused_item h language w = (Return res, w')
      ∧ if decide (hits = []) then
          res = None ∧ sheets w' = sheets w
          ∧ ∃ n, calls w' = calls w ++ replicate n (GetAllValues h)
        else
          sheets w' = <[h := g']> (sheets w)
          ∧ calls w' = calls w ++ [GetAllValues h; GetAllValues h;
                                   UpdateCells h hits; GetAllValues h]
          ∧ res = cands' !! (hd 0 (rng w) mod length cands').
Proof.
  intros Hf Hs Hj Hc hits g' cands'.
  assert (Hhits : ∀ c, c ∈ hits ↔ ∃ i row, c = mkCell (i + 2) (j + 1) "FALSE"
                            ∧ rows !! i = Some row
                            ∧ Matches language (dict_zip header row)).
  { intros c. unfold hits. rewrite reset_from_elem. split.
    - intros (i & d & -> & Hl & Hm).
      apply list_lookup_fmap_Some in Hl as (row & -> & Hrow). eauto.
    - intros (i & row & -> & Hl & Hm). exists i, (dict_zip header row).
      rewrite list_lookup_fmap, Hl. auto. }
  split; [exact Hhits|]. split.
  { intros Hu Hl.
    assert (Hchar := λ i d, candidates_after_reset header rows language j i d
                              (proj1 (list_index_Some _ _ _ Hj)) Hu Hl).
    split; [|exact Hchar].
    intros Hne E. destruct hits as [|c cs] eqn:Eh; [done|].
    destruct (proj1 (Hhits c) (list_elem_of_here _ _)) as (i & row & _ & Hrow & Hm).
    assert (Hin : (i + 2, dict_zip header (set_in_row (j + 1) "FALSE" row)) ∈ cands').
    { apply Hchar. split; [lia|]. exists row. replace (i + 2 - 2) with i by lia. auto. }
    rewrite E in Hin. by apply elem_of_nil in Hin. }
  unfold get_unused_item, try_except, bind at 1.
  rewrite (get_all_values_run h w _ Hf Hs).
  destruct rows as [|row rest].
  { simpl. unfold bind, logging, ret. eexists _, _. split; [done|].
    simpl. split; [done|]. split; [done|]. by exists 1. }
  replace (length (header :: row :: rest) <? 2)%nat with false
    by (symmetry; apply Nat.ltb_ge; simpl; lia).
  unfold candidates in Hc. cbn [hd tail]. cbn [hd tail] in Hc. rewrite Hc.
  unfold bind at 1, logging at 1.
  set (w0 := record_log WARNING _ (record_call (GetAllValues h) w)).
  destruct (reset_run w0 h language header (row :: rest) j)
    as (w1 & Hr & Hf1 & Hrng & Hsh & Hcalls); [done..|].
  fold hits in Hr, Hsh, Hcalls. fold g' in Hsh.
  unfold bind at 1. rewrite Hr.
  destruct (decide (hits = [])) as [Eh|Eh].
  - rewrite bool_decide_eq_false_2 by (by intros []).
    unfold bind, logging, ret. eexists _, _. split; [done|].
    cbn [sheets calls record_log]. rewrite Hsh, Hcalls. split; [done|]. split; [done|].
    exists 2. simpl. by rewrite <- (assoc_L (++)).
  - rewrite bool_decide_eq_true_2 by done.
    assert (Hs1 : sheets w1 !! h = Some g') by (rewrite Hsh; apply lookup_insert_eq).
    unfold bind at 1. rewrite (get_all_values_run h w1 _ Hf1 Hs1).
    change (_filter_unused_items (dict_zip header <$> tail g') language) with cands'.
    destruct cands' as [|c cs] eqn:Ec.
    + unfold choose_unused, bind, logging, ret. eexists _, _. split; [done|].
      cbn [sheets calls record_log record_call]. rewrite Hsh, Hcalls.
      split; [done|]. split; [|done]. simpl. by rewrite <- !(assoc_L (++)).
    + rewrite choose_unused_run. eexists _, _. split; [done|].
      cbn [sheets calls rng set_rng record_call]. rewrite Hsh, Hcalls, Hrng.
      split; [done|]. split; [|done]. simpl. by rewrite <- !(assoc_L (++)).
Qed.

End WithCaseMap.

Lemma get_unused_item_exhausted_witness :
  ∃ res w', get_unused_item quotes (Some "english") (world_of spent_grid [1])
            = (Return res, w')
    ∧ sheets w' = <[quotes := reset_grid (Some "english") 3 spent_grid]>
                    (sheets (world_of spent_grid [1]))
    ∧ calls w' = [GetAllValues quotes; GetAllValues quotes;
                  UpdateCells quotes [mkCell 2 3 "FALSE"; mkCell 4 3 "FALSE"];
                  GetAllValues quotes]
    ∧ res = candidates (reset_grid (Some "english") 3 spent_grid) (Some "english") !! 1.
Proof.
  destruct (get_unused_item_exhausted (case_map := ascii_case) (world_of spent_grid [1]) quotes (Some "english")
              ["content"; "language"; "used"; "date_used"]
              (tail spent_grid) 2 eq_refl eq_refl eq_refl eq_refl)
    as (_ & _ & res & w' & Hrun & Hrest).
  exists res, w'. split; [exact Hrun|]. exact Hrest.
Defined.

Section WithCaseMap.
Context {case_map : CaseMap}.


(** * Rows that count as used *)

Lemma used_not_candidate records language i d d' :
  records !! i = Some d → upper (dict_get d "used" "") ≠ "FALSE"%string →
  (i + 2, d') ∉ _filter_unused_items records language.
Proof.
  intros Hl Hu Hin. unfold _filter_unused_items in Hin.
  apply filter_from_elem in Hin as (j & Hj & Hl' & Hun & _).
  assert (j = i) by lia. subst j. rewrite Hl in Hl'. injection Hl' as <-. done.
Qed.

Lemma reset_without_used w h language header rows :
  sheets w !! h = Some (header :: rows) → "used"%string ∉ header →
  ∃ w', _reset_used_flags h language w = (Return false, w')
    ∧ sheets w' = sheets w
    ∧ calls w' = calls w ++ [GetAllValues h].
Proof.
  intros Hs Hu. apply list_index_None in Hu.
  unfold _reset_used_flags, bind at 1, logging at 1, try_except, bind at 1.
  unfold get_all_values, request, with_sheet.
  cbn [faults sheets record_log set_faults record_call]. rewrite Hs.
  destruct (head (faults w)) as [[msg|]|].
  - unfold bind, logging, ret. simpl. eauto.
  - unfold ret at 1. destruct (length (header :: rows) <? 2)%nat.
    + unfold ret. simpl. eauto.
    + unfold bind at 1, index. cbn [hd]. rewrite Hu. unfold raise, bind, logging, ret.
      simpl. eauto.
  - unfold ret at 1. destruct (length (header :: rows) <? 2)%nat.
    + unfold ret. simpl. eauto.
    + unfold bind at 1, index. cbn [hd]. rewrite Hu. unfold raise, bind, logging, ret.
      simpl. eauto.
Qed.

End WithCaseMap.

(** C10 (as stated, refuted): a store without a [used] column.  Its row
    counts as used, but the reset writes nothing: it returns [False], the
    sheet is as before, and the row is still no candidate. *)
Lemma reset_needs_used_column :
  candidates no_used_grid None = []
  ∧ ∃ w', _reset_used_flags quotes None (world_of no_used_grid [0]) = (Return false, w')
      ∧ sheets w' !! quotes = Some no_used_grid
      ∧ calls w' = [GetAllValues quotes]
      ∧ ∃ w'', get_unused_item quotes None (world_of no_used_grid [0]) = (Return None, w'')
          ∧ sheets w'' !! quotes = Some no_used_grid.
Proof.
  split; [reflexivity|]. eexists. split; [vm_compute; reflexivity|].
  split; [reflexivity|]. split; [reflexivity|].
  eexists. split; [vm_compute; reflexivity | reflexivity].
Qed.

Section WithCaseMap.
Context {case_map : CaseMap}.


(** C10 (amended): a row for which [str.upper] of the [used] value is
    not ["FALSE"] (an empty value, ["TRUE"], other text, or no [used] key
    at all) is never among the candidates of a selection.  When the header
    has a [used] column, a reset that the store answers rewrites the
    [used] cell of every row matching the language filter to ["FALSE"];
    with [used] and [language] each heading a single column, the row is a
    candidate afterwards.  When the header has no [used] column, the reset
    writes nothing and returns [False]. *)
Theorem used_rows_excluded_until_reset :
  (∀ (records : list Dict) language i d d',
     records !! i = Some d → upper (dict_get d "used" "") ≠ "FALSE"%string →
     (i + 2, d') ∉ _filter_unused_items records language)
  ∧ (∀ (d : Dict), d !! "used"%string = None → ¬ Unused d)
  ∧ (∀ w h language header rows j i row,
       faults w = [] → sheets w !! h = Some (header :: rows) →
       list_index "used" header = Some j →
       rows !! i = Some row → Matches language (dict_zip header row) →
       let g' := reset_grid language (j + 1) (header :: rows) in
       ∃ w', _reset_used_flags h language w = (Return true, w')
         ∧ sheets w' !! h = Some g'
         ∧ g' !! S i = Some (set_in_row (j + 1) "FALSE" row)
         ∧ cell_at g' (i + 2) (j + 1) = "FALSE"%string
         ∧ (single_column "used" header → single_column "language" header →
            (i + 2, dict_zip header (set_in_row (j + 1) "FALSE" row))
              ∈ candidates g' language))
  ∧ (∀ w h language header rows,
       sheets w !! h = Some (header :: rows) → "used"%string ∉ header →
       candidates (header :: rows) language = []
       ∧ ∃ w', _reset_used_flags h language w = (Return false, w')
           ∧ sheets w' = sheets w
           ∧ calls w' = calls w ++ [GetAllValues h]).
Proof.
  split; [|split; [|split]].
  - intros. by eapply used_not_candidate.
  - intros d Hd. unfold Unused, dict_get. rewrite Hd. simpl.
    by rewrite upper_ascii_text.
  - intros w h language header rows j i row Hf Hs Hj Hrow Hm g'.
    destruct (reset_run w h language header rows j Hf Hs Hj)
      as (w' & Hr & _ & _ & Hsh & _).
    assert (Hhit : mkCell (i + 2) (j + 1) "FALSE"
                   ∈ reset_from 0 (dict_zip header <$> rows) language (j + 1)).
    { apply reset_from_elem. exists i, (dict_zip header row).
      rewrite list_lookup_fmap, Hrow. auto. }
    assert (Hne : reset_from 0 (dict_zip header <$> rows) language (j + 1) ≠ []).
    { intros E. rewrite E in Hhit. by apply elem_of_nil in Hhit. }
    rewrite bool_decide_eq_true_2 in Hr by done.
    rewrite decide_False in Hsh by done.
    assert (Hg : g' !! S i = Some (set_in_row (j + 1) "FALSE" row)).
    { unfold g', reset_grid. simpl. rewrite list_lookup_fmap, Hrow. simpl.
      apply lang_hit_spec in Hm. by rewrite Hm. }
    exists w'. split; [done|]. split; [rewrite Hsh; apply lookup_insert_eq|].
    split; [done|]. split.
    + unfold cell_at. replace (i + 2 - 1) with (S i) by lia.
      rewrite (nth_lookup_Some _ _ _ _ Hg), nth_lookup, set_in_row_lookup by lia.
      rewrite decide_True by done. done.
    + intros Hu Hl. apply candidates_after_reset; [by apply list_index_Some|done..|].
      split; [lia|]. exists row. replace (i + 2 - 2) with i by lia. auto.
  - intros w h language header rows Hs Hu.
    split; [|by apply (reset_without_used w h language header rows)].
    destruct (candidates (header :: rows) language) as [|[n d] l] eqn:E; [done|].
    assert (Hin : (n, d) ∈ candidates (header :: rows) language)
      by (rewrite E; apply list_elem_of_here).
    apply candidates_elem in Hin as (_ & row & _ & -> & Hun & _).
    unfold Unused, dict_get in Hun. rewrite dict_zip_absent in Hun by done.
    by apply upper_empty in Hun.
Qed.

End WithCaseMap.

Lemma used_rows_excluded_until_reset_witness :
  ∃ w', _reset_used_flags quotes None (world_of spent_grid []) = (Return true, w')
    ∧ sheets w' !! quotes = Some (reset_grid None 3 spent_grid)
    ∧ reset_grid None 3 spent_grid !! 2
      = Some (set_in_row 3 "FALSE" ["Dobre rano"; "slovak"; "TRUE"; "2025-03-02 08:00:00"])
    ∧ cell_at (reset_grid None 3 spent_grid) 3 3 = "FALSE"%string.
Proof.
  destruct (proj1 (proj2 (proj2 (@used_rows_excluded_until_reset ascii_case)))
              (world_of spent_grid []) quotes None
              ["content"; "language"; "used"; "date_used"]%string (tail spent_grid) 2 1
              ["Dobre rano"; "slovak"; "TRUE"; "2025-03-02 08:00:00"]%string
              eq_refl eq_refl eq_refl eq_refl)
    as (w' & H1 & H2 & H3 & H4 & _).
  - intros l Hl. discriminate Hl.
  - exists w'. split; [exact H1|]. split; [exact H2|]. split; [exact H3 | exact H4].
Defined.

Section WithCaseMap.
Context {case_map : CaseMap}.


(** * Marking: [mark_item_as_used] *)

Lemma nth_pad_to {A} i n (d : A) l : nth i (pad_to n d l) d = nth i l d.
Proof.
  unfold pad_to. destruct (decide (i < length l)) as [Hi|Hi].
  - by rewrite app_nth1.
  - rewrite app_nth2 by lia. rewrite (nth_overflow l) by lia.
    rewrite !nth_lookup. destruct (replicate _ _ !! _) eqn:E; [|done].
    by apply lookup_replicate_1 in E as [-> _].
Qed.

Lemma nth_set_in_row c v row i :
  1 ≤ c → nth i (set_in_row c v row) ""%string
          = if decide (i = c - 1) then v else nth i row ""%string.
Proof.
  intros Hc. rewrite !nth_lookup, set_in_row_lookup by done.
  case_decide; [done|]. case_decide as Hl; [done|].
  rewrite (lookup_ge_None_2 row i) by lia. by case_decide.
Qed.

Lemma cell_at_set_cell g c r' c' :
  valid_cell c = true → 1 ≤ r' → 1 ≤ c' →
  cell_at (set_cell g c) r' c'
  = if decide (r' = cell_row c ∧ c' = cell_col c) then cell_value c else cell_at g r' c'.
Proof.
  intros [Hr Hc]%andb_true_iff Hr' Hc'.
  apply Nat.leb_le in Hr. apply Nat.leb_le in Hc.
  unfold cell_at, set_cell.
  destruct (decide (r' = cell_row c)) as [->|Hne].
  - rewrite (nth_lookup _ (cell_row c - 1)), list_lookup_insert_eq
      by (rewrite length_pad_to; lia).
    simpl. rewrite nth_set_in_row, nth_pad_to by done.
    destruct (decide (c' = cell_col c)) as [->|Hne'].
    + rewrite decide_True by done. by rewrite decide_True by done.
    + rewrite decide_False by lia. by rewrite decide_False by (intros [_ ?]; done).
  - rewrite (nth_lookup _ (r' - 1)), list_lookup_insert_ne by lia.
    rewrite <- nth_lookup, nth_pad_to.
    by rewrite decide_False by (intros [? _]; done).
Qed.

Lemma hd_set_cell g c : 2 ≤ cell_row c → hd [] (set_cell g c) = hd [] g.
Proof.
  intros Hr. unfold set_cell. destruct g as [|row g]; unfold pad_to; simpl.
  - destruct (cell_row c) as [|[|n]] eqn:E; [lia|lia|]. simpl. done.
  - destruct (cell_row c) as [|[|n]] eqn:E; [lia|lia|]. simpl. done.
Qed.

Lemma row_values_header_run h w g :
  faults w = [] → sheets w !! h = Some g →
  row_values h 1 w = (Return (strip_trailing (hd [] g)), record_call (RowValues h 1) w).
Proof.
  intros Hf Hs. unfold row_values. rewrite request_run by done.
  unfold with_sheet, ret. simpl. rewrite Hs. by destruct g.
Qed.

Lemma mark_run w h r g t i k :
  faults w = [] → sheets w !! h = Some g → local_now w = Some t →
  list_index "used" (hd [] g) = Some i →
  list_index "date_used" (hd [] g) = Some k →
  1 ≤ r →
  let updates := [mkCell r (i + 1) "TRUE"; mkCell r (k + 1) t] in
  mark_item_as_used h r w
  = (Return tt,
     record_log INFO ("Successfully marked row " +:+ pretty r +:+ " as used.")
       (set_sheets (insert h (write_cells updates g))
          (record_call (UpdateCells h updates) (record_call (RowValues h 1) w)))).
Proof.
  intros Hf Hs Ht Hi Hk Hr updates.
  unfold mark_item_as_used, try_except, bind at 1, local_time. rewrite Ht.
  unfold bind at 1. rewrite (row_values_header_run h w g Hf Hs).
  unfold bind at 1. rewrite (index_run _ _ i) by (by rewrite strip_trailing_index).
  unfold bind at 1. rewrite (index_run _ _ k) by (by rewrite strip_trailing_index).
  unfold bind at 1. fold updates.
  rewrite (update_cells_run h updates _ g); [done|done|done|done|].
  unfold updates, valid_cell. cbn [forallb cell_row cell_col].
  rewrite !andb_true_iff, !Nat.leb_le. lia.
Qed.

(** Every way [mark_item_as_used] can go, whatever the clock and the
    remote side do: it returns, and either nothing is written and one
    warning is logged, or both cells are written in one request. *)
Lemma mark_cases w h r :
  ∃ w', mark_item_as_used h r w = (Return tt, w')
    ∧ ((sheets w' = sheets w
        ∧ (∃ msg, log w' = log w ++ [(WARNING, msg)])
        ∧ (calls w' = calls w ∨ calls w' = calls w ++ [RowValues h 1]
           ∨ ∃ g t i k,
               sheets w !! h = Some g
               ∧ list_index "used" (hd [] g) = Some i
               ∧ list_index "date_used" (hd [] g) = Some k
               ∧ calls w' = calls w ++ [RowValues h 1; UpdateCells h (mark_cells r i k t)]))
       ∨ (∃ g t i k,
            sheets w !! h = Some g ∧ local_now w = Some t
            ∧ list_index "used" (hd [] g) = Some i
            ∧ list_index "date_used" (hd [] g) = Some k
            ∧ 1 ≤ r
            ∧ sheets w' = <[h := write_cells (mark_cells r i k t) g]> (sheets w)
            ∧ calls w' = calls w ++ [RowValues h 1; UpdateCells h (mark_cells r i k t)]
            ∧ log w' = log w ++ [(INFO, "Successfully marked row " +:+ pretty r
                                         +:+ " as used.")])).
Proof.
  assert (Hassoc : ∀ (l : list Call) a b, (l ++ [a]) ++ [b] = l ++ [a; b]).
  { intros. by rewrite <- (assoc_L (++)). }
  unfold mark_item_as_used, try_except, bind at 1, local_time.
  destruct (local_now w) as [t|] eqn:Ht; [|unfold logging; simpl; eauto 10].
  unfold bind at 1, row_values, request, with_sheet.
  cbn [faults sheets record_log set_faults record_call].
  destruct (head (faults w)) as [[msg|]|] eqn:Hh;
    [unfold logging; simpl; eauto 10|..];
    (destruct (sheets w !! h) as [g|] eqn:Hs; [|unfold logging; simpl; eauto 10]);
    unfold ret at 1;
    replace (nth 0 g []) with (hd [] g) by (by destruct g);
    unfold bind at 1, index at 1; rewrite strip_trailing_index by done;
    (destruct (list_index "used" (hd [] g)) as [i|] eqn:Hi;
       [|unfold raise, logging; simpl; eauto 10]);
    unfold ret at 1, bind at 1, index at 1; rewrite strip_trailing_index by done;
    (destruct (list_index "date_used" (hd [] g)) as [k|] eqn:Hk;
       [|unfold raise, logging; simpl; eauto 10]);
    unfold ret at 1, bind at 1, update_cells; fold (mark_cells r i k t);
    (destruct (forallb valid_cell (mark_cells r i k t)) eqn:Hv;
       [|unfold raise, logging; simpl; eauto 10]);
    (assert (1 ≤ r) by
       (unfold mark_cells, valid_cell in Hv; cbn [forallb cell_row cell_col] in Hv;
        rewrite !andb_true_iff, !Nat.leb_le in Hv; lia));
    unfold mark_cells at 1; fold (mark_cells r i k t);
    unfold request, with_sheet;
    cbn [faults sheets record_log set_faults record_call]; rewrite Hs;
    (destruct (head (tail (faults w))) as [[msg|]|];
       [unfold logging; eexists; (split; [reflexivity|]); left;
        cbn [sheets calls log record_log set_faults record_call];
        rewrite Hassoc; (split; [done|]); (split; [eauto|]); right; right;
        exists g, t, i, k; done|..]);
    unfold bind, logging; eexists; (split; [reflexivity|]); right;
    exists g, t, i, k;
    cbn [sheets calls log record_log set_faults record_call set_sheets];
    rewrite Hassoc; done.
Qed.

Lemma cell_at_mark_cells g r i k t r' c' :
  1 ≤ r → i ≠ k → 1 ≤ r' → 1 ≤ c' →
  cell_at (write_cells (mark_cells r i k t) g) r' c'
  = if decide (r' = r ∧ c' = i + 1) then "TRUE"%string
    else if decide (r' = r ∧ c' = k + 1) then t
    else cell_at g r' c'.
Proof.
  intros Hr Hik Hr' Hc'. unfold write_cells, mark_cells. cbn [foldl].
  assert (Hv : ∀ c v, valid_cell (mkCell r (c + 1) v) = true).
  { intros. unfold valid_cell. cbn [cell_row cell_col].
    rewrite andb_true_iff, !Nat.leb_le. lia. }
  rewrite !cell_at_set_cell by done. cbn [cell_row cell_col cell_value].
  repeat case_decide; try done; lia.
Qed.


End WithCaseMap.


Section WithCaseMap.
Context {case_map : CaseMap}.


(** * Every way a selection can go *)

Lemma reset_cases w h language :
  ∃ b w' new, _reset_used_flags h language w = (Return b, w')
    ∧ calls w' = calls w ++ new
    ∧ ((b = false ∧ sheets w' = sheets w)
       ∨ (b = true ∧ ∃ g j,
            sheets w !! h = Some g
            ∧ list_index "used" (hd [] g) = Some j
            ∧ new = [GetAllValues h;
                     UpdateCells h (reset_from 0 (dict_zip (hd [] g) <$> tail g)
                                      language (j + 1))]
            ∧ sheets w' = <[h := write_cells
                                   (reset_from 0 (dict_zip (hd [] g) <$> tail g)
                                      language (j + 1)) g]> (sheets w))).
Proof.
  assert (Hassoc : ∀ (l : list Call) a b, (l ++ [a]) ++ [b] = l ++ [a; b]).
  { intros. by rewrite <- (assoc_L (++)). }
  unfold _reset_used_flags, bind at 1, logging at 1, try_except, bind at 1.
  unfold get_all_values, request, with_sheet.
  cbn [faults sheets record_log set_faults record_call].
  destruct (head (faults w)) as [[msg|]|];
    [unfold bind, logging, ret; eexists _, _, _; split; [reflexivity|]; simpl; eauto|..];
    (destruct (sheets w !! h) as [g|] eqn:Hs;
       [|unfold bind, logging, ret; eexists _, _, _; split; [reflexivity|]; simpl; eauto]);
    unfold ret at 1;
    (destruct (length g <? 2)%nat;
       [unfold ret; eexists _, _, _; split; [reflexivity|]; simpl; eauto|]);
    unfold bind at 1, index;
    (destruct (list_index "used" (hd [] g)) as [j|] eqn:Hj;
       [|unfold raise, bind, logging, ret; eexists _, _, _; split; [reflexivity|];
         simpl; eauto]);
    unfold ret at 1;
    set (hits := reset_from 0 (dict_zip (hd [] g) <$> tail g) language (j + 1));
    (destruct hits as [|c cs] eqn:Eh;
       [unfold bind, logging, ret; eexists _, _, _; split; [reflexivity|]; simpl; eauto|]);
    unfold bind at 1, update_cells;
    (destruct (forallb valid_cell (c :: cs));
       [|unfold raise, bind, logging, ret; eexists _, _, _; split; [reflexivity|];
         simpl; eauto]);
    unfold request, with_sheet;
    cbn [faults sheets record_log set_faults record_call]; rewrite Hs;
    (destruct (head (tail (faults w))) as [[msg|]|];
       [unfold bind, logging, ret; eexists _, _, _; split; [reflexivity|];
        cbn [sheets calls record_log set_faults record_call]; rewrite Hassoc; eauto|..]);
    unfold bind, logging, ret; eexists _, _, _; (split; [reflexivity|]);
    cbn [sheets calls record_log set_faults record_call set_sheets];
    rewrite Hassoc; (split; [reflexivity|]); right; (split; [done|]);
    exists g, j; subst hits; rewrite Eh; done.
Qed.

Lemma get_all_values_cases h w :
  ∃ w1, sheets w1 = sheets w ∧ calls w1 = calls w ++ [GetAllValues h]
    ∧ ((∃ msg, get_all_values h w = (Raise (RemoteError msg), w1))
       ∨ (∃ g, sheets w !! h = Some g ∧ get_all_values h w = (Return g, w1))).
Proof.
  unfold get_all_values, request, with_sheet, ret.
  cbn [faults sheets set_faults record_call].
  destruct (head (faults w)) as [[msg|]|]; [eexists; split; [|split]; [| |left; eauto]; done|..];
    (destruct (sheets w !! h) as [g|];
       eexists; (split; [|split]; [| |first [right; eauto; fail | left; eauto]]; done)).
Qed.

Lemma choose_unused_cases (l : list (nat * Dict)) w :
  ∃ res w', choose_unused l w = (Return res, w')
    ∧ sheets w' = sheets w ∧ calls w' = calls w
    ∧ ∀ x, res = Some x → x ∈ l.
Proof.
  destruct l as [|c cs].
  - unfold choose_unused, bind, logging, ret. eexists _, _. split; [done|].
    simpl. split; [done|]. split; [done|]. intros ? [=].
  - rewrite choose_unused_run. eexists _, _. split; [done|].
    split; [done|]. split; [done|]. intros x Hx. by eapply list_elem_of_lookup_2.
Qed.

Lemma hd_write_cells cells g :
  Forall (λ c, 2 ≤ cell_row c) cells → hd [] (write_cells cells g) = hd [] g.
Proof.
  unfold write_cells. intros H. revert g.
  induction H as [|c cs Hc _ IH]; intros g; simpl; [done|].
  by rewrite IH, hd_set_cell.
Qed.

Lemma reset_from_rows i records language col :
  Forall (λ c, 2 ≤ cell_row c) (reset_from i records language col).
Proof.
  apply Forall_forall. intros c (j & d & -> & _)%reset_from_elem. simpl. lia.
Qed.

(** [get_unused_item] always returns.  The sheets change only through
    the one [update_cells] request of a reset, and an item returned is a
    candidate of the sheet as it stands afterwards. *)
Lemma select_cases w h language :
  ∃ res w' new, get_unused_item h language w = (Return res, w')
    ∧ calls w' = calls w ++ new
    ∧ (sheets w' = sheets w
       ∨ ∃ g j,
           sheets w !! h = Some g
           ∧ list_index "used" (hd [] g) = Some j
           ∧ UpdateCells h (reset_from 0 (dict_zip (hd [] g) <$> tail g) language (j + 1))
               ∈ new
           ∧ sheets w' = <[h := write_cells
                                  (reset_from 0 (dict_zip (hd [] g) <$> tail g)
                                     language (j + 1)) g]> (sheets w))
    ∧ ∀ n d, res = Some (n, d) →
        ∃ g', sheets w' !! h = Some g' ∧ (n, d) ∈ candidates g' language.
Proof.
  unfold get_unused_item, try_except, bind at 1.
  destruct (get_all_values_cases h w) as (w1 & Hsh1 & Hc1 & [[msg Hg] | (g & Hs & Hg)]);
    rewrite Hg.
  { simpl. unfold bind, logging, ret. eexists _, _, _. split; [done|].
    cbn [sheets calls record_log]. rewrite Hsh1, Hc1.
    split; [done|]. split; [by left|]. intros ? ? [=]. }
  destruct (length g <? 2)%nat.
  { unfold bind, logging, ret. eexists _, _, _. split; [done|].
    cbn [sheets calls record_log]. rewrite Hsh1, Hc1.
    split; [done|]. split; [by left|]. intros ? ? [=]. }
  destruct (_filter_unused_items (dict_zip (hd [] g) <$> tail g) language)
    as [|c cs] eqn:Ec.
  - unfold bind at 1, logging at 1.
    set (w2 := record_log WARNING _ w1).
    destruct (reset_cases w2 h language) as (b & w3 & new & Hr & Hc3 & Hcase).
    unfold bind at 1. rewrite Hr.
    destruct Hcase as [[-> Hsh3] | (-> & g0 & j & Hs0 & Hj & -> & Hsh3)].
    + unfold bind, logging, ret. eexists _, _, _. split; [done|].
      cbn [sheets calls record_log]. rewrite Hsh3, Hc3. cbn [sheets calls w2 record_log].
      rewrite Hsh1, Hc1, <- (assoc_L (++)).
      split; [done|]. split; [by left|]. intros ? ? [=].
    + cbn [sheets w2 record_log] in Hs0, Hsh3. rewrite Hsh1 in Hs0, Hsh3.
      rewrite Hs in Hs0. injection Hs0 as <-.
      cbn [calls w2 record_log] in Hc3. rewrite Hc1, <- (assoc_L (++)) in Hc3.
      set (hits := reset_from 0 (dict_zip (hd [] g) <$> tail g) language (j + 1)) in *.
      assert (Hreset : ∃ g1 j1, sheets w !! h = Some g1
                ∧ list_index "used" (hd [] g1) = Some j1
                ∧ UpdateCells h (reset_from 0 (dict_zip (hd [] g1) <$> tail g1)
                                   language (j1 + 1))
                    ∈ [GetAllValues h; GetAllValues h; UpdateCells h hits]
                ∧ <[h := write_cells hits g]> (sheets w)
                  = <[h := write_cells (reset_from 0 (dict_zip (hd [] g1) <$> tail g1)
                                          language (j1 + 1)) g1]> (sheets w)).
      { exists g, j. split; [done|]. split; [done|]. split; [|done].
        do 2 apply list_elem_of_further. apply list_elem_of_here. }
      unfold bind at 1.
      destruct (get_all_values_cases h w3) as (w4 & Hsh4 & Hc4 & [[msg Hg4] | (g4 & Hs4 & Hg4)]);
        rewrite Hg4.
      * simpl. unfold bind, logging, ret. eexists _, _, _. split; [done|].
        cbn [sheets calls record_log]. rewrite Hsh4, Hc4, Hsh3, Hc3, <- (assoc_L (++)).
        split; [done|]. split; [|intros ? ? [=]]. right.
        destruct Hreset as (g1 & j1 & ? & ? & Hin & ?). exists g1, j1.
        split; [done|]. split; [done|]. split; [|done].
        apply elem_of_app. by left.
      * rewrite Hsh3, lookup_insert_eq in Hs4. injection Hs4 as <-.
        destruct (choose_unused_cases
                    (_filter_unused_items
                       (dict_zip (hd [] g) <$> tail (write_cells hits g)) language) w4)
          as (res & w5 & Hch & Hsh5 & Hc5 & Hres).
        rewrite Hch. eexists _, _, _. split; [done|].
        rewrite Hsh5, Hc5, Hsh4, Hc4, Hsh3, Hc3, <- (assoc_L (++)).
        split; [done|]. split.
        -- right. destruct Hreset as (g1 & j1 & ? & ? & Hin & ?). exists g1, j1.
           split; [done|]. split; [done|]. split; [|done].
           apply elem_of_app. by left.
        -- intros n d ->. exists (write_cells hits g).
           split; [apply lookup_insert_eq|]. unfold candidates.
           rewrite hd_write_cells by apply reset_from_rows. by apply Hres.
  - destruct (choose_unused_cases (c :: cs) w1) as (res & w5 & Hch & Hsh5 & Hc5 & Hres).
    rewrite Hch. eexists _, _, _. split; [done|].
    rewrite Hsh5, Hc5, Hsh1, Hc1. split; [done|]. split; [by left|].
    intros n d ->. exists g. split; [done|]. unfold candidates. rewrite Ec. by apply Hres.
Qed.

(** * Used rows stay used *)

Lemma cell_at_write_cells_other cells g r col :
  1 ≤ r → 1 ≤ col →
  Forall (λ c, valid_cell c = true) cells →
  (∀ c, c ∈ cells → ¬ (cell_row c = r ∧ cell_col c = col)) →
  cell_at (write_cells cells g) r col = cell_at g r col.
Proof.
  intros Hr Hc Hv. unfold write_cells. revert g.
  induction Hv as [|c cs Hvc _ IH]; intros g Hno; simpl; [done|].
  rewrite IH by (intros c' Hc'; apply Hno; by apply list_elem_of_further).
  rewrite cell_at_set_cell by done.
  rewrite decide_False; [done|]. intros [-> ->]. eapply Hno; [apply list_elem_of_here|done].
Qed.

Lemma candidates_any_language g language n d :
  (n, d) ∈ candidates g language → (n, d) ∈ candidates g None.
Proof.
  destruct g as [|header rows]; [done|]. rewrite !candidates_elem.
  intros (Hn & row & Hl & -> & Hu & _). split; [done|]. exists row.
  split; [done|]. split; [done|]. split; [done|]. intros ? [=].
Qed.

Lemma consumed_cell g r j :
  list_index "used" (hd [] g) = Some j → single_column "used" (hd [] g) → 2 ≤ r →
  consumed g r ↔ upper (cell_at g r (j + 1)) ≠ "FALSE"%string.
Proof.
  intros Hj Hs Hr. destruct g as [|header rows]; [done|]. cbn [hd] in *.
  apply list_index_Some in Hj as [Hj _].
  assert (Hget : ∀ row, dict_get (dict_zip header row) "used" "" = nth j row ""%string).
  { intros row. unfold dict_get. rewrite (dict_zip_lookup _ _ _ j Hj Hs).
    by rewrite nth_lookup. }
  unfold consumed, cell_at. replace (j + 1 - 1) with j by lia.
  destruct ((header :: rows) !! (r - 1)) as [row|] eqn:E.
  - rewrite (nth_lookup_Some _ _ _ _ E). split.
    + intros Hc Hu. apply (Hc (dict_zip header row)). apply candidates_elem.
      split; [done|]. exists row. split; [done|]. split; [done|].
      split; [unfold Unused; by rewrite Hget | intros ? [=]].
    + intros Hu d (_ & row' & Hl & -> & Hun & _)%candidates_elem.
      rewrite E in Hl. injection Hl as <-. unfold Unused in Hun.
      rewrite Hget in Hun. done.
  - split.
    + intros _. rewrite (nth_overflow (header :: rows)) by (by apply lookup_ge_None).
      destruct j; apply upper_empty.
    + intros _ d (_ & row' & Hl & _)%candidates_elem. congruence.
Qed.

(** One operation of a caller: the header stays, and a consumed row
    stays consumed unless a request wrote ["FALSE"] into it. *)
Lemma run_op_preserves h op w res w' g r :
  run_op h op w = (res, w') →
  sheets w !! h = Some g →
  2 ≤ r → (∀ r', op = MarkUsed r' → 2 ≤ r') →
  ∃ x new g', res = Return x ∧ calls w' = calls w ++ new
    ∧ sheets w' !! h = Some g' ∧ hd [] g' = hd [] g
    ∧ (single_column "used" (hd [] g) → consumed g r → no_reset_of h r new →
       consumed g' r ∧ ∀ n d, x = Some (n, d) → n ≠ r).
Proof.
  intros Hrun Hs Hr Hrows. destruct op as [language|r']; simpl in Hrun.
  - destruct (select_cases w h language)
      as (x & w1 & new & Hsel & Hcalls & Hsh & Hres).
    rewrite Hsel in Hrun. injection Hrun as <- <-.
    destruct Hsh as [Hsame | (g0 & j & Hs0 & Hj & Hin & Hsh)].
    + exists x, new, g. split; [done|]. split; [done|].
      split; [by rewrite Hsame|]. split; [done|]. intros Hsingle Hcons _. split; [done|].
      intros n d Hx. destruct (Hres n d Hx) as (g' & Hg' & Hc).
      rewrite Hsame, Hs in Hg'. injection Hg' as <-.
      intros ->. eapply Hcons. by eapply candidates_any_language.
    + rewrite Hs in Hs0. injection Hs0 as <-.
      set (hits := reset_from 0 (dict_zip (hd [] g) <$> tail g) language (j + 1)) in *.
      assert (Hhd : hd [] (write_cells hits g) = hd [] g)
        by apply hd_write_cells, reset_from_rows.
      exists x, new, (write_cells hits g). split; [done|]. split; [done|].
      split; [rewrite Hsh; apply lookup_insert_eq|]. split; [done|].
      intros Hsingle Hcons Hno.
      assert (Hc' : consumed (write_cells hits g) r).
      { apply (consumed_cell _ r j); [by rewrite Hhd | by rewrite Hhd | done |].
        rewrite cell_at_write_cells_other; [by apply (consumed_cell g r j) | lia | lia | |].
        - apply Forall_forall. intros c Hc.
          apply (proj1 (forallb_forall _ _)
                   (reset_from_valid 0 (dict_zip (hd [] g) <$> tail g) language (j + 1)
                      ltac:(lia))).
          by apply list_elem_of_In.
        - intros c Hc [Hrow _]. apply (Hno hits c Hin Hc Hrow).
          apply reset_from_elem in Hc as (? & ? & -> & _). done. }
      split; [done|]. intros n d Hx. destruct (Hres n d Hx) as (g' & Hg' & Hc).
      rewrite Hsh, lookup_insert_eq in Hg'. injection Hg' as <-.
      intros ->. eapply Hc'. by eapply candidates_any_language.
  - unfold bind in Hrun. destruct (mark_cases w h r') as (w1 & Hm & Hcase).
    rewrite Hm in Hrun. unfold ret in Hrun. injection Hrun as <- <-.
    destruct Hcase as [(Hsame & _ & Hcalls) | (g0 & t & i & k & Hs0 & _ & Hi & Hk & _ & Hsh & Hcalls & _)].
    + exists None, (drop (length (calls w)) (calls w1)), g.
      split; [done|]. split.
      { destruct Hcalls as [E|[E|(? & ? & ? & ? & _ & _ & _ & E)]]; rewrite E.
        - by rewrite drop_all, app_nil_r.
        - by rewrite drop_app_length.
        - by rewrite drop_app_length. }
      split; [by rewrite Hsame|]. split; [done|]. intros _ ? _. split; [done|]. intros ? ? [=].
    + rewrite Hs in Hs0. injection Hs0 as <-.
      assert (Hr' : 2 ≤ r') by (by apply Hrows).
      assert (Hhd : hd [] (write_cells (mark_cells r' i k t) g) = hd [] g).
      { apply hd_write_cells. unfold mark_cells. repeat constructor; simpl; lia. }
      eexists None, _, _. split; [done|]. split; [done|].
      split; [rewrite Hsh; apply lookup_insert_eq|]. split; [done|].
      intros Hsingle Hcons _. split; [|intros ? ? [=]].
      assert (Hik : i ≠ k).
      { apply list_index_Some in Hi as [Hi _]. apply list_index_Some in Hk as [Hk _].
        intros ->. rewrite Hi in Hk. discriminate. }
      apply (consumed_cell _ r i); [by rewrite Hhd | by rewrite Hhd | done |].
      rewrite cell_at_mark_cells by lia.
      destruct (decide (r = r' ∧ i + 1 = i + 1)); [apply upper_TRUE|].
      rewrite decide_False by lia. by apply (consumed_cell g r i).
Qed.

Lemma no_reset_of_app h r new1 new2 :
  no_reset_of h r (new1 ++ new2) → no_reset_of h r new1 ∧ no_reset_of h r new2.
Proof.
  intros H. split; intros cells c Hin; apply H; apply elem_of_app; auto.
Qed.

Lemma run_ops_preserves h ops w results w' g r :
  run_ops h ops w = (Return results, w') →
  sheets w !! h = Some g →
  2 ≤ r → data_rows ops →
  ∃ new g', calls w' = calls w ++ new
    ∧ sheets w' !! h = Some g' ∧ hd [] g' = hd [] g
    ∧ (single_column "used" (hd [] g) → consumed g r → no_reset_of h r new →
       consumed g' r ∧ ∀ n d, Some (n, d) ∈ results → n ≠ r).
Proof.
  revert w results g. induction ops as [|op rest IH]; intros w results g Hrun Hs Hr Hrows.
  - injection Hrun as <- <-. exists [], g. rewrite app_nil_r.
    split; [done|]. split; [done|]. split; [done|]. intros _ ? _. split; [done|].
    intros n d Hin. by apply elem_of_nil in Hin.
  - simpl in Hrun. unfold bind at 1 in Hrun.
    destruct (run_op h op w) as [res w1] eqn:Hop.
    destruct (run_op_preserves h op w res w1 g r Hop Hs Hr) as
      (x & new1 & g1 & -> & Hcalls1 & Hs1 & Hhd1 & Hkeep1).
    { intros r' ->. apply Hrows, list_elem_of_here. }
    unfold bind at 1 in Hrun.
    destruct (run_ops h rest w1) as [[xs|e] w2] eqn:Hrest; [|done].
    unfold ret in Hrun. injection Hrun as <- <-.
    assert (Hrows' : data_rows rest).
    { intros r' Hin. apply Hrows. by apply list_elem_of_further. }
    destruct (IH w1 xs g1 Hrest Hs1 Hr Hrows')
      as (new2 & g2 & Hcalls2 & Hs2 & Hhd2 & Hkeep2).
    exists (new1 ++ new2), g2. rewrite Hcalls2, Hcalls1, <- (assoc_L (++)).
    split; [done|]. split; [done|]. split; [congruence|].
    intros Hsing Hc [Hno1 Hno2]%no_reset_of_app.
    destruct (Hkeep1 Hsing Hc Hno1) as [Hc1 Hx].
    destruct (Hkeep2 ltac:(by rewrite Hhd1) Hc1 Hno2) as [Hc2 Hxs].
    split; [done|]. intros n d [Hin|Hin]%elem_of_cons; [by eapply Hx | by eapply Hxs].
Qed.

(** C3: after [mark_item_as_used] has succeeded on data row [r] of a
    store whose header names [used] once, a caller may issue selections
    (with any filter) and marks in any order: as long as no request has
    written ["FALSE"] into row [r] (no reset has reached it), no
    selection returns row index [r] and the row is still no candidate.
    The same holds for every other row that was no candidate: only a
    reset makes a used row unused. *)
Theorem marked_row_stays_used h w0 r w g0 ops results w' :
  2 ≤ r →
  sheets w0 !! h = Some g0 → single_column "used" (hd [] g0) →
  mark_item_as_used h r w0 = (Return tt, w) →
  log w = log w0 ++ [(INFO, "Successfully marked row " +:+ pretty r +:+ " as used.")] →
  data_rows ops →
  run_ops h ops w = (Return results, w') →
  ∃ g new g', sheets w !! h = Some g ∧ consumed g r
    ∧ calls w' = calls w ++ new ∧ sheets w' !! h = Some g'
    ∧ (no_reset_of h r new →
       consumed g' r ∧ ∀ n d, Some (n, d) ∈ results → n ≠ r)
    ∧ (∀ r2, 2 ≤ r2 → consumed g r2 → no_reset_of h r2 new →
       consumed g' r2 ∧ ∀ n d, Some (n, d) ∈ results → n ≠ r2).
Proof.
  intros Hr Hs0 Hsing Hmark Hlog Hrows Hrun.
  destruct (mark_cases w0 h r) as (w1 & Hm & Hcase).
  rewrite Hm in Hmark. injection Hmark as ->.
  destruct Hcase as [(_ & [msg Hlog'] & _)
                    | (g & t & i & k & Hs & _ & Hi & Hk & _ & Hsh & _ & _)].
  { rewrite Hlog in Hlog'. apply app_inj_tail in Hlog' as [_ [=]]. }
  rewrite Hs0 in Hs. injection Hs as <-.
  set (g := write_cells (mark_cells r i k t) g0).
  assert (Hsg : sheets w !! h = Some g) by (rewrite Hsh; apply lookup_insert_eq).
  assert (Hhd : hd [] g = hd [] g0).
  { apply hd_write_cells. unfold mark_cells. repeat constructor; simpl; lia. }
  assert (Hik : i ≠ k).
  { apply list_index_Some in Hi as [Hi _]. apply list_index_Some in Hk as [Hk _].
    intros ->. rewrite Hi in Hk. discriminate. }
  assert (Hcons : consumed g r).
  { apply (consumed_cell _ r i); [by rewrite Hhd | by rewrite Hhd | done |].
    unfold g. rewrite cell_at_mark_cells by lia. rewrite decide_True by done.
    apply upper_TRUE. }
  destruct (run_ops_preserves h ops w results w' g r Hrun Hsg Hr Hrows)
    as (new & g' & Hcalls & Hs' & _ & Hkeep).
  exists g, new, g'. split; [done|]. split; [done|]. split; [done|]. split; [done|].
  split; [intros Hno; apply Hkeep; by rewrite ?Hhd|].
  intros r2 Hr2 Hc2 Hno2.
  destruct (run_ops_preserves h ops w results w' g r2 Hrun Hsg Hr2 Hrows)
    as (new2 & g2 & Hcalls2 & Hs2 & _ & Hkeep2).
  rewrite Hcalls in Hcalls2. apply app_inv_head in Hcalls2 as <-.
  rewrite Hs' in Hs2. injection Hs2 as <-.
  apply Hkeep2; by rewrite ?Hhd.
Qed.

Lemma single_used_sample : single_column "used" (hd [] mixed_case_grid).
Proof.
  intros [|[|[|j1]]] [|[|[|j2]]] H1 H2; simpl in *; done.
Qed.

End WithCaseMap.

Lemma marked_row_stays_used_witness :
  let w0 := world_of mixed_case_grid [0; 0] in
  let w := (mark_item_as_used quotes 2 w0).2 in
  let ops := [Select None; MarkUsed 3] in
  let w' := (run_ops quotes ops w).2 in
  ∃ g new g', sheets w !! quotes = Some g ∧ consumed g 2
    ∧ calls w' = calls w ++ new ∧ sheets w' !! quotes = Some g'
    ∧ (no_reset_of quotes 2 new →
       consumed g' 2
       ∧ ∀ n d, Some (n, d) ∈ [Some (3, dict_zip (hd [] mixed_case_grid) ["b"; "false"; ""]); None]
                → n ≠ 2).
Proof.
  intros w0 w ops w'.
  destruct (marked_row_stays_used (case_map := ascii_case) quotes w0 2 w mixed_case_grid ops
              [Some (3, dict_zip (hd [] mixed_case_grid) ["b"; "false"; ""]); None] w')
    as (g & new & g' & H1 & H2 & H3 & H4 & H5 & _).
  - lia.
  - reflexivity.
  - exact single_used_sample.
  - vm_compute. reflexivity.
  - reflexivity.
  - intros r [Hin|Hin]%elem_of_cons; [discriminate Hin|].
    apply elem_of_cons in Hin as [Hin|Hin]; [injection Hin as ->; lia|].
    by apply elem_of_nil in Hin.
  - vm_compute. reflexivity.
  - exists g, new, g'. repeat (split; [assumption|]). assumption.
Defined.

Section WithCaseMap.
Context {case_map : CaseMap}.


(** * The job lock: [check_if_job_ran] and [mark_job_as_triggered] *)

Lemma strip_trailing_elem x l : x ≠ ""%string → x ∈ strip_trailing l ↔ x ∈ l.
Proof.
  intros Hx. induction l as [|y l IH]; simpl; [done|].
  destruct (strip_trailing l) as [|t ts] eqn:E.
  - assert (Hl : x ∉ l) by (intros H; apply IH in H; by apply elem_of_nil in H).
    destruct (String.eqb_spec y "") as [->|Hy].
    + split; [by intros ?%elem_of_nil|].
      intros [?|?]%elem_of_cons; [congruence | done].
    + rewrite !elem_of_cons. split; [intros [?|?%elem_of_nil]; [auto|done]|].
      intros [?|?]; [auto | done].
  - rewrite !(elem_of_cons _ x y), IH. done.
Qed.

Lemma col_values_cases h w :
  ∃ w1, sheets w1 = sheets w ∧ calls w1 = calls w ++ [ColValues h 1]
    ∧ faults w1 = tail (faults w) ∧ log w1 = log w
    ∧ ((∃ msg, col_values h 1 w = (Raise (RemoteError msg), w1))
       ∨ (∃ g, sheets w !! h = Some g ∧ col_values h 1 w = (Return (column_A g), w1))).
Proof.
  unfold col_values, request, with_sheet, ret, column_A.
  cbn [faults sheets set_faults record_call].
  destruct (head (faults w)) as [[msg|]|];
    [eexists; split_and!; [..|left; eauto]; done|..];
    (destruct (sheets w !! h) as [g|];
       eexists; (split_and!; [..|first [right; eauto; fail | left; eauto]]; done)).
Qed.

Lemma col_values_run h w g :
  faults w = [] → sheets w !! h = Some g →
  col_values h 1 w = (Return (column_A g), record_call (ColValues h 1) w).
Proof.
  intros Hf Hs. unfold col_values. rewrite request_run by done.
  unfold with_sheet, ret. simpl. by rewrite Hs.
Qed.

Lemma col_values_raises h c w e w1 :
  col_values h c w = (Raise e, w1) → is_Exception e = true.
Proof.
  unfold col_values. destruct c as [|c']; [by intros [= <- _]|].
  unfold request, with_sheet, ret.
  destruct (head (faults w)) as [[msg|]|]; [by intros [= <- _]|..];
    cbn [sheets set_faults record_call]; destruct (sheets w !! h); by intros [= <-].
Qed.

(** C9: when the scan of the key column fails with an error,
    [check_if_job_ran] logs it and returns [True]: the job counts as
    already run.  An in-window slot is then skipped: the dispatcher
    issues neither an append nor the downstream job. *)
Theorem check_if_job_ran_fails_safe elapsed_us run_once w h k e w1 :
  col_values h 1 (record_log INFO ("Verifying lock key '" +:+ k +:+ "'...") w)
    = (Raise e, w1) →
  check_if_job_ran h k w
    = (Return true,
       record_log ERROR ("Error checking job status for '" +:+ k +:+ "': " +:+ exn_str e) w1)
  ∧ ∀ today time_key sched us,
      k = job_key_of time_key today →
      elapsed_us sched w = inl us → (0 ≤ us ≤ TIME_WINDOW_MINUTES * 60000000)%Z →
      ∃ w', dispatch_slot elapsed_us run_once h today time_key sched w = (Return tt, w')
        ∧ calls w' = calls w ++ [ColValues h 1]
        ∧ sheets w' = sheets w.
Proof.
  intros Hscan.
  assert (Hcheck : check_if_job_ran h k w
    = (Return true,
       record_log ERROR ("Error checking job status for '" +:+ k +:+ "': " +:+ exn_str e) w1)).
  { unfold check_if_job_ran, try_except, bind at 1, logging at 1.
    unfold bind at 1. rewrite Hscan. rewrite (col_values_raises _ _ _ _ _ Hscan).
    reflexivity. }
  split; [exact Hcheck|].
  intros today time_key sched us -> Hus Hwin.
  unfold dispatch_slot, try_except, bind at 1, time_diff. rewrite Hus.
  replace ((0 <=? us)%Z && (us <=? TIME_WINDOW_MINUTES * 60000000)%Z) with true
    by (symmetry; apply andb_true_iff; split; apply Z.leb_le; lia).
  unfold bind at 1. rewrite Hcheck. simpl. unfold ret. eexists. split; [done|].
  destruct (col_values_cases h (record_log INFO
              ("Verifying lock key '" +:+ job_key_of time_key today +:+ "'...") w))
    as (w2 & Hsh & Hcalls & _ & _ & [[msg Hc] | (g & _ & Hc)]);
    rewrite Hc in Hscan; [|done]. injection Hscan as _ <-.
  simpl. by rewrite Hsh, Hcalls.
Qed.

End WithCaseMap.

Lemma check_if_job_ran_fails_safe_witness :
  ∃ w', check_if_job_ran jobs "time1_2025-03-14"
          (ledger_world reordered_ledger [Some "503 Service Unavailable"])
        = (Return true, w')
    ∧ log w' = [(INFO, "Verifying lock key 'time1_2025-03-14'...");
                (ERROR, "Error checking job status for 'time1_2025-03-14': 503 Service Unavailable")].
Proof.
  eexists. split.
  - refine (proj1 (check_if_job_ran_fails_safe (λ _ _, inl 0%Z) (λ _ w, (true, sheets w))
                     (ledger_world reordered_ledger [Some "503 Service Unavailable"])
                     jobs "time1_2025-03-14" (RemoteError "503 Service Unavailable") _ _)).
    vm_compute. reflexivity.
  - reflexivity.
Defined.

Section WithCaseMap.
Context {case_map : CaseMap}.


Lemma check_if_job_ran_run w h k g :
  faults w = [] → sheets w !! h = Some g →
  ∃ w', check_if_job_ran h k w = (Return (bool_decide (k ∈ column_A g)), w')
    ∧ sheets w' = sheets w ∧ faults w' = []
    ∧ calls w' = calls w ++ [ColValues h 1]
    ∧ utc_now w' = utc_now w.
Proof.
  intros Hf Hs. unfold check_if_job_ran, try_except, bind at 1, logging at 1.
  unfold bind at 1. rewrite (col_values_run h _ g) by done.
  destruct (bool_decide (k ∈ column_A g)); unfold bind, logging, ret;
    eexists; (split; [reflexivity|]); done.
Qed.

End WithCaseMap.

(** C4 (as stated, refuted): a ledger whose header names the three
    columns in another order passes the dispatcher's header check.
    [mark_job_as_triggered] writes the key into column A, which is headed
    [status]; [check_if_job_ran] then answers [True] although the key is
    nowhere in the column named [job_key]. *)
Lemma key_column_is_positional :
  forallb (λ h, bool_decide (h ∈ hd [] reordered_ledger))
          ["job_key"; "trigger_timestamp_utc"; "status"] = true
  ∧ ∃ w1 w2 g,
      mark_job_as_triggered jobs "time1_2025-03-14" (ledger_world reordered_ledger [])
        = (Return tt, w1)
      ∧ sheets w1 !! jobs = Some g
      ∧ check_if_job_ran jobs "time1_2025-03-14" w1 = (Return true, w2)
      ∧ column_named "job_key" g = ["2025-03-14 07:05:00 UTC"]
      ∧ "time1_2025-03-14"%string ∉ column_named "job_key" g.
Proof.
  split; [reflexivity|]. eexists _, _, _.
  split; [vm_compute; reflexivity|]. split; [reflexivity|].
  split; [vm_compute; reflexivity|]. split; [reflexivity|].
  intros [H|H]%elem_of_cons; [discriminate H | by apply elem_of_nil in H].
Qed.

Section WithCaseMap.
Context {case_map : CaseMap}.


(** C4 (amended): when the scan succeeds, [check_if_job_ran] returns
    [True] exactly when the key occurs in column A of the ledger, the
    first column by position, scanned in full with the header cell
    included; for a non-empty key that is: some row of the sheet starts
    with the key.  The header names play no part. *)
Theorem check_if_job_ran_scans_column_A w h k g :
  faults w = [] → sheets w !! h = Some g →
  ∃ b w', check_if_job_ran h k w = (Return b, w')
    ∧ (b = true ↔ k ∈ column_A g)
    ∧ (k ≠ ""%string → (b = true ↔ ∃ row, row ∈ g ∧ nth 0 row ""%string = k))
    ∧ sheets w' = sheets w
    ∧ calls w' = calls w ++ [ColValues h 1].
Proof.
  intros Hf Hs. destruct (check_if_job_ran_run w h k g Hf Hs) as (w' & Hrun & Hsh & _ & Hc & _).
  exists (bool_decide (k ∈ column_A g)), w'. split; [done|].
  split; [apply bool_decide_eq_true|]. split; [|done].
  intros Hk. rewrite bool_decide_eq_true. unfold column_A.
  rewrite strip_trailing_elem by done. rewrite list_elem_of_In, in_map_iff.
  split; intros (row & H1 & H2); exists row; split; auto; by apply list_elem_of_In.
Qed.

End WithCaseMap.

Lemma check_if_job_ran_scans_column_A_witness :
  ∃ b w', check_if_job_ran jobs "status" (ledger_world reordered_ledger []) = (Return b, w')
    ∧ (b = true ↔ "status"%string ∈ column_A reordered_ledger)
    ∧ calls w' = [ColValues jobs 1].
Proof.
  destruct (check_if_job_ran_scans_column_A (ledger_world reordered_ledger []) jobs "status"
              reordered_ledger eq_refl eq_refl) as (b & w' & H1 & H2 & _ & _ & H3).
  exists b, w'. split; [exact H1|]. split; [exact H2 | exact H3].
Defined.

Section WithCaseMap.
Context {case_map : CaseMap}.


(** * The dispatcher protocol *)








Lemma get_worksheet_run url name w :
  faults w = [] →
  ∃ w1 new, get_worksheet url name w
            = (Return (if sheets w !! (url, name) is Some _ then Some (url, name) else None), w1)
    ∧ faults w1 = [] ∧ sheets w1 = sheets w ∧ rng w1 = rng w
    ∧ local_now w1 = local_now w ∧ utc_now w1 = utc_now w
    ∧ calls w1 = calls w ++ new ∧ Forall quiet new.
Proof.
  intros Hf. unfold get_worksheet, bind at 1.
  assert (Hopen : ∀ w0, faults w0 = [] →
    ∃ w1 new, try_except
        (open_by_url url;;;
         (let! ws := open_worksheet url name in ret (Some ws)))
        (λ e, match e with
              | SpreadsheetNotFound =>
                  logging ERROR ("Spreadsheet not found at URL: " +:+ url);;; ret None
              | WorksheetNotFound _ =>
                  logging ERROR ("Worksheet '" +:+ name +:+ "' not found.");;; ret None
              | SystemExit _ => raise e
              | _ => logging ERROR ("Error opening worksheet '" +:+ name +:+ "': "
                                    +:+ exn_str e);;; ret None
              end) w0
      = (Return (if sheets w0 !! (url, name) is Some _ then Some (url, name) else None), w1)
      ∧ faults w1 = [] ∧ sheets w1 = sheets w0 ∧ rng w1 = rng w0
      ∧ local_now w1 = local_now w0 ∧ utc_now w1 = utc_now w0
      ∧ calls w1 = calls w0 ++ new ∧ Forall quiet new).
  { intros w0 Hf0. unfold try_except, bind at 1, open_by_url.
    rewrite request_run by done.
    destruct (has_spreadsheet url (record_call (OpenByUrl url) w0)) eqn:Hhas.
    - unfold bind at 1, open_worksheet. rewrite request_run by done.
      cbn [sheets record_call].
      destruct (sheets w0 !! (url, name)) as [g|] eqn:Hs.
      + unfold ret. eexists _, [OpenByUrl url; OpenWorksheet url name].
        split; [reflexivity|]. simpl. rewrite <- (assoc_L (++)).
        repeat (split; [done|]). by repeat constructor.
      + unfold bind, logging, ret. eexists _, [OpenByUrl url; OpenWorksheet url name].
        split; [reflexivity|]. simpl. rewrite <- (assoc_L (++)).
        repeat (split; [done|]). by repeat constructor.
    - assert (Hs : sheets w0 !! (url, name) = None).
      { destruct (sheets w0 !! (url, name)) as [g|] eqn:Hs; [|done].
        unfold has_spreadsheet in Hhas. apply bool_decide_eq_false in Hhas.
        destruct Hhas. exists (url, name). split; [|done].
        apply elem_of_dom. cbn [sheets record_call]. eauto. }
      rewrite Hs. unfold bind, logging, ret. eexists _, [OpenByUrl url].
      split; [reflexivity|]. simpl. repeat (split; [done|]). by repeat constructor. }
  assert (Hcl : ∃ w0 new0, _get_client w = (Return true, w0)
            ∧ faults w0 = [] ∧ sheets w0 = sheets w ∧ rng w0 = rng w
            ∧ local_now w0 = local_now w ∧ utc_now w0 = utc_now w
            ∧ calls w0 = calls w ++ new0 ∧ Forall quiet new0).
  { unfold _get_client. destruct (client w).
    - exists w, []. rewrite app_nil_r. repeat (split; [done|]). constructor.
    - unfold try_except, bind at 1, logging at 1. unfold bind at 1.
      rewrite request_run by done. unfold bind, logging, ret.
      eexists _, [Authorize]. split; [reflexivity|]. simpl.
      repeat (split; [done|]). by repeat constructor. }
  destruct Hcl as (w0 & new0 & Hcl & Hf0 & Hs0 & Hr0 & Hl0 & Hu0 & Hc0 & Hq0).
  fold _get_client. rewrite Hcl. cbn [negb].
  destruct (Hopen w0 Hf0) as (w1 & new & Hrun & H1 & H2 & H3 & H4 & H5 & H6 & H7).
  exists w1, (new0 ++ new). rewrite Hrun, Hs0.
  split; [done|]. split; [done|]. split; [congruence|]. split; [congruence|].
  split; [congruence|]. split; [congruence|].
  split; [by rewrite H6, Hc0, <- (assoc_L (++))|]. by apply Forall_app.
Qed.

End WithCaseMap.



Section WithCaseMap.
Context {case_map : CaseMap}.


(** * The rotation controller: [_get_rotating_content] *)

End WithCaseMap.


Section WithCaseMap.
Context {case_map : CaseMap}.









Lemma grows_mark h r : grows (mark_item_as_used h r).
Proof.
  intros w. destruct (mark_cases w h r) as (w' & Hrun & Hcase). rewrite Hrun. simpl.
  destruct Hcase as [(_ & _ & [E|[E|(? & ? & ? & ? & _ & _ & _ & E)]])
                    | (? & ? & ? & ? & _ & _ & _ & _ & _ & _ & E & _)];
    rewrite E; eauto. exists []. by rewrite app_nil_r.
Qed.







End WithCaseMap.


Section WithCaseMap.
Context {case_map : CaseMap}.


(** * Further properties of the selection store *)

(** X1: [get_unused_item] returns whatever the remote side does: no
    exception reaches the caller.  No other worksheet is touched, and an
    item it returns is a data row of the sheet as it stands afterwards,
    with its index, unused ([str.upper] of its [used] value is
    ["FALSE"]) and matching the filter. *)
Theorem get_unused_item_always_returns w h language :
  ∃ res w', get_unused_item h language w = (Return res, w')
    ∧ (∀ h', h' ≠ h → sheets w' !! h' = sheets w !! h')
    ∧ (∀ n d, res = Some (n, d) →
         2 ≤ n ∧ Unused d ∧ Matches language d
         ∧ ∃ g' row, sheets w' !! h = Some g' ∧ g' !! (n - 1) = Some row
                     ∧ d = dict_zip (hd [] g') row).
Proof.
  destruct (select_cases w h language) as (res & w' & new & Hrun & _ & Hsh & Hres).
  exists res, w'. split; [done|]. split.
  - intros h' Hne. destruct Hsh as [-> | (g & j & _ & _ & _ & ->)]; [done|].
    by rewrite lookup_insert_ne.
  - intros n d Hnd. destruct (Hres n d Hnd) as (g' & Hg' & Hin).
    destruct g' as [|header rows]; [by apply elem_of_nil in Hin|].
    apply candidates_elem in Hin as (Hn & row & Hrow & -> & Hu & Hm).
    split; [done|]. split; [done|]. split; [done|]. exists (header :: rows), row. done.
Qed.

Lemma request_served {A} c (serve : Py A) w fs :
  faults w = None :: fs → request c serve w = serve (set_faults fs (record_call c w)).
Proof. intros Hf. unfold request. by rewrite Hf. Qed.

Lemma request_failed {A} c (serve : Py A) w msg fs :
  faults w = Some msg :: fs →
  request c serve w = (Raise (RemoteError msg), set_faults fs (record_call c w)).
Proof. intros Hf. unfold request. by rewrite Hf. Qed.

Lemma get_all_values_raises h w e w1 :
  get_all_values h w = (Raise e, w1) → is_Exception e = true.
Proof.
  unfold get_all_values, request, with_sheet, ret.
  destruct (head (faults w)) as [[msg|]|]; [by intros [= <- _]|..];
    cbn [sheets set_faults record_call]; destruct (sheets w !! h); by intros [= <-].
Qed.

(** X2: a worksheet with fewer than two rows (no header, or a header and
    no data) yields no item: one read, one warning naming the sheet, and
    no reset, although no row of it is unused. *)
Theorem get_unused_item_empty_sheet w h language g :
  faults w = [] → sheets w !! h = Some g → length g < 2 →
  get_unused_item h language w
  = (Return None,
     record_log WARNING ("Worksheet '" +:+ title h +:+ "' is empty.")
       (record_call (GetAllValues h) w)).
Proof.
  intros Hf Hs Hlen. unfold get_unused_item, try_except, bind at 1.
  rewrite (get_all_values_run h w g Hf Hs).
  replace (length g <? 2)%nat with true by (symmetry; by apply Nat.ltb_lt).
  reflexivity.
Qed.

End WithCaseMap.

Lemma get_unused_item_empty_sheet_witness :
  get_unused_item quotes None (world_of [["content"; "used"; "date_used"]%string] [])
  = (Return None,
     record_log WARNING "Worksheet 'Quotes' is empty."
       (record_call (GetAllValues quotes)
          (world_of [["content"; "used"; "date_used"]%string] []))).
Proof.
  apply (get_unused_item_empty_sheet (case_map := ascii_case) _ quotes None [["content"; "used"; "date_used"]%string]);
    [reflexivity | reflexivity | simpl; lia].
Defined.

Section WithCaseMap.
Context {case_map : CaseMap}.


(** X3: when the first read of the sheet fails, [get_unused_item]
    catches the error, logs it with its text and returns no item; nothing
    else is requested. *)
Theorem get_unused_item_read_failure w h language e w1 :
  get_all_values h w = (Raise e, w1) →
  get_unused_item h language w
  = (Return None, record_log ERROR ("Error getting an unused item: " +:+ exn_str e) w1)
  ∧ calls w1 = calls w ++ [GetAllValues h]
  ∧ sheets w1 = sheets w.
Proof.
  intros Hread. split.
  - unfold get_unused_item, try_except, bind at 1. rewrite Hread.
    by rewrite (get_all_values_raises _ _ _ _ Hread).
  - destruct (get_all_values_cases h w) as (w2 & Hsh & Hc & [[msg Hg] | (g & _ & Hg)]);
      rewrite Hg in Hread; [|done]. by injection Hread as _ <-.
Qed.

End WithCaseMap.

Lemma get_unused_item_read_failure_witness :
  ∃ w', get_unused_item quotes None
          (set_faults [Some "503 Service Unavailable"%string] (world_of mixed_case_grid []))
        = (Return None, w')
    ∧ log w' = [(ERROR, "Error getting an unused item: 503 Service Unavailable"%string)].
Proof.
  eexists. split.
  - refine (proj1 (get_unused_item_read_failure (case_map := ascii_case)
              (set_faults [Some "503 Service Unavailable"%string] (world_of mixed_case_grid []))
              quotes None (RemoteError "503 Service Unavailable") _ _)).
    vm_compute. reflexivity.
  - reflexivity.
Defined.

Section WithCaseMap.
Context {case_map : CaseMap}.


Lemma filter_from_sorted i records language :
  StronglySorted lt (fst <$> filter_from i records language).
Proof.
  revert i. induction records as [|row rest IH]; intros i; simpl; [constructor|].
  assert (Hhd : StronglySorted lt (fst <$> (i + 2, row) :: filter_from (S i) rest language)).
  { simpl. constructor; [apply IH|]. apply Forall_forall. intros n Hn.
    apply list_elem_of_fmap in Hn as ([n' d] & -> & Hin).
    apply filter_from_bound in Hin. simpl. lia. }
  destruct language as [l|]; [destruct (is_unused row && lang_match row l)|destruct (is_unused row)];
    first [exact Hhd | apply IH].
Qed.

Lemma filter_from_length i records language :
  length (filter_from i records language) ≤ length records.
Proof.
  revert i. induction records as [|row rest IH]; intros i; simpl; [done|].
  specialize (IH (S i)).
  destruct language as [l|]; [destruct (is_unused row && lang_match row l)|destruct (is_unused row)];
    simpl; lia.
Qed.

(** X4: [_filter_unused_items] lists the rows in sheet order: the row
    indices are strictly increasing and lie between 2 and the number of
    records plus 1, so no row is listed twice and no more rows than
    records.  A language filter only narrows: what passes it also
    passes without a filter. *)
Theorem filter_unused_items_ordered (records : list Dict) language :
  StronglySorted lt (fst <$> _filter_unused_items records language)
  ∧ length (_filter_unused_items records language) ≤ length records
  ∧ (∀ n d, (n, d) ∈ _filter_unused_items records language →
       2 ≤ n ≤ length records + 1 ∧ records !! (n - 2) = Some d
       ∧ (n, d) ∈ _filter_unused_items records None).
Proof.
  unfold _filter_unused_items. split; [apply filter_from_sorted|].
  split; [apply filter_from_length|]. intros n d Hin.
  apply filter_from_elem in Hin as (j & -> & Hj & Hu & Hm).
  pose proof (lookup_lt_Some _ _ _ Hj).
  split; [lia|]. split; [by replace (0 + j + 2 - 2) with j by lia|].
  apply filter_from_elem. exists j. split; [done|]. split; [done|]. split; [done|].
  done.
Qed.

Lemma write_reset_any g language col :
  write_cells (reset_from 0 (dict_zip (hd [] g) <$> tail g) language col) g
  = reset_grid language col g.
Proof. destruct g as [|header rows]; [done|]. apply write_reset. Qed.

Lemma reset_grid_lookup language col header rows i :
  reset_grid language col (header :: rows) !! S i
  = (λ row, if lang_hit language (dict_zip header row)
            then set_in_row col "FALSE" row else row) <$> rows !! i.
Proof. simpl. by rewrite list_lookup_fmap. Qed.

Lemma reset_grid_cell language col g r c :
  1 ≤ col → 1 ≤ c → c ≠ col → cell_at (reset_grid language col g) r c = cell_at g r c.
Proof.
  intros Hcol Hc1 Hc. unfold cell_at. destruct g as [|header rows]; [done|].
  destruct (r - 1) as [|i]; [done|].
  rewrite (nth_lookup _ (S i)), reset_grid_lookup. simpl.
  rewrite (nth_lookup rows). destruct (rows !! i) as [row|]; simpl; [|done].
  destruct (lang_hit language (dict_zip header row)); [|done].
  rewrite nth_set_in_row by done. case_decide; [lia|done].
Qed.

(** X5: [_reset_used_flags] never raises.  When it answers [False] no
    sheet has changed.  When it answers [True] only the sheet it was
    given has changed, and of that sheet only the [used] column of the
    data rows that match the language: the header, the number of rows,
    every row that does not match and every cell of another column are
    as before, and a matching row has ["FALSE"] written to [used]. *)
Theorem reset_used_flags_frame w h language :
  ∃ b w', _reset_used_flags h language w = (Return b, w')
    ∧ (∀ h', h' ≠ h → sheets w' !! h' = sheets w !! h')
    ∧ (b = false → sheets w' = sheets w)
    ∧ (b = true → ∃ g j g',
         sheets w !! h = Some g ∧ list_index "used" (hd [] g) = Some j
         ∧ sheets w' !! h = Some g'
         ∧ length g' = length g ∧ hd [] g' = hd [] g
         ∧ (∀ r row, 2 ≤ r → g !! (r - 1) = Some row →
              g' !! (r - 1)
              = Some (if lang_hit language (dict_zip (hd [] g) row)
                      then set_in_row (j + 1) "FALSE" row else row))
         ∧ (∀ r c, 1 ≤ c → c ≠ j + 1 → cell_at g' r c = cell_at g r c)).
Proof.
  destruct (reset_cases w h language) as (b & w' & new & Hrun & _ & Hcases).
  exists b, w'. split; [done|].
  destruct Hcases as [[-> Hsh] | (-> & g & j & Hs & Hj & _ & Hsh)].
  - split; [by rewrite Hsh|]. split; [done|]. intros [=].
  - rewrite write_reset_any in Hsh. split.
    { intros h' Hne. by rewrite Hsh, lookup_insert_ne. }
    split; [intros [=]|]. intros _.
    exists g, j, (reset_grid language (j + 1) g).
    split; [done|]. split; [done|]. split; [by rewrite Hsh, lookup_insert_eq|].
    split; [destruct g; simpl; by rewrite ?length_map|].
    split; [by destruct g|]. split.
    + intros r row Hr Hrow. destruct g as [|header rows]; [done|].
      destruct (r - 1) as [|i] eqn:E; [lia|].
      rewrite reset_grid_lookup. simpl in Hrow. by rewrite Hrow.
    + intros r c Hc1 Hc. apply reset_grid_cell; [lia|done|done].
Qed.

(** X6: marking a row that is already marked only renews its timestamp:
    after two markings of the same row, at clock readings [t1] and then
    [t2], every cell of the sheet reads as after one marking at [t2]. *)
Theorem mark_item_as_used_again w h r g t1 t2 i k :
  faults w = [] → sheets w !! h = Some g → local_now w = Some t1 →
  list_index "used" (hd [] g) = Some i →
  list_index "date_used" (hd [] g) = Some k →
  2 ≤ r →
  ∃ w1 w2 g2,
    mark_item_as_used h r w = (Return tt, w1)
    ∧ mark_item_as_used h r (set_local_now (Some t2) w1) = (Return tt, w2)
    ∧ sheets w2 !! h = Some g2
    ∧ hd [] g2 = hd [] g
    ∧ ∀ r' c', 1 ≤ r' → 1 ≤ c' →
        cell_at g2 r' c' = cell_at (write_cells (mark_cells r i k t2) g) r' c'.
Proof.
  intros Hf Hs Ht Hi Hk Hr.
  assert (Hik : i ≠ k).
  { apply list_index_Some in Hi as [Hi _]. apply list_index_Some in Hk as [Hk _].
    intros ->. rewrite Hi in Hk. discriminate. }
  assert (Hhd : ∀ t g0, hd [] (write_cells (mark_cells r i k t) g0) = hd [] g0).
  { intros t g0. apply hd_write_cells. unfold mark_cells. repeat constructor; simpl; lia. }
  pose proof (mark_run w h r g t1 i k Hf Hs Ht Hi Hk ltac:(lia)) as H1.
  cbv zeta in H1. fold (mark_cells r i k t1) in H1.
  set (g1 := write_cells (mark_cells r i k t1) g) in *.
  eexists _, _, (write_cells (mark_cells r i k t2) g1).
  split; [exact H1|]. split.
  - apply (mark_run _ h r g1 t2 i k); [done| |done| | |lia].
    + simpl. by rewrite lookup_insert_eq.
    + unfold g1. by rewrite Hhd.
    + unfold g1. by rewrite Hhd.
  - split; [simpl; by rewrite lookup_insert_eq|]. split; [unfold g1; by rewrite !Hhd|].
    intros r' c' Hr' Hc'. unfold g1. rewrite !cell_at_mark_cells by (done || lia).
    repeat case_decide; done.
Qed.

End WithCaseMap.

Lemma mark_item_as_used_again_witness :
  ∃ w1 w2 g2,
    mark_item_as_used quotes 2 (world_of mixed_case_grid []) = (Return tt, w1)
    ∧ mark_item_as_used quotes 2 (set_local_now (Some "2025-03-15 09:30:00"%string) w1)
      = (Return tt, w2)
    ∧ sheets w2 !! quotes = Some g2
    ∧ hd [] g2 = hd [] mixed_case_grid
    ∧ ∀ r' c', 1 ≤ r' → 1 ≤ c' →
        cell_at g2 r' c'
        = cell_at (write_cells (mark_cells 2 1 2 "2025-03-15 09:30:00") mixed_case_grid) r' c'.
Proof.
  apply (mark_item_as_used_again (world_of mixed_case_grid []) quotes 2 mixed_case_grid
           "2025-03-14 08:00:00" "2025-03-15 09:30:00" 1 2);
    [reflexivity | reflexivity | reflexivity | reflexivity | reflexivity | lia].
Defined.

Section WithCaseMap.
Context {case_map : CaseMap}.


Lemma get_all_values_served h w g fs :
  faults w = None :: fs → sheets w !! h = Some g →
  get_all_values h w = (Return g, set_faults fs (record_call (GetAllValues h) w)).
Proof.
  intros Hf Hs. unfold get_all_values. rewrite (request_served _ _ _ fs Hf).
  unfold with_sheet, ret. simpl. by rewrite Hs.
Qed.

Lemma update_cells_served h cells w g fs :
  faults w = None :: fs → sheets w !! h = Some g → cells ≠ [] →
  forallb valid_cell cells = true →
  update_cells h cells w
  = (Return tt, set_sheets (insert h (write_cells cells g))
                  (set_faults fs (record_call (UpdateCells h cells) w))).
Proof.
  intros Hf Hs Hne Hv. unfold update_cells. destruct cells; [done|].
  rewrite Hv, (request_served _ _ _ fs Hf). unfold with_sheet. simpl. by rewrite Hs.
Qed.

Lemma reset_served w h language header rows j fs :
  faults w = None :: None :: fs → sheets w !! h = Some (header :: rows) →
  list_index "used" header = Some j →
  let hits := reset_from 0 (dict_zip header <$> rows) language (j + 1) in
  hits ≠ [] →
  ∃ w', _reset_used_flags h language w = (Return true, w')
    ∧ faults w' = fs
    ∧ sheets w' = <[h := reset_grid language (j + 1) (header :: rows)]> (sheets w)
    ∧ calls w' = calls w ++ [GetAllValues h; UpdateCells h hits].
Proof.
  intros Hf Hs Hj hits Hhits. unfold _reset_used_flags.
  set (msg := (_ +:+ _)%string). unfold bind at 1, logging at 1.
  set (w0 := record_log WARNING msg w).
  assert (Hf0 : faults w0 = None :: None :: fs) by done.
  assert (Hs0 : sheets w0 !! h = Some (header :: rows)) by done.
  unfold try_except, bind at 1. rewrite (get_all_values_served h w0 _ _ Hf0 Hs0).
  set (w1 := set_faults (None :: fs) (record_call (GetAllValues h) w0)).
  destruct rows as [|row rest]; [done|].
  replace (length (header :: row :: rest) <? 2)%nat with false
    by (symmetry; apply Nat.ltb_ge; simpl; lia).
  unfold bind at 1. cbn [hd tail]. rewrite (index_run _ _ j w1 Hj).
  fold hits. destruct hits as [|c cs] eqn:E; [done|].
  assert (Hv : forallb valid_cell (c :: cs) = true).
  { rewrite <- E. apply reset_from_valid. lia. }
  unfold bind at 1.
  rewrite (update_cells_served h (c :: cs) w1 (header :: row :: rest) fs) by done.
  assert (Hw : write_cells (c :: cs) (header :: row :: rest)
               = reset_grid language (j + 1) (header :: row :: rest)).
  { rewrite <- E. apply write_reset. }
  unfold bind, logging, ret. eexists. split; [done|].
  cbn -[write_cells reset_grid]. rewrite Hw, <- (assoc_L (++)). done.
Qed.

(** X7: a reset is not undone when the read after it fails.  With every
    matching row used, the first read, the reset's read and its write
    served and the read after the reset refused, [get_unused_item]
    returns no item and logs the error, while the sheet keeps the
    [used] flags the reset has cleared. *)
Theorem get_unused_item_reset_then_failure w h language header rows j msg fs :
  faults w = None :: None :: None :: Some msg :: fs →
  sheets w !! h = Some (header :: rows) →
  list_index "used" header = Some j →
  candidates (header :: rows) language = [] →
  let hits := reset_from 0 (dict_zip header <$> rows) language (j + 1) in
  hits ≠ [] →
  ∃ w', get_unused_item h language w = (Return None, w')
    ∧ sheets w' = <[h := reset_grid language (j + 1) (header :: rows)]> (sheets w)
    ∧ calls w' = calls w ++ [GetAllValues h; GetAllValues h; UpdateCells h hits;
                             GetAllValues h]
    ∧ faults w' = fs
    ∧ last (log w') = Some (ERROR, ("Error getting an unused item: " +:+ msg)%string).
Proof.
  intros Hf Hs Hj Hcand hits Hhits.
  unfold get_unused_item, try_except, bind at 1.
  rewrite (get_all_values_served h w _ _ Hf Hs).
  destruct rows as [|row rest]; [done|].
  replace (length (header :: row :: rest) <? 2)%nat with false
    by (symmetry; apply Nat.ltb_ge; simpl; lia).
  cbn [hd tail]. unfold candidates in Hcand. cbn [hd tail] in Hcand. rewrite Hcand.
  unfold bind at 1, logging at 1.
  set (w1 := record_log WARNING _ _).
  destruct (reset_served w1 h language header (row :: rest) j (Some msg :: fs))
    as (w2 & Hreset & Hf2 & Hs2 & Hc2); [done|done|done|done|].
  unfold bind at 1. rewrite Hreset.
  unfold bind at 1, get_all_values. rewrite (request_failed _ _ _ msg fs Hf2).
  cbn [is_Exception]. unfold bind, logging, ret.
  eexists. split; [reflexivity|]. cbn [sheets calls faults log record_log set_faults record_call].
  split; [by rewrite Hs2|]. split.
  { rewrite Hc2. cbn [calls w1 record_log set_faults record_call].
    unfold w1. cbn. by rewrite <- !(assoc_L (++)). }
  split; [done|]. by rewrite last_snoc.
Qed.

End WithCaseMap.

Lemma get_unused_item_reset_then_failure_witness :
  ∃ w', get_unused_item quotes None
          (set_faults [None; None; None; Some "503 Service Unavailable"%string]
             (world_of spent_grid []))
        = (Return None, w')
    ∧ sheets w' = <[quotes := reset_grid None 3 spent_grid]> {[ quotes := spent_grid ]}
    ∧ faults w' = [].
Proof.
  destruct (get_unused_item_reset_then_failure (case_map := ascii_case)
              (set_faults [None; None; None; Some "503 Service Unavailable"%string]
                 (world_of spent_grid []))
              quotes None (hd [] spent_grid) (tail spent_grid) 2
              "503 Service Unavailable" [])
    as (w' & Hrun & Hsh & _ & Hf & _);
    [reflexivity | reflexivity | reflexivity | reflexivity | vm_compute; discriminate |].
  exists w'. split; [exact Hrun|]. split; [exact Hsh|exact Hf].
Defined.

Section WithCaseMap.
Context {case_map : CaseMap}.


(** * The requests of a computation *)

Lemma issues_ret {A} P (a : A) : issues P (ret a).
Proof. intros w. exists []. by rewrite app_nil_r. Qed.

Lemma issues_raise {A} P e : issues P (@raise A e).
Proof. intros w. exists []. by rewrite app_nil_r. Qed.

Lemma issues_logging P lvl msg : issues P (logging lvl msg).
Proof. intros w. exists []. by rewrite app_nil_r. Qed.

Lemma issues_bind {A B} P (m : Py A) (k : A → Py B) :
  issues P m → (∀ a, issues P (k a)) → issues P (bind m k).
Proof.
  intros Hm Hk w. unfold bind. destruct (Hm w) as (new & Hc & Hq).
  destruct (m w) as [[a|e] w1]; [|by eauto].
  destruct (Hk a w1) as (new' & Hc' & Hq'). simpl in *.
  exists (new ++ new'). split; [by rewrite Hc', Hc, <- (assoc_L (++))|]. by apply Forall_app.
Qed.

Lemma issues_try_except {A} P (m : Py A) handler :
  issues P m → (∀ e, issues P (handler e)) → issues P (try_except m handler).
Proof.
  intros Hm Hh w. unfold try_except. destruct (Hm w) as (new & Hc & Hq).
  destruct (m w) as [[a|e] w1]; [by eauto|].
  destruct (Hh e w1) as (new' & Hc' & Hq'). simpl in *.
  exists (new ++ new'). split; [by rewrite Hc', Hc, <- (assoc_L (++))|]. by apply Forall_app.
Qed.

Lemma issues_request {A} (P : Call → Prop) c (serve : Py A) :
  P c → issues P serve → issues P (request c serve).
Proof.
  intros Hq Hs w. unfold request.
  destruct (head (faults w)) as [[msg|]|].
  - exists [c]. split; [done|]. by repeat constructor.
  - destruct (Hs (set_faults (tail (faults w)) (record_call c w))) as (new & H2 & H3).
    exists (c :: new). split; [|by constructor].
    rewrite H2. simpl. by rewrite <- (assoc_L (++)).
  - destruct (Hs (set_faults (tail (faults w)) (record_call c w))) as (new & H2 & H3).
    exists (c :: new). split; [|by constructor].
    rewrite H2. simpl. by rewrite <- (assoc_L (++)).
Qed.

Lemma issues_with_sheet {A} P h (k : Grid → Py A) :
  (∀ g, issues P (k g)) → issues P (with_sheet h k).
Proof.
  intros Hk w. unfold with_sheet. destruct (sheets w !! h); [apply Hk|].
  exists []. by rewrite app_nil_r.
Qed.

Lemma issues_same_calls {A} P (m : Py A) :
  (∀ w, calls (m w).2 = calls w) → issues P m.
Proof. intros H w. exists []. by rewrite app_nil_r. Qed.

End WithCaseMap.

Ltac issues_step :=
  first [ apply issues_ret | apply issues_raise | apply issues_logging
        | apply issues_bind; [|intros ?]
        | apply issues_try_except; [|intros ?]
        | apply issues_with_sheet; intros ? ].

Section WithCaseMap.
Context {case_map : CaseMap}.


(** * Further properties of the connection *)

(** X8: [_get_client] answers whether a client is cached when it
    returns, and it always returns.  A cached client is handed out
    without a request or a log record; without one, exactly one
    authorisation is requested, and a refused one leaves nothing cached,
    so that the next call tries again. *)
Theorem get_client_cached w :
  ∃ b w', _get_client w = (Return b, w')
    ∧ client w' = b ∧ sheets w' = sheets w
    ∧ (client w = true → w' = w)
    ∧ (client w = false →
       calls w' = calls w ++ [Authorize]
       ∧ (b = false ↔ ∃ msg, head (faults w) = Some (Some msg))).
Proof.
  unfold _get_client, try_except, bind, request, logging, ret, raise.
  destruct (client w) eqn:Hc.
  { exists true, w. by rewrite Hc. }
  cbn. destruct (head (faults w)) as [[msg|]|]; cbn; eexists _, _;
    (split; [reflexivity|]); cbn;
    (split; [done|]); (split; [done|]); (split; [done|]); intros _;
    (split; [done|]); split; try done; try (intros (? & [=])); eauto.
Qed.

(** * Exceptions and effects, by composition *)

Lemma raises_only_ret {A} P (a : A) : raises_only P (ret a).
Proof. by intros w e w' [=]. Qed.

Lemma raises_only_raise {A} (P : exn → Prop) e : P e → raises_only P (@raise A e).
Proof. intros He w e' w' [= <- _]. done. Qed.

Lemma raises_only_logging P lvl msg : raises_only P (logging lvl msg).
Proof. by intros w e w' [=]. Qed.

Lemma raises_only_bind {A B} P (m : Py A) (k : A → Py B) :
  raises_only P m → (∀ a, raises_only P (k a)) → raises_only P (bind m k).
Proof.
  intros Hm Hk w e w'. unfold bind. destruct (m w) as [[a|e0] w1] eqn:E.
  - apply Hk.
  - intros [= <- _]. by eapply Hm.
Qed.

Lemma raises_only_try_except {A} P Q (m : Py A) handler :
  raises_only P m → (∀ e, P e → raises_only Q (handler e)) →
  raises_only Q (try_except m handler).
Proof.
  intros Hm Hh w e w'. unfold try_except. destruct (m w) as [[a|e0] w1] eqn:E; [done|].
  apply Hh. by eapply Hm.
Qed.

Lemma raises_only_request {A} (P : exn → Prop) c (serve : Py A) :
  (∀ msg, P (RemoteError msg)) → raises_only P serve → raises_only P (request c serve).
Proof.
  intros HP Hs w e w'. unfold request.
  destruct (head (faults w)) as [[msg|]|]; [by intros [= <- _]|apply Hs..].
Qed.

Lemma raises_only_weaken {A} (P Q : exn → Prop) (m : Py A) :
  (∀ e, P e → Q e) → raises_only P m → raises_only Q m.
Proof. intros HPQ Hm w e w' H. by eapply HPQ, Hm. Qed.

Lemma never_returns {A} (m : Py A) w :
  raises_only never m → ∃ a w', m w = (Return a, w').
Proof.
  intros Hm. destruct (m w) as [[a|e] w'] eqn:E; [eauto|]. destruct (Hm _ _ _ E).
Qed.

Lemma reads_only_ret {A} (a : A) : reads_only (ret a).
Proof. intros w. split; [done|]. exists []. by rewrite app_nil_r. Qed.

Lemma reads_only_raise {A} e : reads_only (@raise A e).
Proof. intros w. split; [done|]. exists []. by rewrite app_nil_r. Qed.

Lemma reads_only_logging lvl msg : reads_only (logging lvl msg).
Proof. intros w. split; [done|]. exists []. by rewrite app_nil_r. Qed.

Lemma reads_only_bind {A B} (m : Py A) (k : A → Py B) :
  reads_only m → (∀ a, reads_only (k a)) → reads_only (bind m k).
Proof.
  intros Hm Hk w. unfold bind. destruct (Hm w) as (Hs & new & Hc & Hq).
  destruct (m w) as [[a|e] w1]; [|by eauto].
  destruct (Hk a w1) as (Hs' & new' & Hc' & Hq'). simpl in *.
  split; [congruence|]. exists (new ++ new').
  split; [by rewrite Hc', Hc, <- (assoc_L (++))|]. by apply Forall_app.
Qed.

Lemma reads_only_try_except {A} (m : Py A) handler :
  reads_only m → (∀ e, reads_only (handler e)) → reads_only (try_except m handler).
Proof.
  intros Hm Hh w. unfold try_except. destruct (Hm w) as (Hs & new & Hc & Hq).
  destruct (m w) as [[a|e] w1]; [by eauto|].
  destruct (Hh e w1) as (Hs' & new' & Hc' & Hq'). simpl in *.
  split; [congruence|]. exists (new ++ new').
  split; [by rewrite Hc', Hc, <- (assoc_L (++))|]. by apply Forall_app.
Qed.

Lemma reads_only_request {A} c (serve : Py A) :
  quiet c → reads_only serve → reads_only (request c serve).
Proof.
  intros Hq Hs w. unfold request.
  destruct (head (faults w)) as [[msg|]|].
  - split; [done|]. exists [c]. split; [done|]. by repeat constructor.
  - destruct (Hs (set_faults (tail (faults w)) (record_call c w))) as (H1 & new & H2 & H3).
    split; [by rewrite H1|]. exists (c :: new). split; [|by constructor].
    rewrite H2. simpl. by rewrite <- (assoc_L (++)).
  - destruct (Hs (set_faults (tail (faults w)) (record_call c w))) as (H1 & new & H2 & H3).
    split; [by rewrite H1|]. exists (c :: new). split; [|by constructor].
    rewrite H2. simpl. by rewrite <- (assoc_L (++)).
Qed.

Lemma reads_only_with_sheet {A} h (k : Grid → Py A) :
  (∀ g, reads_only (k g)) → reads_only (with_sheet h k).
Proof.
  intros Hk w. unfold with_sheet. destruct (sheets w !! h); [apply Hk|].
  split; [done|]. exists []. by rewrite app_nil_r.
Qed.

Lemma raises_only_with_sheet {A} (P : exn → Prop) h (k : Grid → Py A) :
  (∀ msg, P (RemoteError msg)) → (∀ g, raises_only P (k g)) →
  raises_only P (with_sheet h k).
Proof.
  intros HP Hk w e w'. unfold with_sheet. destruct (sheets w !! h); [apply Hk|].
  by intros [= <- _].
Qed.

Lemma raises_only_get_client : raises_only never _get_client.
Proof.
  intros w. unfold _get_client. destruct (client w); [by intros ?? [=]|].
  revert w. apply (raises_only_try_except (λ e, is_Exception e = true)).
  - apply raises_only_bind; [apply raises_only_logging|]. intros _.
    apply raises_only_bind.
    + apply raises_only_request; [done|]. by intros ? ? ? [=].
    + intros _. apply raises_only_bind; [apply raises_only_logging|]. intros _.
      apply raises_only_ret.
  - intros e ->. apply raises_only_bind; [apply raises_only_logging|]. intros _.
    apply raises_only_ret.
Qed.

Lemma reads_only_get_client : reads_only _get_client.
Proof.
  intros w. unfold _get_client. destruct (client w).
  { split; [done|]. exists []. by rewrite app_nil_r. }
  revert w. apply reads_only_try_except.
  - apply reads_only_bind; [apply reads_only_logging|]. intros _.
    apply reads_only_bind.
    + apply reads_only_request; [done|]. intros w. split; [done|].
      exists []. by rewrite app_nil_r.
    + intros _. apply reads_only_bind; [apply reads_only_logging|]. intros _.
      apply reads_only_ret.
  - intros e. destruct (is_Exception e); [|apply reads_only_raise].
    apply reads_only_bind; [apply reads_only_logging|]. intros _. apply reads_only_ret.
Qed.

Lemma raises_only_get_worksheet url name : raises_only never (get_worksheet url name).
Proof.
  unfold get_worksheet. apply raises_only_bind; [apply raises_only_get_client|].
  intros ok. destruct (negb ok); [apply raises_only_ret|].
  apply (raises_only_try_except (λ e, is_Exception e = true)).
  - apply raises_only_bind.
    + apply raises_only_request; [done|]. intros w e w'.
      destruct (has_spreadsheet url w); [done|by intros [= <- _]].
    + intros _. apply raises_only_bind; [|intros; apply raises_only_ret].
      apply raises_only_request; [done|]. intros w e w'.
      destruct (sheets w !! (url, name)); [done|by intros [= <- _]].
  - intros e He. destruct e; try done;
      (apply raises_only_bind; [apply raises_only_logging|]; intros _; apply raises_only_ret).
Qed.

Lemma reads_only_get_worksheet url name : reads_only (get_worksheet url name).
Proof.
  unfold get_worksheet. apply reads_only_bind; [apply reads_only_get_client|].
  intros ok. destruct (negb ok); [apply reads_only_ret|].
  apply reads_only_try_except.
  - apply reads_only_bind.
    + apply reads_only_request; [done|]. intros w. split.
      * by destruct (has_spreadsheet url w).
      * exists []. rewrite app_nil_r. by destruct (has_spreadsheet url w).
    + intros _. apply reads_only_bind; [|intros; apply reads_only_ret].
      apply reads_only_request; [done|]. intros w. split.
      * by destruct (sheets w !! (url, name)).
      * exists []. rewrite app_nil_r. by destruct (sheets w !! (url, name)).
  - intros e. destruct e; try apply reads_only_raise;
      (apply reads_only_bind; [apply reads_only_logging|]; intros _; apply reads_only_ret).
Qed.

Lemma get_client_cases w :
  ∃ b w', _get_client w = (Return b, w')
    ∧ client w' = b ∧ sheets w' = sheets w
    ∧ (b = false → ∃ msg, last (log w') = Some (CRITICAL, msg)).
Proof.
  unfold _get_client, try_except, bind, request, logging, ret, raise.
  destruct (client w) eqn:Hc.
  { exists true, w. by rewrite Hc. }
  cbn. destruct (head (faults w)) as [[msg|]|]; cbn; eexists _, _;
    (split; [reflexivity|]); cbn; (split; [done|]); (split; [done|]);
    try done; intros _; rewrite last_snoc; eauto.
Qed.

(** The [try] block of [get_worksheet], on a client. *)
Lemma open_cases url name w res w' :
  try_except
    (open_by_url url ;;;
     let! ws := open_worksheet url name in
     ret (Some ws))
    (λ e, match e with
          | SpreadsheetNotFound =>
              logging ERROR ("Spreadsheet not found at URL: " +:+ url) ;;; ret None
          | WorksheetNotFound _ =>
              logging ERROR ("Worksheet '" +:+ name +:+ "' not found.") ;;; ret None
          | SystemExit _ => raise e
          | _ =>
              logging ERROR ("Error opening worksheet '" +:+ name +:+ "': " +:+ exn_str e) ;;;
              ret None
          end) w = (Return res, w') →
  client w' = client w
  ∧ match res with
    | Some h => h = (url, name) ∧ is_Some (sheets w !! h)
    | None => ∃ msg, last (log w') = Some (ERROR, msg)
    end.
Proof.
  unfold try_except, bind, open_by_url, open_worksheet, request, logging, ret, raise.
  destruct (head (faults w)) as [[msg|]|];
    [intros [= <- <-]; cbn; split; [done|]; rewrite last_snoc; eauto|..].
  all: destruct (has_spreadsheet url _);
    [|intros [= <- <-]; cbn; split; [done|]; rewrite last_snoc; eauto].
  all: cbn [faults set_faults record_call];
    destruct (head (tail (faults w))) as [[msg|]|];
    [intros [= <- <-]; cbn; split; [done|]; rewrite last_snoc; eauto|..].
  all: cbn [sheets set_faults record_call];
    destruct (sheets w !! (url, name)) eqn:Hs;
    intros [= <- <-]; cbn; (split; [done|]); rewrite ?last_snoc; eauto.
Qed.

Lemma issues_opening_get_worksheet url name :
  issues (opening url name) (get_worksheet url name).
Proof.
  unfold get_worksheet. apply issues_bind.
  { intros w. unfold _get_client. destruct (client w).
    { exists []. by rewrite app_nil_r. }
    revert w. apply issues_try_except.
    - apply issues_bind; [apply issues_logging|]. intros _. apply issues_bind.
      + apply issues_request; [by left|]. by apply issues_same_calls.
      + intros _. repeat issues_step.
    - intros e. destruct (is_Exception e); repeat issues_step. }
  intros ok. destruct (negb ok); [apply issues_ret|].
  apply issues_try_except.
  - apply issues_bind.
    + apply issues_request; [by right; left|]. apply issues_same_calls. intros w.
      by destruct (has_spreadsheet url w).
    + intros _. apply issues_bind; [|intros; apply issues_ret].
      apply issues_request; [by right; right|]. apply issues_same_calls. intros w.
      by destruct (sheets w !! (url, name)).
  - intros e. destruct e; repeat issues_step.
Qed.

(** X9: [get_worksheet] hands every failure to the log and none to the
    caller: whatever the remote side does it returns, it changes no
    sheet, and the only requests it issues are the authorisation and
    the opening of the spreadsheet and of the worksheet asked for.  A
    worksheet it returns is the one asked for, it exists, and a client
    is cached from then on; when it returns none, the last log record
    is an error or a critical one. *)
Theorem get_worksheet_total url name w :
  ∃ res w' new, get_worksheet url name w = (Return res, w')
    ∧ sheets w' = sheets w ∧ calls w' = calls w ++ new
    ∧ Forall (opening url name) new
    ∧ (∀ h, res = Some h →
         h = (url, name) ∧ is_Some (sheets w !! h) ∧ client w' = true)
    ∧ (res = None →
       ∃ lvl msg, last (log w') = Some (lvl, msg) ∧ (lvl = ERROR ∨ lvl = CRITICAL)).
Proof.
  destruct (never_returns (get_worksheet url name) w (raises_only_get_worksheet url name))
    as (res & w' & Hrun).
  destruct (reads_only_get_worksheet url name w) as (Hs & _).
  destruct (issues_opening_get_worksheet url name w) as (new & Hc & Hq).
  rewrite Hrun in Hs, Hc. simpl in Hs, Hc.
  exists res, w', new. split; [done|]. split; [done|]. split; [done|]. split; [done|].
  revert Hrun. unfold get_worksheet, bind at 1.
  destruct (get_client_cases w) as (b & w0 & -> & Hcl & Hs0 & Hlog).
  destruct b; cbn [negb].
  - intros [Hcl' Hres]%open_cases. destruct res as [h|].
    + split; [|done]. intros ? [= <-]. destruct Hres as [-> Hex].
      rewrite Hs0 in Hex. split; [done|]. split; [done|]. congruence.
    + split; [done|]. intros _. destruct Hres as [msg Hmsg]. exists ERROR, msg. auto.
  - intros [= <- <-]. split; [done|]. intros _.
    destruct (Hlog eq_refl) as [msg Hmsg]. exists CRITICAL, msg. auto.
Qed.

(** * Further properties of the job lock *)

(** X10: [check_if_job_ran] always returns and only reads: one scan of
    column A, no sheet changed.  It answers [False] only when the scan
    was served and the key is not in column A; every failure answers
    [True]. *)
Theorem check_if_job_ran_total w h k :
  ∃ b w', check_if_job_ran h k w = (Return b, w')
    ∧ sheets w' = sheets w
    ∧ calls w' = calls w ++ [ColValues h 1]
    ∧ (b = false →
       ∃ g, sheets w !! h = Some g ∧ (k ∉ column_A g)
            ∧ ∀ msg, head (faults w) ≠ Some (Some msg)).
Proof.
  unfold check_if_job_ran, try_except, bind at 1, logging at 1. unfold bind at 1.
  set (w0 := record_log INFO _ w).
  unfold col_values, request, with_sheet.
  change (faults w0) with (faults w).
  destruct (head (faults w)) as [[msg|]|] eqn:Hh; cbn [sheets set_faults record_call w0 record_log].
  - unfold bind, logging, ret. cbn. eexists _, _. split; [reflexivity|]. done.
  - destruct (sheets w !! h) as [g|] eqn:Hs.
    + unfold ret at 1. fold (column_A g).
      destruct (decide (k ∈ column_A g)) as [Hin|Hin].
      * rewrite bool_decide_eq_true_2 by done. unfold bind, logging, ret.
        eexists _, _. split; [reflexivity|]. done.
      * rewrite bool_decide_eq_false_2 by done. unfold bind, logging, ret.
        eexists _, _. split; [reflexivity|]. split; [done|]. split; [done|].
        intros _. exists g. done.
    + unfold bind, logging, ret. cbn. eexists _, _. split; [reflexivity|]. done.
  - destruct (sheets w !! h) as [g|] eqn:Hs.
    + unfold ret at 1. fold (column_A g).
      destruct (decide (k ∈ column_A g)) as [Hin|Hin].
      * rewrite bool_decide_eq_true_2 by done. unfold bind, logging, ret.
        eexists _, _. split; [reflexivity|]. done.
      * rewrite bool_decide_eq_false_2 by done. unfold bind, logging, ret.
        eexists _, _. split; [reflexivity|]. split; [done|]. split; [done|].
        intros _. exists g. done.
    + unfold bind, logging, ret. cbn. eexists _, _. split; [reflexivity|]. done.
Qed.

Lemma mark_job_as_triggered_cases w h k :
  let row := [k; utc_now w +:+ " UTC"; "TRIGGERED"]%string in
  ∃ w', mark_job_as_triggered h k w = (Return tt, w')
    ∧ calls w' = calls w ++ [AppendRow h row]
    ∧ faults w' = tail (faults w)
    ∧ utc_now w' = utc_now w
    ∧ ((sheets w' = sheets w ∧ ∃ msg, last (log w') = Some (ERROR, msg))
       ∨ (∃ g, sheets w !! h = Some g ∧ sheets w' = <[h := g ++ [row]]> (sheets w)
               ∧ ∀ msg, head (faults w) ≠ Some (Some msg))).
Proof.
  intros row. unfold mark_job_as_triggered, try_except, bind at 1, utc_time.
  unfold bind at 1. fold row. unfold append_row, request, with_sheet.
  destruct (head (faults w)) as [[msg|]|] eqn:Hh; cbn [sheets set_faults record_call].
  - unfold logging. cbn. eexists. split; [reflexivity|]. cbn.
    split; [done|]. split; [done|]. split; [done|]. left. split; [done|].
    rewrite last_snoc. eauto.
  - destruct (sheets w !! h) as [g|] eqn:Hs; unfold logging; cbn;
      (eexists; split; [reflexivity|]); cbn;
      (split; [done|]); (split; [done|]); (split; [done|]).
    + right. exists g. done.
    + left. split; [done|]. rewrite last_snoc. eauto.
  - destruct (sheets w !! h) as [g|] eqn:Hs; unfold logging; cbn;
      (eexists; split; [reflexivity|]); cbn;
      (split; [done|]); (split; [done|]); (split; [done|]).
    + right. exists g. done.
    + left. split; [done|]. rewrite last_snoc. eauto.
Qed.

(** X11: [mark_job_as_triggered] always returns, after exactly one
    append request carrying the key, the UTC time and ["TRIGGERED"].
    Either the row is the new last row of the ledger, or no sheet has
    changed and the failure is in the log: the caller is not told which. *)
Theorem mark_job_as_triggered_total w h k :
  let row := [k; utc_now w +:+ " UTC"; "TRIGGERED"]%string in
  ∃ w', mark_job_as_triggered h k w = (Return tt, w')
    ∧ calls w' = calls w ++ [AppendRow h row]
    ∧ ((sheets w' = sheets w ∧ ∃ msg, last (log w') = Some (ERROR, msg))
       ∨ (∃ g, sheets w !! h = Some g ∧ sheets w' !! h = Some (g ++ [row])
               ∧ ∀ h', h' ≠ h → sheets w' !! h' = sheets w !! h')).
Proof.
  intros row. destruct (mark_job_as_triggered_cases w h k)
    as (w' & Hrun & Hc & _ & _ & [Hfail | (g & Hs & Hs' & _)]).
  - exists w'. split; [done|]. split; [done|]. by left.
  - exists w'. split; [done|]. split; [done|]. right. exists g.
    split; [done|]. rewrite Hs'. split; [by rewrite lookup_insert_eq|].
    intros h' Hne. by rewrite lookup_insert_ne.
Qed.

(** X12: a slot in its window whose key is not in column A starts the
    job even when the append of the key is refused: the scan, the
    refused append and the job start follow each other, and the job
    runs on sheets in which the key has not been recorded. *)
Theorem refused_append_still_starts_job
    (elapsed_us : string → World → Z + string)
    (run_once : list string → World → bool * gmap Handle Grid)
    w h g today time_key sched us msg fs :
  faults w = None :: Some msg :: fs → sheets w !! h = Some g →
  elapsed_us sched w = inl us → (0 ≤ us ≤ TIME_WINDOW_MINUTES * 60000000)%Z →
  job_key_of time_key today ∉ column_A g →
  let key := job_key_of time_key today in
  let argv := ["python"; "run_once.py"; time_key]%string in
  ∃ w' w3,
    dispatch_slot elapsed_us run_once h today time_key sched w = (Return tt, w')
    ∧ calls w' = calls w ++ [ColValues h 1;
                             AppendRow h [key; utc_now w +:+ " UTC"; "TRIGGERED"]%string;
                             Subprocess argv]
    ∧ sheets w3 = sheets w
    ∧ sheets w' = (run_once argv w3).2
    ∧ faults w' = fs.
Proof.
  intros Hf Hs Hus Hwin Hkey key argv.
  unfold dispatch_slot, try_except, bind at 1, time_diff. rewrite Hus.
  replace ((0 <=? us)%Z && (us <=? TIME_WINDOW_MINUTES * 60000000)%Z) with true
    by (symmetry; apply andb_true_iff; split; apply Z.leb_le; lia).
  fold key. unfold bind at 1.
  assert (Hcheck : ∃ w1, check_if_job_ran h key w = (Return false, w1)
            ∧ sheets w1 = sheets w ∧ faults w1 = Some msg :: fs
            ∧ calls w1 = calls w ++ [ColValues h 1] ∧ utc_now w1 = utc_now w).
  { unfold check_if_job_ran, try_except, bind at 1, logging at 1. unfold bind at 1.
    unfold col_values. rewrite (request_served _ _ _ (Some msg :: fs)) by done.
    unfold with_sheet. cbn [sheets set_faults record_call record_log]. rewrite Hs.
    unfold ret at 1. fold (column_A g). rewrite bool_decide_eq_false_2 by done.
    unfold bind, logging, ret. eexists. split; [reflexivity|]. done. }
  destruct Hcheck as (w1 & -> & Hs1 & Hf1 & Hc1 & Hu1). cbn [negb].
  destruct (mark_job_as_triggered_cases w1 h key)
    as (w2 & Hm & Hc2 & Hf2 & Hu2 & [[Hs2 _] | (g' & _ & _ & Hno)]).
  2:{ rewrite Hf1 in Hno. by destruct (Hno msg). }
  unfold bind at 1. rewrite Hm. unfold bind at 1, logging at 1.
  unfold bind at 1, subprocess_run. fold argv.
  set (w3 := record_call (Subprocess argv) (record_log INFO _ w2)).
  assert (Hc3 : calls w3 = calls w ++ [ColValues h 1;
                  AppendRow h [key; utc_now w +:+ " UTC"; "TRIGGERED"]%string;
                  Subprocess argv]).
  { cbn [calls w3 record_call record_log]. rewrite Hc2, Hc1, Hu1.
    by rewrite <- !(assoc_L (++)). }
  assert (Hs3 : sheets w3 = sheets w) by (cbn; congruence).
  assert (Hf3 : faults w3 = fs) by (cbn; by rewrite Hf2, Hf1).
  destruct ((run_once argv w3).1); unfold logging; cbn [is_Exception];
    (eexists _, w3; split; [reflexivity|]);
    cbn [faults calls sheets set_sheets record_log]; done.
Qed.

End WithCaseMap.

Lemma refused_append_still_starts_job_witness :
  ∃ w', dispatch_slot sample_elapsed sample_job jobs "2025-03-14" "time1" "08:00"
          (ledger_world plain_ledger [None; Some "503 Service Unavailable"%string])
        = (Return tt, w')
    ∧ calls w' = [ColValues jobs 1;
                  AppendRow jobs ["time1_2025-03-14"; "2025-03-14 07:05:00 UTC"; "TRIGGERED"]%string;
                  Subprocess ["python"; "run_once.py"; "time1"]%string]
    ∧ sheets w' !! jobs = Some plain_ledger.
Proof.
  destruct (refused_append_still_starts_job sample_elapsed sample_job
              (ledger_world plain_ledger [None; Some "503 Service Unavailable"%string])
              jobs plain_ledger "2025-03-14" "time1" "08:00" 300000000
              "503 Service Unavailable" [])
    as (w' & w3 & Hrun & Hc & Hs3 & Hs' & _);
    [reflexivity | reflexivity | reflexivity | vm_compute; split; discriminate
    | vm_compute; intros H; repeat (apply elem_of_cons in H as [[=]|H]); by apply elem_of_nil in H |].
  exists w'. split; [exact Hrun|]. split; [exact Hc|].
  rewrite Hs'. unfold sample_job. simpl. rewrite Hs3. reflexivity.
Defined.

Section WithCaseMap.
Context {case_map : CaseMap}.


Lemma raises_only_check_if_job_ran h k : raises_only never (check_if_job_ran h k).
Proof.
  unfold check_if_job_ran.
  apply (raises_only_try_except (λ e, is_Exception e = true)).
  - apply raises_only_bind; [apply raises_only_logging|]. intros _.
    apply raises_only_bind; [intros w e w'; apply col_values_raises|].
    intros keys. destruct (bool_decide (k ∈ keys));
      (apply raises_only_bind; [apply raises_only_logging|]; intros _; apply raises_only_ret).
  - intros e ->. apply raises_only_bind; [apply raises_only_logging|]. intros _.
    apply raises_only_ret.
Qed.

Lemma raises_only_mark_job_as_triggered h k : raises_only never (mark_job_as_triggered h k).
Proof.
  intros w e w' H. destruct (mark_job_as_triggered_cases w h k) as (w1 & Hrun & _).
  rewrite Hrun in H. discriminate.
Qed.

Section DispatcherEffects.

Variable elapsed_us : string → World → Z + string.
Variable run_once : list string → World → bool * gmap Handle Grid.

Lemma raises_only_dispatch_slot h today time_key sched :
  raises_only never (dispatch_slot elapsed_us run_once h today time_key sched).
Proof.
  unfold dispatch_slot.
  apply (raises_only_try_except (λ e, is_Exception e = true)).
  - apply raises_only_bind.
    { intros w e w'. unfold time_diff. destruct (elapsed_us sched w); [done|].
      by intros [= <- _]. }
    intros us. destruct (_ && _); [|apply raises_only_ret].
    apply raises_only_bind.
    { eapply raises_only_weaken; [|apply raises_only_check_if_job_ran]. by intros ? []. }
    intros ran. destruct (negb ran); [|apply raises_only_ret].
    apply raises_only_bind.
    { eapply raises_only_weaken; [|apply raises_only_mark_job_as_triggered]. by intros ? []. }
    intros _. apply raises_only_bind; [apply raises_only_logging|]. intros _.
    apply raises_only_bind; [|intros _; apply raises_only_logging].
    intros w e w'. unfold subprocess_run.
    destruct (run_once _ _).1; [done|]. by intros [= <- _].
  - intros e ->. apply raises_only_logging.
Qed.

Lemma raises_only_dispatch_all h today scheduled_jobs :
  raises_only never (dispatch_all elapsed_us run_once h today scheduled_jobs).
Proof.
  induction scheduled_jobs as [|[time_key sched] rest IH]; simpl; [apply raises_only_ret|].
  apply raises_only_bind; [apply raises_only_dispatch_slot|]. intros _. apply IH.
Qed.

End DispatcherEffects.

Lemma reads_only_row_values h r : reads_only (row_values h r).
Proof.
  unfold row_values. destruct r as [|r']; [apply reads_only_raise|].
  apply reads_only_request; [done|]. apply reads_only_with_sheet. intros g.
  apply reads_only_ret.
Qed.

Lemma raises_only_row_values h r : raises_only (λ e, is_Exception e = true) (row_values h r).
Proof.
  unfold row_values. destruct r as [|r']; [by apply raises_only_raise|].
  apply raises_only_request; [done|]. apply raises_only_with_sheet; [done|].
  intros g. apply raises_only_ret.
Qed.

Lemma reads_only_open_log_sheet repr file : reads_only (open_log_sheet repr file).
Proof.
  assert (Hexit : ∀ lvl msg, reads_only (logging lvl msg ;;; @sys_exit Handle 1)).
  { intros. apply reads_only_bind; [apply reads_only_logging|]. intros _.
    apply reads_only_raise. }
  unfold open_log_sheet. apply reads_only_try_except.
  - apply reads_only_bind.
    { destruct file; [apply reads_only_ret | apply reads_only_raise..]. }
    intros app_config.
    destruct (logging_spreadsheet app_config) as [lc|]; [|apply Hexit].
    destruct (_ || _); [apply Hexit|].
    apply reads_only_bind; [apply reads_only_get_worksheet|].
    intros [ws|]; [|apply Hexit].
    apply reads_only_bind; [apply reads_only_row_values|]. intros headers.
    destruct (forallb _ _); [|apply Hexit].
    apply reads_only_bind; [apply reads_only_logging|]. intros _. apply reads_only_ret.
  - intros e. destruct (is_Exception e); [apply Hexit|apply reads_only_raise].
Qed.

Lemma raises_only_open_log_sheet repr file :
  raises_only (λ e, e = SystemExit 1) (open_log_sheet repr file).
Proof.
  set (P := λ e, is_Exception e = true ∨ e = SystemExit 1).
  assert (Hexit : ∀ Q : exn → Prop, Q (SystemExit 1) →
            ∀ lvl msg, raises_only Q (logging lvl msg ;;; @sys_exit Handle 1)).
  { intros Q HQ lvl msg. apply raises_only_bind; [apply raises_only_logging|]. intros _.
    by apply raises_only_raise. }
  unfold open_log_sheet. apply (raises_only_try_except P).
  - apply raises_only_bind.
    { destruct file; [apply raises_only_ret | apply raises_only_raise; by left..]. }
    intros app_config.
    destruct (logging_spreadsheet app_config) as [lc|]; [|apply Hexit; by right].
    destruct (_ || _); [apply Hexit; by right|].
    apply raises_only_bind.
    { eapply raises_only_weaken; [|apply raises_only_get_worksheet]. by intros ? []. }
    intros [ws|]; [|apply Hexit; by right].
    apply raises_only_bind.
    { eapply raises_only_weaken; [|apply raises_only_row_values]. intros e He. by left. }
    intros headers. destruct (forallb _ _); [|apply Hexit; by right].
    apply raises_only_bind; [apply raises_only_logging|]. intros _. apply raises_only_ret.
  - intros e [He | ->].
    + rewrite He. by apply Hexit.
    + by apply raises_only_raise.
Qed.

(** * The dispatcher, whatever the store answers *)






Section DispatcherFacts.

Variable elapsed_us : string → World → Z + string.
Variable run_once : list string → World → bool * gmap Handle Grid.
Variable zone_failure : string + string.
Variable repr : string → string.
Variable h : Handle.
Hypothesis run_once_ledger : ∀ argv w, (run_once argv w).2 !! h = sheets w !! h.




End DispatcherFacts.


End WithCaseMap.

Section WithCaseMap.
Context {case_map : CaseMap}.




End WithCaseMap.



Section WithCaseMap.
Context {case_map : CaseMap}.

(** X13: the dispatcher ends normally, with exit status 1, or with an
    exception it does not catch: the one that reading [config.json] in
    [get_scheduled_jobs] raises when it is neither [FileNotFoundError]
    nor [JSONDecodeError], or the one that [ZoneInfo] raises when it is
    not [ZoneInfoNotFoundError].  Whatever the clock, the job and the
    remote side do, nothing else leaves [main]: opening the log sheet
    fails with exit status 1 only, and the loop over the slots never
    raises.  When [main] does not end normally, nothing has been
    written: no sheet has changed, no row was appended and no job
    started.  Without a schedule, or with a file that is missing or not
    JSON, it returns without a single request. *)
Theorem main_exit_status
    (elapsed_us : string → World → Z + string)
    (run_once : list string → World → bool * gmap Handle Grid)
    (zone_failure : string + string) (repr : string → string)
    file w :
  ∃ r w', main elapsed_us run_once zone_failure repr file w = (r, w')
    ∧ (r = Return tt
       ∨ ((r = Raise (SystemExit 1)
           ∨ ∃ msg, r = Raise (OtherError msg)
                    ∧ (file = ConfigFailure msg
                       ∨ (today_of w = None ∧ zone_failure = inr msg)))
          ∧ sheets w' = sheets w
          ∧ ∃ new, calls w' = calls w ++ new ∧ Forall quiet new))
    ∧ ((∃ app_config, file = ConfigObject app_config
                      ∧ default [] (schedule app_config) = [])
       ∨ (∃ msg, file = ConfigUnreadable msg) →
       r = Return tt ∧ calls w' = calls w ∧ sheets w' = sheets w)
    ∧ (∀ msg, file = ConfigFailure msg →
         r = Raise (OtherError msg) ∧ calls w' = calls w)
    ∧ (∀ app_config, file = ConfigObject app_config →
         default [] (schedule app_config) ≠ [] → today_of w = None →
         r = match zone_failure with
             | inl _ => Raise (SystemExit 1)
             | inr msg => Raise (OtherError msg)
             end).
Proof.
  unfold main, bind at 1, logging at 1. set (w0 := record_log INFO _ w).
  unfold bind at 1. destruct file as [app_config|msg|msg].
  3:{ unfold get_scheduled_jobs, raise. eexists _, _. split; [reflexivity|].
      split; [|split; [|split]].
      - right. split; [right; exists msg; split; [done|by left]|].
        split; [done|]. exists []. simpl. rewrite app_nil_r. split; [done|constructor].
      - by intros [(? & [=] & _) | (? & [=])].
      - by intros ? [= <-].
      - by intros ? [=]. }
  2:{ unfold get_scheduled_jobs, bind at 1, logging at 1. unfold ret at 1, logging.
      eexists _, _. split; [reflexivity|]. split; [by left|].
      split; [done|]. split; by intros ? [=]. }
  assert (Hjobs : ∃ w1, get_scheduled_jobs (ConfigObject app_config) w0
                        = (Return (default [] (schedule app_config)), w1)
                    ∧ sheets w1 = sheets w ∧ calls w1 = calls w
                    ∧ local_now w1 = local_now w).
  { unfold get_scheduled_jobs. destruct (schedule app_config); simpl.
    - by exists w0.
    - unfold bind, logging, ret. eexists. split; [reflexivity|]. done. }
  destruct Hjobs as (w1 & -> & Hs1 & Hc1 & Hn1).
  destruct (default [] (schedule app_config)) as [|job rest] eqn:Hsched.
  { unfold logging. eexists _, _. split; [reflexivity|]. split; [by left|].
    split; [done|]. split; [by intros ? [=]|]. intros ? [= <-]. by rewrite Hsched. }
  assert (Hne : ¬ ((∃ app_config0, ConfigObject app_config = ConfigObject app_config0
                                   ∧ default [] (schedule app_config0) = [])
                   ∨ (∃ msg, ConfigObject app_config = ConfigUnreadable msg))).
  { intros [(? & [= <-] & H) | (? & [=])]. by rewrite Hsched in H. }
  unfold bind at 1, local_date.
  assert (Ht : today_of w1 = today_of w) by (unfold today_of; by rewrite Hn1).
  rewrite Ht. destruct (today_of w) as [today|].
  2:{ destruct zone_failure as [tz_str|msg].
      - unfold bind, logging, sys_exit, raise. eexists _, _. split; [reflexivity|].
        split; [|split; [done|split; [by intros ? [=]|done]]].
        right. split; [by left|]. split; [done|]. exists [].
        simpl. rewrite app_nil_r. split; [done|]. constructor.
      - eexists _, _. split; [reflexivity|].
        split; [|split; [done|split; [by intros ? [=]|done]]].
        right. split; [right; exists msg; split; [done|by right]|]. split; [done|].
        exists []. rewrite app_nil_r. split; [done|]. constructor. }
  unfold bind at 1.
  destruct (reads_only_open_log_sheet repr (ConfigObject app_config) w1)
    as (Hs2 & new & Hc2 & Hq2).
  destruct (open_log_sheet repr (ConfigObject app_config) w1) as [[h|e] w2] eqn:Hopen.
  - unfold bind at 1.
    destruct (never_returns (dispatch_all elapsed_us run_once h today (job :: rest)) w2
                (raises_only_dispatch_all elapsed_us run_once h today (job :: rest)))
      as ([] & w3 & ->).
    unfold logging. eexists _, _. split; [reflexivity|]. split; [by left|].
    split; [done|]. split; [by intros ? [=]|done].
  - apply raises_only_open_log_sheet in Hopen as ->. simpl in Hs2, Hc2.
    eexists _, _. split; [reflexivity|].
    split; [|split; [done|split; [by intros ? [=]|done]]]. right.
    split; [by left|]. split; [congruence|]. exists new. split; [congruence|done].
Qed.


Lemma required_headers_check (header : list string) :
  forallb (λ h, bool_decide (h ∈ strip_trailing header)) required_headers
  = bool_decide (required_headers ⊆ header).
Proof.
  assert (Hne : ∀ x, x ∈ required_headers → x ≠ ""%string).
  { intros x Hx ->. unfold required_headers in Hx.
    repeat (apply elem_of_cons in Hx as [Hx|Hx]; [discriminate|]).
    by apply elem_of_nil in Hx. }
  apply eq_true_iff_eq. rewrite forallb_forall, bool_decide_eq_true.
  split.
  - intros H x Hx. specialize (H x (proj1 (list_elem_of_In _ _) Hx)).
    apply bool_decide_eq_true in H. by apply (strip_trailing_elem _ _ (Hne x Hx)).
  - intros H x Hx%list_elem_of_In. apply bool_decide_eq_true.
    apply (strip_trailing_elem _ _ (Hne x Hx)). by apply H.
Qed.

(** X14: the dispatcher accepts a log sheet exactly when its first row
    holds the three names [job_key], [trigger_timestamp_utc] and
    [status], in whatever columns and among whatever other names; it
    exits with status 1 otherwise.  The check reads and writes
    nothing else. *)
Theorem open_log_sheet_header_check repr app_config lc w g :
  faults w = [] → logging_spreadsheet app_config = Some lc →
  dict_get lc "spreadsheet_url" "" ≠ ""%string →
  sheets w !! ledger_of app_config = Some g →
  ∃ w', open_log_sheet repr (ConfigObject app_config) w
        = (if bool_decide (required_headers ⊆ hd [] g)
           then Return (ledger_of app_config) else Raise (SystemExit 1), w')
    ∧ sheets w' = sheets w
    ∧ last (calls w') = Some (RowValues (ledger_of app_config) 1).
Proof.
  intros Hf Hlc Hurl Hs. unfold open_log_sheet, ledger_of in *.
  unfold try_except, bind at 1, ret at 1. rewrite Hlc in *.
  assert (Hne : bool_decide (lc = ∅) = false).
  { apply bool_decide_eq_false. intros ->. by apply Hurl. }
  rewrite Hne. destruct (String.eqb_spec (dict_get lc "spreadsheet_url" "") ""); [done|].
  cbn [orb]. set (url := dict_get lc "spreadsheet_url" "") in *.
  set (name := dict_get lc "jobs_worksheet_name" "Jobs") in *.
  unfold bind at 1.
  destruct (get_worksheet_run url name w Hf)
    as (w1 & new & Hrun & Hf1 & Hs1 & _ & _ & _ & Hc1 & _).
  rewrite Hrun, Hs. unfold bind at 1.
  rewrite (row_values_header_run (url, name) w1 g Hf1) by (by rewrite Hs1).
  rewrite required_headers_check.
  destruct (bool_decide (required_headers ⊆ hd [] g)).
  - unfold bind, logging, ret. eexists. split; [reflexivity|]. simpl.
    split; [done|]. by rewrite last_snoc.
  - unfold bind, logging, sys_exit, raise. simpl. eexists. split; [reflexivity|]. simpl.
    split; [done|]. by rewrite last_snoc.
Qed.

End WithCaseMap.

Lemma open_log_sheet_header_check_witness :
  ∃ w', open_log_sheet sample_repr (ConfigObject sample_config)
          (ledger_world reordered_ledger [])
        = (Return jobs, w')
    ∧ sheets w' = {[ jobs := reordered_ledger ]}.
Proof.
  destruct (open_log_sheet_header_check sample_repr sample_config
              {[ "spreadsheet_url"%string := "https://docs.example/d/2"%string ]}
              (ledger_world reordered_ledger []) reordered_ledger)
    as (w' & Hrun & Hs & _); [reflexivity | reflexivity | vm_compute; discriminate | reflexivity |].
  exists w'. split; [|exact Hs]. rewrite Hrun. reflexivity.
Defined.

Section WithCaseMap.
Context {case_map : CaseMap}.


Lemma string_length_app (a b : string) :
  String.length (a +:+ b) = String.length a + String.length b.
Proof.
  induction a as [|x a IH]; cbv [String.append]; fold String.append; simpl; [done|].
  by rewrite IH.
Qed.

Lemma string_app_inj_length (a b c d : string) :
  (a +:+ c = b +:+ d)%string → String.length c = String.length d → a = b ∧ c = d.
Proof.
  revert b. induction a as [|x a IH]; intros [|y b];
    cbv [String.append]; fold String.append.
  - done.
  - intros -> Hlen. simpl in Hlen. rewrite string_length_app in Hlen. lia.
  - intros <- Hlen. simpl in Hlen. rewrite string_length_app in Hlen. lia.
  - intros [= -> H] Hlen. destruct (IH b H Hlen) as [-> ->]. done.
Qed.

(** X15: two slots on two dates share a lock key only when they are the
    same slot on the same date, for dates rendered in the same number
    of characters (as ["%Y-%m-%d"] renders them). *)
Theorem job_key_of_injective time_key1 today1 time_key2 today2 :
  String.length today1 = String.length today2 →
  job_key_of time_key1 today1 = job_key_of time_key2 today2 →
  time_key1 = time_key2 ∧ today1 = today2.
Proof.
  intros Hlen Heq. unfold job_key_of in Heq.
  apply string_app_inj_length in Heq as [-> Heq].
  - by apply string_app_inj_length in Heq as [_ ->].
  - by rewrite !string_length_app, Hlen.
Qed.

End WithCaseMap.

Lemma job_key_of_injective_witness :
  "time1"%string = "time1"%string ∧ "2025-03-14"%string = "2025-03-14"%string.
Proof.
  apply (job_key_of_injective "time1" "2025-03-14" "time1" "2025-03-14");
    [reflexivity | reflexivity].
Defined.

Section WithCaseMap.
Context {case_map : CaseMap}.


(** * Marking and the candidates *)

Lemma length_set_cell g c :
  cell_row c - 1 < length g → length (set_cell g c) = length g.
Proof.
  intros Hr. unfold set_cell. rewrite length_insert, pad_to_ge; [done|lia].
Qed.

Lemma set_cell_lookup g c r :
  cell_row c - 1 < length g →
  set_cell g c !! r
  = if decide (r = cell_row c - 1)
    then Some (set_in_row (cell_col c) (cell_value c) (nth r g []))
    else g !! r.
Proof.
  intros Hr. unfold set_cell. rewrite pad_to_ge by lia. case_decide as Heq.
  - subst r. by rewrite list_lookup_insert_eq.
  - by rewrite list_lookup_insert_ne.
Qed.

Lemma mark_cells_lookup g n i k t r :
  n - 1 < length g →
  write_cells (mark_cells n i k t) g !! r
  = if decide (r = n - 1)
    then Some (set_in_row (k + 1) t (set_in_row (i + 1) "TRUE" (nth r g [])))
    else g !! r.
Proof.
  intros Hn. unfold write_cells, mark_cells. cbn [foldl].
  rewrite set_cell_lookup by (by rewrite length_set_cell).
  cbn [cell_row cell_col cell_value]. case_decide as Heq.
  - subst r. rewrite (nth_lookup (set_cell _ _)), set_cell_lookup by done.
    cbn [cell_row cell_col cell_value]. by rewrite decide_True.
  - rewrite set_cell_lookup by done. cbn [cell_row]. by rewrite decide_False.
Qed.

Lemma marked_row_used header row i k t :
  header !! i = Some "used"%string → single_column "used" header → i ≠ k →
  dict_get (dict_zip header (set_in_row (k + 1) t (set_in_row (i + 1) "TRUE" row))) "used" ""
  = "TRUE"%string.
Proof.
  intros Hi Hs Hik. unfold dict_get. rewrite (dict_zip_lookup _ _ _ i Hi Hs).
  rewrite set_in_row_lookup by lia. case_decide; [lia|].
  assert (Hlen : i < length (set_in_row (i + 1) "TRUE" row)).
  { unfold set_in_row. rewrite length_insert, length_pad_to. lia. }
  case_decide; [|lia]. rewrite set_in_row_lookup by lia. case_decide; [done|lia].
Qed.

Lemma candidates_after_mark g n i k t language m d :
  list_index "used" (hd [] g) = Some i →
  list_index "date_used" (hd [] g) = Some k →
  single_column "used" (hd [] g) →
  2 ≤ n → n - 1 < length g →
  (m, d) ∈ candidates (write_cells (mark_cells n i k t) g) language
  ↔ m ≠ n ∧ (m, d) ∈ candidates g language.
Proof.
  intros Hi Hk Hs Hn Hlen.
  assert (Hik : i ≠ k).
  { apply list_index_Some in Hi as [Hi _]. apply list_index_Some in Hk as [Hk _].
    intros ->. rewrite Hi in Hk. discriminate. }
  apply list_index_Some in Hi as [Hi _].
  assert (Hhd : hd [] (write_cells (mark_cells n i k t) g) = hd [] g).
  { apply hd_write_cells. unfold mark_cells. repeat constructor; simpl; lia. }
  pose proof (mark_cells_lookup g n i k t) as Hlook.
  destruct g as [|header rows]; [simpl in Hlen; lia|].
  destruct (write_cells (mark_cells n i k t) (header :: rows)) as [|header' rows'] eqn:Eg.
  { specialize (Hlook 0 Hlen). rewrite decide_False in Hlook by lia. done. }
  cbn [hd] in *. subst header'. rewrite !candidates_elem. split.
  - intros (Hm & row & Hrow & -> & Hu & Hl). rewrite (Hlook _ Hlen) in Hrow.
    case_decide as Heq.
    + injection Hrow as <-. unfold Unused in Hu.
      rewrite marked_row_used in Hu by done. by apply upper_TRUE in Hu.
    + split; [lia|]. split; [done|]. by exists row.
  - intros (Hne & Hm & row & Hrow & -> & Hu & Hl). split; [done|]. exists row.
    split; [|done]. rewrite (Hlook _ Hlen). by rewrite decide_False by lia.
Qed.

(** X16: marking takes exactly the marked row out of the candidates.
    With a store that answers, a clock, both columns in the header and
    [used] heading a single column, the candidates of the sheet after
    [mark_item_as_used] on an existing data row [n] are those of the
    sheet before, without row [n]: every other row keeps its index, its
    record and its standing, under every language filter. *)
Theorem marking_removes_one_candidate w h g n i k t :
  faults w = [] → sheets w !! h = Some g → local_now w = Some t →
  list_index "used" (hd [] g) = Some i →
  list_index "date_used" (hd [] g) = Some k →
  single_column "used" (hd [] g) →
  2 ≤ n → n - 1 < length g →
  ∃ w' g', mark_item_as_used h n w = (Return tt, w')
    ∧ sheets w' !! h = Some g'
    ∧ ∀ language m d,
        (m, d) ∈ candidates g' language ↔ m ≠ n ∧ (m, d) ∈ candidates g language.
Proof.
  intros Hf Hs Ht Hi Hk Hsing Hn Hlen.
  pose proof (mark_run w h n g t i k Hf Hs Ht Hi Hk ltac:(lia)) as Hrun.
  cbv zeta in Hrun. fold (mark_cells n i k t) in Hrun.
  eexists _, (write_cells (mark_cells n i k t) g). split; [exact Hrun|].
  split; [simpl; by rewrite lookup_insert_eq|].
  intros language m d. by apply candidates_after_mark.
Qed.

End WithCaseMap.

Lemma marking_removes_one_candidate_witness :
  ∃ w' g', mark_item_as_used quotes 2 (world_of mixed_case_grid []) = (Return tt, w')
    ∧ sheets w' !! quotes = Some g'
    ∧ ∀ language m d,
        (m, d) ∈ candidates g' language
        ↔ m ≠ 2 ∧ (m, d) ∈ candidates mixed_case_grid language.
Proof.
  apply (marking_removes_one_candidate (case_map := ascii_case) (world_of mixed_case_grid []) quotes mixed_case_grid
           2 1 2 "2025-03-14 08:00:00");
    [reflexivity | reflexivity | reflexivity | reflexivity | reflexivity
    | apply single_used_sample | lia | simpl; lia].
Defined.

Section WithCaseMap.
Context {case_map : CaseMap}.


(** * Further properties of the content services *)

Lemma raises_only_get_unused_item h language : raises_only never (get_unused_item h language).
Proof.
  intros w e w' H. destruct (select_cases w h language) as (res & w1 & new & Hrun & _).
  rewrite Hrun in H. discriminate.
Qed.

Lemma raises_only_mark_item_as_used h r : raises_only never (mark_item_as_used h r).
Proof.
  intros w e w' H. destruct (mark_cases w h r) as (w1 & Hrun & _).
  rewrite Hrun in H. discriminate.
Qed.

Lemma raises_only_subscript app_config src cfg k :
  data_sources app_config !! src = Some cfg →
  k ∈ ["spreadsheet_url"; "worksheet_name"]%string →
  raises_only (missing_source_key app_config) (subscript cfg k).
Proof.
  intros Hsrc Hk w e w'. unfold subscript. destruct (cfg !! k) eqn:E; [done|].
  intros [= <- _]. by exists src, cfg, k.
Qed.

Lemma raises_only_never {A} (P : exn → Prop) (m : Py A) :
  raises_only never m → raises_only P m.
Proof. apply raises_only_weaken. by intros ? []. Qed.

End WithCaseMap.

Ltac raises_step :=
  first [ apply raises_only_ret
        | apply raises_only_logging
        | apply raises_only_never, raises_only_get_worksheet
        | apply raises_only_never, raises_only_get_unused_item
        | apply raises_only_never, raises_only_mark_item_as_used
        | eapply raises_only_subscript; [eassumption | set_solver] ].


Ltac raises_bind x := apply raises_only_bind; [raises_step | intros x].


Ltac raises_done := repeat first [raises_step | apply raises_only_bind; [|intros ?]].

Section WithCaseMap.
Context {case_map : CaseMap}.


Lemma raises_only_fetch_payload app_config key :
  raises_only (missing_source_key app_config) (fetch_payload app_config key).
Proof.
  unfold fetch_payload.
  destruct (data_sources app_config !! key) as [cfg|] eqn:Hsrc; [|raises_done].
  destruct (bool_decide (cfg = ∅)); [raises_done|]. cbv zeta.
  raises_bind url. raises_bind name. raises_bind ws. destruct ws as [ws|]; [|raises_done].
  raises_bind item. destruct item as [[idx data]|]; [|raises_done].
  destruct (bool_decide (data = ∅)); raises_done.
Qed.

(** X17: [_get_rotating_content] lets one kind of exception through,
    the [KeyError] of a data source written without its
    [spreadsheet_url] or [worksheet_name]; everything else the remote
    side, the clock or the sheets can do ends in a returned pair.  A
    rotation source without its URL raises before anything is logged
    or requested. *)
Theorem rotating_content_raises_only app_config key :
  raises_only (missing_source_key app_config) (_get_rotating_content app_config key)
  ∧ ∀ cfg w, data_sources app_config !! key = Some cfg → cfg ≠ ∅ →
             cfg !! "spreadsheet_url"%string = None →
             _get_rotating_content app_config key w
             = (Raise (KeyError "'spreadsheet_url'"), w).
Proof.
  split.
  - unfold _get_rotating_content.
    destruct (data_sources app_config !! key) as [cfg|] eqn:Hsrc; [|raises_done].
    destruct (bool_decide (cfg = ∅)); [raises_done|].
    raises_bind url. raises_bind name. raises_bind ws. destruct ws as [ws|]; [|raises_done].
    raises_bind item. destruct item as [[idx data]|]; [|raises_done].
    destruct (bool_decide (data = ∅)); [raises_done|].
    destruct (String.eqb _ _); [raises_done|].
    raises_bind done_. apply raises_only_fetch_payload.
  - intros cfg w Hsrc Hne Hurl. unfold _get_rotating_content. rewrite Hsrc.
    rewrite bool_decide_eq_false_2 by done. unfold bind at 1, subscript at 1.
    by rewrite Hurl.
Qed.

Lemma mark_refused w h r msg :
  head (faults w) = Some (Some msg) →
  ∃ w', mark_item_as_used h r w = (Return tt, w') ∧ sheets w' = sheets w.
Proof.
  intros Hh. unfold mark_item_as_used, try_except, bind at 1, local_time.
  destruct (local_now w) as [t|].
  - unfold bind at 1, row_values, request. rewrite Hh. unfold logging.
    eexists. split; [reflexivity|]. done.
  - unfold logging. eexists. split; [reflexivity|]. done.
Qed.

Lemma candidate_nonempty g language n d : (n, d) ∈ candidates g language → d ≠ ∅.
Proof.
  unfold candidates, _filter_unused_items. intros (j & _ & _ & Hu & _)%filter_from_elem ->.
  unfold Unused, dict_get in Hu. rewrite lookup_empty in Hu. by apply upper_empty in Hu.
Qed.

(** X18: with its source configured, a store that answers, a clock and
    a sheet that has candidates, [_get_daily_greeting] returns the three
    greeting fields of the candidate the draw picks, and uses that row
    up: the candidates of the sheet afterwards are those before without
    the row drawn. *)
Theorem daily_greeting_consumes_its_row app_config gc url name w g i k t c cs :
  data_sources app_config !! "daily_greetings"%string = Some gc →
  gc !! "spreadsheet_url"%string = Some url →
  gc !! "worksheet_name"%string = Some name →
  faults w = [] → sheets w !! (url, name) = Some g → local_now w = Some t →
  list_index "used" (hd [] g) = Some i →
  list_index "date_used" (hd [] g) = Some k →
  single_column "used" (hd [] g) →
  candidates g None = c :: cs →
  ∃ n d w' g',
    (c :: cs) !! (hd 0 (rng w) mod length (c :: cs)) = Some (n, d)
    ∧ _get_daily_greeting app_config w
      = (Return (dict_get d "greeting_foreign" "", dict_get d "language_origin" "",
                 dict_get d "translation_sk" ""), w')
    ∧ sheets w' !! (url, name) = Some g'
    ∧ ∀ m d', (m, d') ∈ candidates g' None ↔ m ≠ n ∧ (m, d') ∈ candidates g None.
Proof.
  intros Hsrc Hurl Hname Hf Hs Ht Hi Hk Hsing Hcand.
  assert (Hlt : hd 0 (rng w) mod length (c :: cs) < length (c :: cs)).
  { apply Nat.mod_upper_bound. simpl. lia. }
  destruct (lookup_lt_is_Some_2 _ _ Hlt) as [[n d] Hnd].
  assert (Hin : (n, d) ∈ candidates g None).
  { rewrite Hcand. by eapply list_elem_of_lookup_2. }
  pose proof (candidate_nonempty _ _ _ _ Hin) as Hd.
  assert (Hrow : 2 ≤ n ∧ n - 1 < length g).
  { destruct g as [|header rows]; [by apply elem_of_nil in Hin|].
    apply candidates_elem in Hin as (Hn & row & Hrow & _).
    split; [done|]. by eapply lookup_lt_Some. }
  destruct Hrow as [Hn Hlen].
  destruct (get_worksheet_run url name w Hf)
    as (w1 & new & Hgw & Hf1 & Hs1 & Hr1 & Hl1 & _ & _ & _).
  rewrite Hs in Hgw.
  set (w2 := set_rng (tail (rng w1)) (record_call (GetAllValues (url, name)) w1)).
  pose proof (mark_run w2 (url, name) n g t i k) as Hmark.
  cbv zeta in Hmark. fold (mark_cells n i k t) in Hmark.
  exists n, d. eexists _, (write_cells (mark_cells n i k t) g).
  split; [done|]. split; [|split].
  - unfold _get_daily_greeting. rewrite Hsrc.
    rewrite bool_decide_eq_false_2 by (intros ->; by rewrite lookup_empty in Hurl).
    unfold bind at 1, subscript at 1. rewrite Hurl. unfold ret at 1.
    unfold bind at 1, subscript at 1. rewrite Hname. unfold ret at 1.
    unfold bind at 1. rewrite Hgw. unfold bind at 1.
    rewrite (get_unused_item_run w1 (url, name) None g c cs Hf1) by (done || by rewrite Hs1).
    rewrite <- Hr1 in Hnd. rewrite Hnd. rewrite bool_decide_eq_false_2 by done.
    unfold bind at 1. fold w2. rewrite Hmark; [reflexivity|done| | |done|done|lia].
    + simpl. by rewrite Hs1.
    + simpl. by rewrite Hl1.
  - simpl. by rewrite lookup_insert_eq.
  - intros m d'. by apply candidates_after_mark.
Qed.

End WithCaseMap.

Lemma daily_greeting_consumes_its_row_witness :
  ∃ w' g', _get_daily_greeting greetings_config (greetings_world [])
           = (Return ("Hola"%string, "Spanish"%string, "Ahoj"%string), w')
    ∧ sheets w' !! greetings = Some g'
    ∧ ∀ m d', (m, d') ∈ candidates g' None
              ↔ m ≠ 3 ∧ (m, d') ∈ candidates greetings_grid None.
Proof.
  destruct (daily_greeting_consumes_its_row (case_map := ascii_case) greetings_config
              {[ "spreadsheet_url"%string := "https://docs.example/d/4"%string;
                 "worksheet_name"%string := "Greetings"%string ]}
              "https://docs.example/d/4" "Greetings" (greetings_world []) greetings_grid
              3 4 "2025-03-14 08:00:00"
              (3, dict_zip (hd [] greetings_grid) ["Hola"; "Spanish"; "Ahoj"; "FALSE"; ""]%string)
              [])
    as (n & d & w' & g' & Hnd & Hrun & Hs & Hc);
    [reflexivity | reflexivity | reflexivity | reflexivity | reflexivity | reflexivity
    | reflexivity | reflexivity | | reflexivity |].
  - intros j1 j2 H1 H2.
    repeat (destruct j1 as [|j1]; [|try discriminate H1]);
      repeat (destruct j2 as [|j2]; [|try discriminate H2]);
      try discriminate; try reflexivity.
  - injection Hnd as <- <-. exists w', g'. split; [exact Hrun|]. split; [exact Hs|exact Hc].
Defined.

Section WithCaseMap.
Context {case_map : CaseMap}.


(** X19: a greeting goes out even when its row cannot be marked.  When
    the worksheet was opened and a row drawn, and the next request is
    refused, [_get_daily_greeting] still returns the fields of that
    row; no sheet has changed since the draw, so the row is still a
    candidate and can be drawn again. *)
Theorem daily_greeting_unmarked_on_failure app_config gc url name w ws w1 n d w2 msg :
  data_sources app_config !! "daily_greetings"%string = Some gc →
  gc !! "spreadsheet_url"%string = Some url →
  gc !! "worksheet_name"%string = Some name →
  get_worksheet url name w = (Return (Some ws), w1) →
  get_unused_item ws None w1 = (Return (Some (n, d)), w2) →
  head (faults w2) = Some (Some msg) →
  ∃ w' g',
    _get_daily_greeting app_config w
    = (Return (dict_get d "greeting_foreign" "", dict_get d "language_origin" "",
               dict_get d "translation_sk" ""), w')
    ∧ sheets w' = sheets w2
    ∧ sheets w' !! ws = Some g'
    ∧ (n, d) ∈ candidates g' None.
Proof.
  intros Hsrc Hurl Hname Hgw Hsel Hh.
  destruct (select_cases w1 ws None) as (res & w2' & new & Hrun & _ & _ & Hres).
  rewrite Hsel in Hrun. injection Hrun as <- <-.
  destruct (Hres n d eq_refl) as (g' & Hg' & Hin).
  destruct (mark_refused w2 ws n msg Hh) as (w' & Hmark & Hs').
  exists w', g'. split; [|split; [done|split; [by rewrite Hs'|done]]].
  unfold _get_daily_greeting. rewrite Hsrc.
  rewrite bool_decide_eq_false_2 by (intros ->; by rewrite lookup_empty in Hurl).
  unfold bind at 1, subscript at 1. rewrite Hurl. unfold ret at 1.
  unfold bind at 1, subscript at 1. rewrite Hname. unfold ret at 1.
  unfold bind at 1. rewrite Hgw. unfold bind at 1. rewrite Hsel.
  rewrite bool_decide_eq_false_2 by (by eapply candidate_nonempty).
  unfold bind at 1. by rewrite Hmark.
Qed.

End WithCaseMap.

Lemma daily_greeting_unmarked_on_failure_witness :
  ∃ w', _get_daily_greeting greetings_config
          (greetings_world [None; None; None; Some "503 Service Unavailable"%string])
        = (Return ("Hola"%string, "Spanish"%string, "Ahoj"%string), w')
    ∧ sheets w' !! greetings = Some greetings_grid.
Proof.
  set (w := greetings_world [None; None; None; Some "503 Service Unavailable"%string]).
  destruct (daily_greeting_unmarked_on_failure (case_map := ascii_case) greetings_config
              {[ "spreadsheet_url"%string := "https://docs.example/d/4"%string;
                 "worksheet_name"%string := "Greetings"%string ]}
              "https://docs.example/d/4" "Greetings" w greetings
              (get_worksheet "https://docs.example/d/4" "Greetings" w).2
              3 (dict_zip (hd [] greetings_grid) ["Hola"; "Spanish"; "Ahoj"; "FALSE"; ""]%string)
              (get_unused_item greetings None
                 (get_worksheet "https://docs.example/d/4" "Greetings" w).2).2
              "503 Service Unavailable")
    as (w' & g' & Hrun & Hs & _ & _);
    [reflexivity | reflexivity | reflexivity | vm_compute; reflexivity
    | vm_compute; reflexivity | vm_compute; reflexivity |].
  exists w'. split; [exact Hrun|]. rewrite Hs. vm_compute. reflexivity.
Defined.

Section WithCaseMap.
Context {case_map : CaseMap}.


(** * The strategies *)

Lemma issues_get_client : issues unmarked _get_client.
Proof.
  intros w. unfold _get_client. destruct (client w).
  { exists []. by rewrite app_nil_r. }
  revert w. apply issues_try_except.
  - apply issues_bind; [apply issues_logging|]. intros _. apply issues_bind.
    + apply issues_request; [done|]. by apply issues_same_calls.
    + intros _. repeat issues_step.
  - intros e. destruct (is_Exception e); repeat issues_step.
Qed.

Lemma issues_get_worksheet url name : issues unmarked (get_worksheet url name).
Proof.
  unfold get_worksheet. apply issues_bind; [apply issues_get_client|].
  intros ok. destruct (negb ok); [apply issues_ret|].
  apply issues_try_except.
  - apply issues_bind.
    + apply issues_request; [done|]. apply issues_same_calls. intros w.
      by destruct (has_spreadsheet url w).
    + intros _. apply issues_bind; [|intros; apply issues_ret].
      apply issues_request; [done|]. apply issues_same_calls. intros w.
      by destruct (sheets w !! (url, name)).
  - intros e. destruct e; repeat issues_step.
Qed.

Lemma issues_get_all_values h : issues unmarked (get_all_values h).
Proof.
  unfold get_all_values. apply issues_request; [done|]. repeat issues_step.
Qed.

Lemma issues_reset h language : issues unmarked (_reset_used_flags h language).
Proof.
  unfold _reset_used_flags. apply issues_bind; [apply issues_logging|]. intros _.
  apply issues_try_except.
  - apply issues_bind; [apply issues_get_all_values|]. intros g.
    destruct (length g <? 2)%nat; [apply issues_ret|].
    apply issues_bind.
    { apply issues_same_calls. intros w. unfold index. by destruct (list_index _ _). }
    intros i. set (updates := reset_from _ _ _ _).
    assert (Hu : Forall (λ x, cell_value x = "FALSE"%string) updates).
    { apply Forall_forall. by intros c (j & d & -> & _)%reset_from_elem. }
    destruct updates as [|c cs] eqn:E; [repeat issues_step|].
    apply issues_bind; [|intros _; repeat issues_step].
    unfold update_cells. destruct (forallb _ _); [|apply issues_raise].
    apply issues_request; [done|]. apply issues_with_sheet. intros g'.
    by apply issues_same_calls.
  - intros e. destruct e; repeat issues_step.
Qed.

Lemma issues_choose_unused l : issues unmarked (choose_unused l).
Proof.
  apply issues_same_calls. intros w.
  destruct (choose_unused_cases l w) as (res & w' & Hrun & _ & Hc & _). by rewrite Hrun.
Qed.

Lemma issues_get_unused_item h language : issues unmarked (get_unused_item h language).
Proof.
  unfold get_unused_item. apply issues_try_except.
  - apply issues_bind; [apply issues_get_all_values|]. intros g.
    destruct (length g <? 2)%nat; [repeat issues_step|].
    destruct (_filter_unused_items _ _) as [|c cs]; [|apply issues_choose_unused].
    apply issues_bind; [apply issues_logging|]. intros _.
    apply issues_bind; [apply issues_reset|]. intros ok. destruct ok; [|repeat issues_step].
    apply issues_bind; [apply issues_get_all_values|]. intros g'. apply issues_choose_unused.
  - intros e. destruct (is_Exception e); repeat issues_step.
Qed.

Lemma issues_subscript P d key : issues P (subscript d key).
Proof. unfold subscript. destruct (d !! key); [apply issues_ret|apply issues_raise]. Qed.

Lemma issues_load_prompt P prompt_text theme language :
  issues P (load_prompt prompt_text theme language).
Proof. unfold load_prompt. destruct (prompt_text theme language); repeat issues_step. Qed.

Lemma issues_str_format P format template kwargs :
  issues P (str_format format template kwargs).
Proof. unfold str_format. destruct (format template kwargs); repeat issues_step. Qed.

(** X20: the simple static strategy marks a row only once it has a
    message to send.  Whatever the remote side, the prompt file and the
    formatting do, a run that does not end in a text issues no request
    of [mark_item_as_used]: it opens, reads and at most resets.  A run
    that ends in a text has drawn a candidate of the sheet, loaded the
    prompt, formatted it with the row's [caption] and [family_quotes],
    taken the image from its [photo_url], and ended with
    [mark_item_as_used] on that row. *)
Theorem simple_static_marks_on_success_only prompt_text format theme_config lang w :
  ∃ r w' new,
    SimpleStaticStrategy.execute prompt_text format theme_config lang w = (r, w')
    ∧ calls w' = calls w ++ new
    ∧ ((∀ text img, r ≠ Return (Some text, img)) → Forall unmarked new)
    ∧ (∀ text img, r = Return (Some text, img) →
         ∃ ws idx data tpl w2 pre,
           calls w2 = calls w ++ pre ∧ Forall unmarked pre
           ∧ (∃ g, sheets w2 !! ws = Some g ∧ (idx, data) ∈ candidates g None)
           ∧ prompt_text (dict_get theme_config "theme_name" "") lang = inl tpl
           ∧ format tpl [("caption", dict_get data "caption" "");
                         ("family_quote", dict_get data "family_quotes" "")]%string
             = inl text
           ∧ img = data !! "photo_url"%string
           ∧ mark_item_as_used ws idx w2 = (Return tt, w')).
Proof.
  unfold SimpleStaticStrategy.execute.
  unfold bind at 1, subscript at 1.
  destruct (theme_config !! "spreadsheet_url"%string) as [url|].
  2:{ eexists _, _, []. split; [reflexivity|]. rewrite app_nil_r.
      split; [done|]. split; [done|]. intros ?? [=]. }
  unfold ret at 1. unfold bind at 1, subscript at 1.
  destruct (theme_config !! "worksheet_name"%string) as [name|].
  2:{ eexists _, _, []. split; [reflexivity|]. rewrite app_nil_r.
      split; [done|]. split; [done|]. intros ?? [=]. }
  unfold ret at 1. unfold bind at 1.
  destruct (issues_get_worksheet url name w) as (new1 & Hc1 & Hq1).
  destruct (get_worksheet url name w) as [[[ws|]|e] w1] eqn:Hgw; simpl in Hc1.
  2,3: by (eexists _, _, new1; split; [reflexivity|]; split; [done|];
           split; [done|]; intros ?? [=]).
  unfold bind at 1.
  destruct (issues_get_unused_item ws None w1) as (new2 & Hc2 & Hq2).
  destruct (select_cases w1 ws None) as (res & w2 & new' & Hsel & _ & _ & Hres).
  rewrite Hsel in Hc2 |- *. simpl in Hc2.
  assert (Hc : calls w2 = calls w ++ (new1 ++ new2)).
  { by rewrite Hc2, Hc1, <- (assoc_L (++)). }
  assert (Hq : Forall unmarked (new1 ++ new2)) by (by apply Forall_app).
  cbv zeta.
  destruct res as [[idx data]|].
  2:{ unfold bind, logging, ret. eexists _, _, (new1 ++ new2). split; [reflexivity|].
      split; [done|]. split; [done|]. intros ?? [=]. }
  destruct (bool_decide (data = ∅)).
  { unfold bind, logging, ret. eexists _, _, (new1 ++ new2). split; [reflexivity|].
    split; [done|]. split; [done|]. intros ?? [=]. }
  unfold bind at 1, load_prompt.
  destruct (prompt_text (dict_get theme_config "theme_name" "") lang) as [tpl|msg] eqn:Hp.
  2:{ unfold bind, logging, ret. simpl. eexists _, _, (new1 ++ new2). split; [reflexivity|].
      split; [done|]. split; [done|]. intros ?? [=]. }
  unfold ret at 1. unfold truthy. destruct (String.eqb tpl "").
  { unfold bind, logging, ret. simpl. eexists _, _, (new1 ++ new2). split; [reflexivity|].
    split; [done|]. split; [done|]. intros ?? [=]. }
  cbn [negb from_option id]. unfold bind at 1, try_except, bind at 1, str_format.
  match goal with
  | |- context [format tpl ?kw] => destruct (format tpl kw) as [text|e] eqn:Hfmt
  end.
  2:{ unfold raise at 1.
      destruct e; unfold bind, logging, ret, raise;
        (eexists _, _, (new1 ++ new2); split; [reflexivity|];
         split; [done|]; split; [done|]; intros ?? [=]). }
  unfold ret at 1 2. unfold bind at 1.
  destruct (mark_cases w2 ws idx) as (w3 & Hmark & _).
  destruct (grows_mark ws idx w2) as [newm Hcm].
  rewrite Hmark in Hcm |- *. simpl in Hcm. unfold ret.
  eexists _, _, ((new1 ++ new2) ++ newm). split; [reflexivity|].
  split; [by rewrite Hcm, Hc, <- !(assoc_L (++))|].
  split; [intros Hno; by destruct (Hno text (data !! "photo_url"%string))|].
  intros text' img [= <- <-].
  exists ws, idx, data, tpl, w2, (new1 ++ new2).
  split; [done|]. split; [done|]. split; [by apply Hres|]. done.
Qed.

Lemma fetch_art_cases s w :
  ∃ r w1 new, HybridDualStaticStrategy._fetch_art_data s w = (r, w1)
    ∧ calls w1 = calls w ++ new ∧ Forall unmarked new
    ∧ ∀ s1, r = Return (true, s1) →
        ∃ ws idx data,
          s1 = HybridDualStaticStrategy.set_art_item (Some (idx, data))
                 (HybridDualStaticStrategy.set_art_ws (Some ws) s)
          ∧ data ≠ ∅
          ∧ ∃ g, sheets w1 !! ws = Some g ∧ (idx, data) ∈ candidates g None.
Proof.
  unfold HybridDualStaticStrategy._fetch_art_data. cbv zeta.
  destruct (HybridDualStaticStrategy.source_config _ _) as [cfg|].
  2:{ unfold bind, logging, ret. eexists _, _, []. split; [reflexivity|].
      simpl. rewrite app_nil_r. split; [done|]. split; [done|]. intros ? [=]. }
  unfold bind at 1, subscript at 1. destruct (cfg !! "spreadsheet_url"%string) as [url|].
  2:{ eexists _, _, []. split; [reflexivity|]. rewrite app_nil_r.
      split; [done|]. split; [done|]. intros ? [=]. }
  unfold ret at 1. unfold bind at 1, subscript at 1.
  destruct (cfg !! "worksheet_name"%string) as [name|].
  2:{ eexists _, _, []. split; [reflexivity|]. rewrite app_nil_r.
      split; [done|]. split; [done|]. intros ? [=]. }
  unfold ret at 1. unfold bind at 1.
  destruct (issues_get_worksheet url name w) as (new1 & Hc1 & Hq1).
  destruct (get_worksheet url name w) as [[[ws|]|e] w1] eqn:Hgw; simpl in Hc1.
  2,3: by (eexists _, _, new1; split; [reflexivity|]; split; [done|];
           split; [done|]; intros ? [=]).
  unfold bind at 1.
  destruct (issues_get_unused_item ws None w1) as (new2 & Hc2 & Hq2).
  destruct (select_cases w1 ws None) as (res & w2 & new' & Hsel & _ & _ & Hres).
  rewrite Hsel in Hc2 |- *. simpl in Hc2.
  assert (Hc : calls w2 = calls w ++ (new1 ++ new2)).
  { by rewrite Hc2, Hc1, <- (assoc_L (++)). }
  assert (Hq : Forall unmarked (new1 ++ new2)) by (by apply Forall_app).
  destruct res as [[idx data]|]; cbn [HybridDualStaticStrategy.set_art_item
    HybridDualStaticStrategy.art_data HybridDualStaticStrategy.art_idx
    HybridDualStaticStrategy.no_data fmap option_fmap option_map fst snd orb].
  2:{ unfold bind, logging, ret. eexists _, _, (new1 ++ new2). split; [reflexivity|].
      split; [done|]. split; [done|]. intros ? [=]. }
  destruct (decide (data = ∅)) as [->|Hne].
  { rewrite bool_decide_eq_true_2 by done. cbn [orb].
    unfold bind, logging, ret. eexists _, _, (new1 ++ new2). split; [reflexivity|].
    split; [done|]. split; [done|]. intros ? [=]. }
  rewrite (bool_decide_eq_false_2 (data = ∅)) by done.
  rewrite bool_decide_eq_false_2 by done. cbn [orb]. unfold ret.
  eexists _, _, (new1 ++ new2). split; [reflexivity|].
  split; [done|]. split; [done|]. intros s1 [= <-].
  exists ws, idx, data. split; [done|]. split; [done|]. by apply Hres.
Qed.

Lemma fetch_language_cases s w :
  ∃ r w1 new, HybridDualStaticStrategy._fetch_language_data s w = (r, w1)
    ∧ calls w1 = calls w ++ new ∧ Forall unmarked new
    ∧ ∀ s1, r = Return (true, s1) →
        ∃ ws idx data,
          s1 = HybridDualStaticStrategy.set_lang_item (Some (idx, data))
                 (HybridDualStaticStrategy.set_lang_ws (Some ws) s)
          ∧ data ≠ ∅
          ∧ ∃ g, sheets w1 !! ws = Some g ∧ (idx, data) ∈ candidates g None.
Proof.
  unfold HybridDualStaticStrategy._fetch_language_data. cbv zeta.
  destruct (HybridDualStaticStrategy.source_config _ _) as [cfg|].
  2:{ unfold bind, logging, ret. eexists _, _, []. split; [reflexivity|].
      simpl. rewrite app_nil_r. split; [done|]. split; [done|]. intros ? [=]. }
  unfold bind at 1, subscript at 1. destruct (cfg !! "spreadsheet_url"%string) as [url|].
  2:{ eexists _, _, []. split; [reflexivity|]. rewrite app_nil_r.
      split; [done|]. split; [done|]. intros ? [=]. }
  unfold ret at 1. unfold bind at 1, subscript at 1.
  destruct (cfg !! "worksheet_name"%string) as [name|].
  2:{ eexists _, _, []. split; [reflexivity|]. rewrite app_nil_r.
      split; [done|]. split; [done|]. intros ? [=]. }
  unfold ret at 1. unfold bind at 1.
  destruct (issues_get_worksheet url name w) as (new1 & Hc1 & Hq1).
  destruct (get_worksheet url name w) as [[[ws|]|e] w1] eqn:Hgw; simpl in Hc1.
  2,3: by (eexists _, _, new1; split; [reflexivity|]; split; [done|];
           split; [done|]; intros ? [=]).
  unfold bind at 1.
  destruct (issues_get_unused_item ws None w1) as (new2 & Hc2 & Hq2).
  destruct (select_cases w1 ws None) as (res & w2 & new' & Hsel & _ & _ & Hres).
  rewrite Hsel in Hc2 |- *. simpl in Hc2.
  assert (Hc : calls w2 = calls w ++ (new1 ++ new2)).
  { by rewrite Hc2, Hc1, <- (assoc_L (++)). }
  assert (Hq : Forall unmarked (new1 ++ new2)) by (by apply Forall_app).
  destruct res as [[idx data]|]; cbn [HybridDualStaticStrategy.set_lang_item
    HybridDualStaticStrategy.lang_data HybridDualStaticStrategy.lang_idx
    HybridDualStaticStrategy.no_data fmap option_fmap option_map fst snd orb].
  2:{ unfold bind, logging, ret. eexists _, _, (new1 ++ new2). split; [reflexivity|].
      split; [done|]. split; [done|]. intros ? [=]. }
  destruct (decide (data = ∅)) as [->|Hne].
  { rewrite bool_decide_eq_true_2 by done. cbn [orb].
    unfold bind, logging, ret. eexists _, _, (new1 ++ new2). split; [reflexivity|].
    split; [done|]. split; [done|]. intros ? [=]. }
  rewrite (bool_decide_eq_false_2 (data = ∅)) by done.
  rewrite bool_decide_eq_false_2 by done. cbn [orb]. unfold ret.
  eexists _, _, (new1 ++ new2). split; [reflexivity|].
  split; [done|]. split; [done|]. intros s1 [= <-].
  exists ws, idx, data. split; [done|]. split; [done|]. by apply Hres.
Qed.

(** X21: the hybrid strategy marks both rows or none.  Whatever the
    remote side, the prompt file and the formatting do, a run that does
    not end in a non-empty text issues no request of
    [mark_item_as_used], also when the art row was already drawn and
    only the language source, the prompt or the formatting failed, or
    when the text came out empty.  A run that ends in a non-empty text
    has drawn a row of the art sheet with [_fetch_art_data] and then a
    row of the language sheet with [_fetch_language_data], each a
    candidate of its sheet when drawn, has formatted the prompt with
    the fields of these two rows, taken the image from the art row, and
    ended with [mark_item_as_used] on the art row drawn and then on the
    language row drawn. *)
Theorem hybrid_marks_both_or_none prompt_text format s w :
  ∃ r w' new,
    HybridDualStaticStrategy.execute prompt_text format s w = (r, w')
    ∧ calls w' = calls w ++ new
    ∧ ((∀ text img, r = Return (Some text, img) → text = ""%string) → Forall unmarked new)
    ∧ (∀ text img, r = Return (Some text, img) → text ≠ ""%string →
         ∃ art_h art_i art lang_h lang_i language tpl w1 w2 w3 pre,
           let s1 := HybridDualStaticStrategy.set_art_item (Some (art_i, art))
                       (HybridDualStaticStrategy.set_art_ws (Some art_h) s) in
           let s2 := HybridDualStaticStrategy.set_lang_item (Some (lang_i, language))
                       (HybridDualStaticStrategy.set_lang_ws (Some lang_h) s1) in
           HybridDualStaticStrategy._fetch_art_data s w = (Return (true, s1), w1)
           ∧ HybridDualStaticStrategy._fetch_language_data s1 w1 = (Return (true, s2), w2)
           ∧ calls w2 = calls w ++ pre ∧ Forall unmarked pre
           ∧ (∃ g, sheets w1 !! art_h = Some g ∧ (art_i, art) ∈ candidates g None)
           ∧ (∃ g, sheets w2 !! lang_h = Some g ∧ (lang_i, language) ∈ candidates g None)
           ∧ prompt_text (dict_get (HybridDualStaticStrategy.theme_config s) "theme_name" "")
               (HybridDualStaticStrategy.lang s) = inl tpl
           ∧ format tpl
               [ ("art_title", dict_get art "title" "");
                 ("art_artist", dict_get art "artist" "");
                 ("art_year", dict_get art "year" "");
                 ("art_medium", dict_get art "medium" "");
                 ("art_owner", dict_get art "owner" "");
                 ("art_credit_line", dict_get art "creditLine" "");
                 ("art_object_url", dict_get art "objectURL" "");
                 ("lang_name", dict_get language "name" "");
                 ("lang_link", dict_get language "link" "") ]%string
             = inl text
           ∧ img = art !! "image_url"%string
           ∧ mark_item_as_used art_h art_i w2 = (Return tt, w3)
           ∧ mark_item_as_used lang_h lang_i w3 = (Return tt, w')).
Proof.
  unfold HybridDualStaticStrategy.execute. unfold bind at 1.
  destruct (fetch_art_cases s w) as (r1 & w1 & new1 & Hfa & Hc1 & Hq1 & Hart).
  rewrite Hfa.
  destruct r1 as [[[] s1]|e]; cbn [negb].
  2,3: by (eexists _, _, new1; split; [reflexivity|]; split; [done|];
           split; [done|]; intros ?? [=]).
  destruct (Hart s1 eq_refl) as (art_h & art_i & art & -> & Hart_ne & Hcand_art).
  clear Hart. unfold bind at 1.
  match goal with
  | |- context [HybridDualStaticStrategy._fetch_language_data ?s1 w1] =>
      destruct (fetch_language_cases s1 w1) as (r2 & w2 & new2 & Hfl & Hc2 & Hq2 & Hlang)
  end.
  rewrite Hfl.
  assert (Hc : calls w2 = calls w ++ (new1 ++ new2)).
  { by rewrite Hc2, Hc1, <- (assoc_L (++)). }
  assert (Hq : Forall unmarked (new1 ++ new2)) by (by apply Forall_app).
  destruct r2 as [[[] s2]|e]; cbn [negb].
  2,3: by (eexists _, _, (new1 ++ new2); split; [reflexivity|]; split; [done|];
           split; [done|]; intros ?? [=]).
  destruct (Hlang s2 eq_refl) as (lang_h & lang_i & language & -> & Hlang_ne & Hcand).
  clear Hlang.
  unfold bind at 1, HybridDualStaticStrategy._format_text.
  cbn [HybridDualStaticStrategy.set_lang_item HybridDualStaticStrategy.set_lang_ws
       HybridDualStaticStrategy.set_art_item HybridDualStaticStrategy.set_art_ws
       HybridDualStaticStrategy.art_data HybridDualStaticStrategy.lang_data
       HybridDualStaticStrategy.art_idx HybridDualStaticStrategy.lang_idx
       HybridDualStaticStrategy.art_ws HybridDualStaticStrategy.lang_ws
       HybridDualStaticStrategy.theme_config HybridDualStaticStrategy.lang
       HybridDualStaticStrategy.no_data fmap option_fmap option_map fst snd
       from_option id].
  rewrite !bool_decide_eq_false_2 by done. cbn [orb].
  unfold bind at 1, load_prompt.
  destruct (prompt_text _ _) as [tpl|msg] eqn:Hp.
  2:{ unfold bind, logging, ret. simpl. eexists _, _, (new1 ++ new2). split; [reflexivity|].
      split; [done|]. split; [done|]. intros ?? [=]. }
  unfold ret at 1. unfold truthy at 1. destruct (String.eqb tpl "").
  { unfold bind, logging, ret. simpl. eexists _, _, (new1 ++ new2). split; [reflexivity|].
    split; [done|]. split; [done|]. intros ?? [=]. }
  cbn [negb from_option id]. unfold bind at 1, str_format.
  match goal with
  | |- context [format tpl ?kw] => destruct (format tpl kw) as [text|e] eqn:Hfmt
  end.
  2:{ unfold raise. eexists _, _, (new1 ++ new2). split; [reflexivity|].
      split; [done|]. split; [done|]. intros ?? [=]. }
  unfold ret at 1 2. unfold truthy. destruct (String.eqb_spec text "") as [->|Hne].
  { unfold bind, ret. cbn [negb]. eexists _, _, (new1 ++ new2). split; [reflexivity|].
    split; [done|]. split; [done|]. by intros ?? [= <- _]. }
  cbn [negb]. unfold bind at 1, HybridDualStaticStrategy._mark_items_as_used.
  unfold bind at 1.
  cbn [HybridDualStaticStrategy.set_lang_item HybridDualStaticStrategy.set_lang_ws
       HybridDualStaticStrategy.set_art_item HybridDualStaticStrategy.set_art_ws
       HybridDualStaticStrategy.art_idx HybridDualStaticStrategy.lang_idx
       HybridDualStaticStrategy.art_ws HybridDualStaticStrategy.lang_ws
       fmap option_fmap option_map fst snd].
  destruct (mark_cases w2 art_h art_i) as (w3 & Hm1 & _).
  destruct (grows_mark art_h art_i w2) as [newa Hca].
  rewrite Hm1 in Hca |- *. simpl in Hca.
  destruct (mark_cases w3 lang_h lang_i) as (w4 & Hm2 & _).
  destruct (grows_mark lang_h lang_i w3) as [newl Hcl].
  rewrite Hm2 in Hcl |- *. simpl in Hcl. unfold ret.
  eexists _, _, ((new1 ++ new2) ++ newa ++ newl). split; [reflexivity|].
  split; [by rewrite Hcl, Hca, Hc, <- !(assoc_L (++))|].
  split; [intros Hno; by destruct (Hne (Hno _ _ eq_refl))|].
  intros text' img [= <- <-] _.
  exists art_h, art_i, art, lang_h, lang_i, language, tpl, w1, w2, w3, (new1 ++ new2).
  cbv zeta. split; [done|]. split; [done|]. split; [done|]. split; [done|].
  split; [done|]. split; [done|]. done.
Qed.

(** * The name-day lookup *)

Section DailyInfoFacts.

Variable int : string → option Z.
Variable strip : string → string.

Lemma int_field_cases row key w :
  (∃ z, int_field int row key w = (Return z, w))
  ∨ (∃ msg, int_field int row key w = (Raise (ValueError msg), w)).
Proof.
  unfold int_field. destruct (row !! key) as [text|]; [|left; by eexists].
  destruct (int text); [left|right]; by eexists.
Qed.

Lemma is_today_cases row now_day now_month w :
  (∃ b, is_today int row now_day now_month w = (Return b, w))
  ∨ (∃ msg, is_today int row now_day now_month w = (Raise (ValueError msg), w)).
Proof.
  unfold is_today, bind.
  destruct (int_field_cases row "day" w) as [[d ->]|[msg ->]]; [|right; by eexists].
  destruct (d =? Z.of_nat now_day)%Z; [|left; by eexists].
  destruct (int_field_cases row "month" w) as [[m ->]|[msg ->]]; [left|right]; by eexists.
Qed.

Lemma find_entry_cases all_records now_day now_month w :
  ∃ r w', find_entry int strip all_records now_day now_month w = (r, w')
    ∧ sheets w' = sheets w ∧ calls w' = calls w
    ∧ ∀ e, r = Raise e → is_Exception e = true.
Proof.
  induction all_records as [|row rest IH]; simpl.
  - unfold bind, logging, ret. eexists _, _. split; [reflexivity|]. done.
  - unfold bind at 1.
    destruct (is_today_cases row now_day now_month w) as [[b ->]|[msg ->]].
    + destruct b; [|apply IH]. unfold ret. eexists _, _. split; [reflexivity|]. done.
    + eexists _, _. split; [reflexivity|]. split; [done|]. split; [done|].
      by intros ? [= <-].
Qed.

Lemma is_today_other row now_day now_month w :
  other_day int now_day now_month row →
  is_today int row now_day now_month w = (Return false, w).
Proof.
  intros (d & Hd & Hne). unfold is_today, bind. rewrite Hd. unfold ret at 1.
  destruct (Z.eqb_spec d (Z.of_nat now_day)) as [->|]; [|done].
  destruct Hne as [|(m & Hm & Hne)]; [done|]. rewrite Hm. unfold ret.
  by destruct (Z.eqb_spec m (Z.of_nat now_month)).
Qed.

Lemma find_entry_skip pre rest now_day now_month w :
  Forall (other_day int now_day now_month) pre →
  find_entry int strip (pre ++ rest) now_day now_month w
  = find_entry int strip rest now_day now_month w.
Proof.
  induction 1 as [|row pre Hrow _ IH]; [done|]. simpl. unfold bind at 1.
  by rewrite is_today_other.
Qed.

End DailyInfoFacts.

(** X22: the name-day lookup returns the first record of the date, and
    a cell that is no number on the way there spoils it.  With the
    source configured and a store that answers, when every record
    before some record reads as another date: if that record is of the
    date, its [name] and stripped [international_day] (a dash when
    empty) are returned, whatever comes after it; if its [day] is no
    number, the answer is ["N/A"] and a dash, also when a later record
    is of the date. *)
Theorem daily_info_first_match int strip app_config cfg url name w header rows
    pre row post now_day now_month :
  data_sources app_config !! "name_days_sk"%string = Some cfg →
  cfg !! "spreadsheet_url"%string = Some url →
  cfg !! "worksheet_name"%string = Some name →
  faults w = [] → sheets w !! (url, name) = Some (header :: rows) →
  dict_zip header <$> rows = pre ++ row :: post →
  Forall (other_day int now_day now_month) pre →
  (this_day int now_day now_month row →
   (_get_daily_info_from_sheet int strip app_config now_day now_month w).1
   = Return (dict_get row "name" "N/A",
             if String.eqb (strip (dict_get row "international_day" "")) ""
             then "—"%string else strip (dict_get row "international_day" "")))
  ∧ (∀ text, row !! "day"%string = Some text → int text = None →
     (_get_daily_info_from_sheet int strip app_config now_day now_month w).1
     = Return ("N/A", "—")%string).
Proof.
  intros Hsrc Hurl Hname Hf Hs Hrows Hpre.
  assert (Hlen : (length (header :: rows) <? 2)%nat = false).
  { apply Nat.ltb_ge. destruct rows; [by destruct pre|simpl; lia]. }
  assert (Hrun : ∃ w1,
    _get_daily_info_from_sheet int strip app_config now_day now_month w
    = try_except (find_entry int strip (row :: post) now_day now_month)
        (λ e, if is_Exception e then
                logging ERROR ("Failed to get daily info from Google Sheet: "
                               +:+ exn_str e) ;;;
                ret ("N/A", "—")%string
              else raise e) w1).
  { unfold _get_daily_info_from_sheet, bind at 1, logging at 1.
    set (w0 := record_log INFO _ w). unfold try_except. rewrite Hsrc.
    rewrite bool_decide_eq_false_2 by (intros ->; by rewrite lookup_empty in Hurl).
    unfold bind at 1, subscript at 1. rewrite Hurl. unfold ret at 1.
    unfold bind at 1, subscript at 1. rewrite Hname. unfold ret at 1.
    unfold bind at 1.
    destruct (get_worksheet_run url name w0 Hf) as (w1 & new & Hgw & Hf1 & Hs1 & _).
    change (sheets w0) with (sheets w) in Hgw, Hs1. rewrite Hs in Hgw. rewrite Hgw.
    unfold bind at 1.
    rewrite (get_all_values_run (url, name) w1 (header :: rows) Hf1) by (by rewrite Hs1).
    rewrite Hlen. cbn [hd tail]. rewrite Hrows, (find_entry_skip int strip pre) by done.
    eexists. reflexivity. }
  destruct Hrun as [w1 ->]. unfold try_except. split.
  - intros [Hd Hm]. simpl. unfold bind at 1, is_today, bind at 1. rewrite Hd.
    unfold ret at 1. rewrite Z.eqb_refl. unfold bind at 1. rewrite Hm.
    unfold ret. by rewrite Z.eqb_refl.
  - intros text Hday Hint. simpl. unfold bind at 1, is_today, bind at 1, int_field at 1.
    rewrite Hday, Hint. reflexivity.
Qed.

End WithCaseMap.

Lemma daily_info_first_match_witness :
  (_get_daily_info_from_sheet sample_int id name_days_config 13 3
     (name_days_world name_days_grid)).1
  = Return ("Vlastimil", "—")%string
  ∧ (_get_daily_info_from_sheet sample_int id name_days_config 14 3
       (name_days_world name_days_grid)).1
    = Return ("N/A", "—")%string.
Proof.
  split.
  - refine (proj1 (daily_info_first_match sample_int id name_days_config
              {[ "spreadsheet_url"%string := "https://docs.example/d/5"%string;
                 "worksheet_name"%string := "NameDays"%string ]}
              "https://docs.example/d/5" "NameDays" (name_days_world name_days_grid)
              (hd [] name_days_grid) (tail name_days_grid)
              [] (dict_zip (hd [] name_days_grid) ["13"; "3"; "Vlastimil"; ""]%string) _
              13 3 eq_refl eq_refl eq_refl eq_refl eq_refl eq_refl _) _).
    + constructor.
    + split; reflexivity.
  - refine (proj2 (daily_info_first_match sample_int id name_days_config
              {[ "spreadsheet_url"%string := "https://docs.example/d/5"%string;
                 "worksheet_name"%string := "NameDays"%string ]}
              "https://docs.example/d/5" "NameDays" (name_days_world name_days_grid)
              (hd [] name_days_grid) (tail name_days_grid)
              [dict_zip (hd [] name_days_grid) ["13"; "3"; "Vlastimil"; ""]%string]
              (dict_zip (hd [] name_days_grid) ["x"; "3"; "Broken"; ""]%string) _
              14 3 eq_refl eq_refl eq_refl eq_refl eq_refl eq_refl _) "x"%string _ _).
    + constructor; [|constructor]. exists 13%Z. split; [reflexivity|]. left. discriminate.
    + reflexivity.
    + reflexivity.
Defined.

Section WithCaseMap.
Context {case_map : CaseMap}.


(** X23: the name-day lookup hands no exception to its caller and
    writes nothing: whatever the configuration, the sheet and the remote
    side are, it returns a pair, no sheet has changed, and it has
    neither appended a row nor started a job. *)
Theorem daily_info_total int strip app_config now_day now_month w :
  ∃ res w' new,
    _get_daily_info_from_sheet int strip app_config now_day now_month w = (Return res, w')
    ∧ sheets w' = sheets w
    ∧ calls w' = calls w ++ new ∧ Forall quiet new.
Proof.
  assert (Hread : reads_only (_get_daily_info_from_sheet int strip app_config now_day now_month)).
  { unfold _get_daily_info_from_sheet.
    apply reads_only_bind; [apply reads_only_logging|]. intros _.
    apply reads_only_try_except.
    2:{ intros e. destruct (is_Exception e); [|apply reads_only_raise].
        apply reads_only_bind; [apply reads_only_logging|]. intros _. apply reads_only_ret. }
    assert (Hfail : ∀ lvl msg, reads_only (logging lvl msg ;;; ret ("N/A", "—")%string)).
    { intros. apply reads_only_bind; [apply reads_only_logging|]. intros _.
      apply reads_only_ret. }
    destruct (data_sources app_config !! "name_days_sk"%string) as [cfg|]; [|apply Hfail].
    destruct (bool_decide (cfg = ∅)); [apply Hfail|].
    assert (Hsub : ∀ k, reads_only (subscript cfg k)).
    { intros k. unfold subscript.
      destruct (cfg !! k); [apply reads_only_ret|apply reads_only_raise]. }
    apply reads_only_bind; [apply Hsub|]. intros url.
    apply reads_only_bind; [apply Hsub|]. intros name.
    apply reads_only_bind; [apply reads_only_get_worksheet|].
    intros [ws|]; [|apply reads_only_ret].
    apply reads_only_bind.
    { unfold get_all_values. apply reads_only_request; [done|].
      apply reads_only_with_sheet. intros g. apply reads_only_ret. }
    intros g. destruct (length g <? 2)%nat; [apply Hfail|].
    intros w0.
    destruct (find_entry_cases int strip (dict_zip (hd [] g) <$> tail g) now_day now_month w0)
      as (r & w1 & -> & Hs & Hc & _).
    split; [done|]. exists []. simpl. rewrite app_nil_r. split; [done|constructor]. }
  assert (Hraise : raises_only never
            (_get_daily_info_from_sheet int strip app_config now_day now_month)).
  { unfold _get_daily_info_from_sheet.
    apply raises_only_bind; [apply raises_only_logging|]. intros _.
    apply (raises_only_try_except (λ e, is_Exception e = true)).
    2:{ intros e ->. apply raises_only_bind; [apply raises_only_logging|]. intros _.
        apply raises_only_ret. }
    assert (Hfail : ∀ lvl msg, raises_only (λ e, is_Exception e = true)
                                 (logging lvl msg ;;; ret ("N/A", "—")%string)).
    { intros. apply raises_only_bind; [apply raises_only_logging|]. intros _.
      apply raises_only_ret. }
    destruct (data_sources app_config !! "name_days_sk"%string) as [cfg|]; [|apply Hfail].
    destruct (bool_decide (cfg = ∅)); [apply Hfail|].
    assert (Hsub : ∀ k, raises_only (λ e, is_Exception e = true) (subscript cfg k)).
    { intros k w0 e w1. unfold subscript. destruct (cfg !! k); [done|]. by intros [= <- _]. }
    apply raises_only_bind; [apply Hsub|]. intros url.
    apply raises_only_bind; [apply Hsub|]. intros name.
    apply raises_only_bind; [apply raises_only_never, raises_only_get_worksheet|].
    intros [ws|]; [|apply raises_only_ret].
    apply raises_only_bind; [intros w0 e w1; apply get_all_values_raises|].
    intros g. destruct (length g <? 2)%nat; [apply Hfail|].
    intros w0 e w1 Hrun.
    destruct (find_entry_cases int strip (dict_zip (hd [] g) <$> tail g) now_day now_month w0)
      as (r & w2 & Hfind & _ & _ & He).
    rewrite Hfind in Hrun. injection Hrun as -> _. by apply He. }
  destruct (never_returns _ w Hraise) as (res & w' & Hrun).
  destruct (Hread w) as (Hs & new & Hc & Hq). rewrite Hrun in Hs, Hc.
  by exists res, w', new.
Qed.

(** * The content groups *)

Section ContentGroups.

Import JobProcessor.

Lemma in_group_nil key u : ¬ in_group [] key u.
Proof. intros (us & Hin & _). by apply elem_of_nil in Hin. Qed.

Lemma in_group_cons k0 us0 rest key u :
  in_group ((k0, us0) :: rest) key u ↔ (key = k0 ∧ u ∈ us0) ∨ in_group rest key u.
Proof.
  unfold in_group. split.
  - intros (us & Hin & Hu). apply elem_of_cons in Hin as [[= -> ->]|Hin]; [by left|].
    right. by exists us.
  - intros [[-> Hu]|(us & Hin & Hu)].
    + exists us0. split; [left|done].
    + exists us. split; [by right|done].
Qed.

Lemma append_to_in_group key user groups k u :
  in_group (append_to key user groups) k u
  ↔ in_group groups k u ∨ (k = key ∧ u = user).
Proof.
  induction groups as [|[k0 us0] rest IH]; simpl.
  - rewrite in_group_cons. split.
    + intros [[-> Hu]|H]; [|by apply in_group_nil in H].
      apply list_elem_of_singleton in Hu. by right.
    + intros [H|[-> ->]]; [by apply in_group_nil in H|]. left. split; [done|]. left.
  - case_decide as Hk; rewrite !in_group_cons.
    + subst k0. rewrite elem_of_app, list_elem_of_singleton. tauto.
    + rewrite IH. tauto.
Qed.

Lemma append_to_keys key user groups x :
  x ∈ (append_to key user groups).*1 → x = key ∨ x ∈ groups.*1.
Proof.
  induction groups as [|[k0 us0] rest IH]; simpl.
  - intros ->%list_elem_of_singleton. by left.
  - case_decide as Hk; simpl.
    + intros Hx. by right.
    + intros [->|Hx]%elem_of_cons; [right; left|].
      destruct (IH Hx) as [->|]; [by left|right; by right].
Qed.

Lemma append_to_NoDup key user groups :
  NoDup groups.*1 → NoDup (append_to key user groups).*1.
Proof.
  induction groups as [|[k0 us0] rest IH]; simpl.
  - intros _. apply NoDup_singleton.
  - intros [Hk0 Hrest]%NoDup_cons. case_decide; simpl.
    + by apply NoDup_cons.
    + apply NoDup_cons. split; [|by apply IH].
      intros [->|Hin]%append_to_keys; done.
Qed.

Lemma append_to_nonempty key user groups :
  Forall (λ p, p.2 ≠ []) groups → Forall (λ p, p.2 ≠ []) (append_to key user groups).
Proof.
  induction 1 as [|[k0 us0] rest Hne Hrest IH]; simpl.
  - constructor; [done|constructor].
  - case_decide as Hk.
    + constructor; [simpl; by destruct us0|done].
    + constructor; [done|exact IH].
Qed.

Lemma add_themes_spec user lang themes groups :
  let groups' := foldl (λ groups theme, append_to (theme, lang) user groups) groups themes in
  (NoDup groups.*1 → NoDup groups'.*1)
  ∧ (Forall (λ p, p.2 ≠ []) groups → Forall (λ p, p.2 ≠ []) groups')
  ∧ ∀ k u, in_group groups' k u
           ↔ in_group groups k u ∨ (u = user ∧ k.2 = lang ∧ k.1 ∈ themes).
Proof.
  revert groups. induction themes as [|theme themes IH]; intros groups; simpl.
  - split; [done|]. split; [done|]. intros k u. split; [by left|].
    intros [H|(_ & _ & H)]; [done|by apply elem_of_nil in H].
  - destruct (IH (append_to (theme, lang) user groups)) as (Hnd & Hne & Hin).
    split; [intros H; by apply Hnd, append_to_NoDup|].
    split; [intros H; by apply Hne, append_to_nonempty|].
    intros [k1 k2] u. rewrite Hin, append_to_in_group, elem_of_cons. simpl. split.
    + intros [[H|[[= -> ->] ->]]|(-> & -> & H)]; [by left|right..]; auto.
    + intros [H|(-> & -> & [->|H])]; [by left; left|left; by right|right; auto].
Qed.

Lemma add_users_spec time_key users groups :
  let groups' := foldl (add_user time_key) groups users in
  (NoDup groups.*1 → NoDup groups'.*1)
  ∧ (Forall (λ p, p.2 ≠ []) groups → Forall (λ p, p.2 ≠ []) groups')
  ∧ ∀ k u, in_group groups' k u
           ↔ in_group groups k u
             ∨ (u ∈ users ∧ k.2 = default "slovak"%string (language u)
                ∧ k.1 ∈ themes_of time_key u).
Proof.
  revert groups. induction users as [|user users IH]; intros groups; simpl.
  - split; [done|]. split; [done|]. intros k u. split; [by left|].
    intros [H|(H & _)]; [done|by apply elem_of_nil in H].
  - destruct (IH (add_user time_key groups user)) as (Hnd & Hne & Hin).
    destruct (add_themes_spec user (default "slovak"%string (language user))
                (themes_of time_key user) groups) as (Hnd1 & Hne1 & Hin1).
    split; [intros H; by apply Hnd, Hnd1|].
    split; [intros H; by apply Hne, Hne1|].
    intros k u. rewrite Hin. unfold add_user. rewrite Hin1, elem_of_cons. split.
    + intros [[H|(-> & H1 & H2)]|(H & H1 & H2)]; [by left|right..]; auto.
    + intros [H|([->|H] & H1 & H2)]; [by left; left|left; right; auto|right; auto].
Qed.

Lemma elem_of_List_filter {A} (f : A → bool) l x :
  x ∈ List.filter f l ↔ x ∈ l ∧ f x = true.
Proof. rewrite !list_elem_of_In. apply filter_In. Qed.

End ContentGroups.

Lemma groups_of_subscribed time_key (target : list JobProcessor.User) w0 :
  ∃ res w',
    match List.filter (JobProcessor.is_subscribed time_key) target with
    | [] => logging INFO ("No active users subscribed for '" +:+ time_key +:+ "'.") ;;;
            ret None
    | u :: l =>
        logging INFO ("Found " +:+ pretty (length
           (foldl (JobProcessor.add_user time_key) [] (u :: l))) +:+ " content groups.") ;;;
        ret (Some (foldl (JobProcessor.add_user time_key) [] (u :: l)))
    end w0 = (Return res, w')
    ∧ sheets w' = sheets w0 ∧ calls w' = calls w0
    ∧ res = match List.filter (JobProcessor.is_subscribed time_key) target with
            | [] => None
            | subscribed_users => Some (foldl (JobProcessor.add_user time_key) [] subscribed_users)
            end.
Proof.
  destruct (List.filter _ target); unfold bind, logging, ret;
    (eexists _, _; split; [reflexivity|]; done).
Qed.

(** X24: the content groups of a job hold the addressed users and no
    one else.  [_prepare_content_groups] raises nothing and requests
    nothing.  It answers [None] exactly when no user is active, named by
    the filter (if one is given) and subscribed to the slot.  Otherwise
    every (theme, language) pair keys one group, no group is empty, and
    a user is in the group of a pair exactly when the user is
    addressed, the theme is among the user's themes for the slot and
    the language is the user's, ["slovak"] when none is given. *)
Theorem content_groups_exact users time_key user_filter w :
  ∃ res w',
    JobProcessor._prepare_content_groups users time_key user_filter w = (Return res, w')
    ∧ sheets w' = sheets w ∧ calls w' = calls w
    ∧ (res = None ↔ ¬ ∃ u, u ∈ users ∧ JobProcessor.addressed user_filter time_key u)
    ∧ ∀ groups, res = Some groups →
        NoDup groups.*1
        ∧ (∀ key us, (key, us) ∈ groups → us ≠ [])
        ∧ ∀ theme lang u,
            JobProcessor.in_group groups (theme, lang) u
            ↔ u ∈ users ∧ JobProcessor.addressed user_filter time_key u
              ∧ theme ∈ JobProcessor.themes_of time_key u
              ∧ default "slovak"%string (JobProcessor.language u) = lang.
Proof.
  unfold JobProcessor._prepare_content_groups. cbv zeta.
  set (active_users := List.filter JobProcessor.is_active users).
  set (target := match user_filter with
                 | None | Some [] => active_users
                 | Some flt => List.filter (JobProcessor.described_in flt) active_users
                 end).
  assert (Htarget : ∀ u, u ∈ target ↔
            u ∈ users ∧ JobProcessor.is_active u = true
            ∧ match user_filter with
              | None | Some [] => True
              | Some flt => JobProcessor.described_in flt u = true
              end).
  { intros u. unfold target, active_users.
    destruct user_filter as [[|f flt]|]; rewrite ?elem_of_List_filter; tauto. }
  set (subscribed_users := List.filter (JobProcessor.is_subscribed time_key) target).
  assert (Hsub : ∀ u, u ∈ subscribed_users
                      ↔ u ∈ users ∧ JobProcessor.addressed user_filter time_key u).
  { intros u. unfold subscribed_users, JobProcessor.addressed.
    rewrite elem_of_List_filter, Htarget. tauto. }
  assert (Hres : ∀ res : option JobProcessor.Groups,
            res = match subscribed_users with
                  | [] => None
                  | _ => Some (foldl (JobProcessor.add_user time_key) [] subscribed_users)
                  end →
            (res = None ↔ ¬ ∃ u, u ∈ users ∧ JobProcessor.addressed user_filter time_key u)
            ∧ ∀ groups, res = Some groups →
                NoDup groups.*1
                ∧ (∀ key us, (key, us) ∈ groups → us ≠ [])
                ∧ ∀ theme lang u,
                    JobProcessor.in_group groups (theme, lang) u
                    ↔ u ∈ users ∧ JobProcessor.addressed user_filter time_key u
                      ∧ theme ∈ JobProcessor.themes_of time_key u
                      ∧ default "slovak"%string (JobProcessor.language u) = lang).
  { intros res ->. destruct (add_users_spec time_key subscribed_users []) as (Hnd & Hne & Hin).
    destruct subscribed_users as [|u0 rest] eqn:Esub.
    { split; [|intros ? [=]]. split; [|done]. intros _ (u & Hu).
      apply Hsub in Hu. by apply elem_of_nil in Hu. }
    split.
    { split; [done|]. intros Hno. destruct Hno. exists u0. apply Hsub. left. }
    intros groups [= <-]. split; [apply Hnd; constructor|]. split.
    { intros key us Hkus. specialize (Hne (Forall_nil_2 _)).
      rewrite Forall_forall in Hne. apply (Hne (key, us) Hkus). }
    intros theme lang u. rewrite Hin, Hsub. simpl. split.
    - intros [H|(H1 & H2 & H3)]; [by apply in_group_nil in H|]. by destruct H1.
    - intros (H1 & H2 & H3 & H4). right. done. }
  assert (Hrun : ∀ w0, sheets w0 = sheets w → calls w0 = calls w →
            ∃ res w',
              match List.filter (JobProcessor.is_subscribed time_key) target with
              | [] => logging INFO ("No active users subscribed for '" +:+ time_key +:+ "'.") ;;;
                      ret None
              | u :: l =>
                  logging INFO ("Found " +:+ pretty (length
                     (foldl (JobProcessor.add_user time_key) [] (u :: l))) +:+ " content groups.") ;;;
                  ret (Some (foldl (JobProcessor.add_user time_key) [] (u :: l)))
              end w0 = (Return res, w')
              ∧ sheets w' = sheets w ∧ calls w' = calls w
              ∧ res = match subscribed_users with
                      | [] => None
                      | _ => Some (foldl (JobProcessor.add_user time_key) [] subscribed_users)
                      end).
  { intros w0 Hs0 Hc0.
    destruct (groups_of_subscribed time_key target w0) as (res & w' & Hrun & Hs & Hc & Hr).
    exists res, w'. split; [done|]. split; [congruence|]. split; [congruence|].
    rewrite Hr. unfold subscribed_users. by destruct (List.filter _ target). }
  destruct user_filter as [[|f flt]|].
  - unfold bind at 1, ret at 1. destruct (Hrun w eq_refl eq_refl)
      as (res & w' & Hrun' & Hs & Hc & Hr).
    exists res, w'. split; [exact Hrun'|]. split; [done|]. split; [done|]. by apply Hres.
  - unfold bind at 1, bind at 1, logging at 1. fold active_users.
    destruct (List.filter (JobProcessor.described_in (f :: flt)) active_users)
      as [|t0 trest] eqn:Et.
    + unfold bind, logging, ret. simpl. eexists _, _. split; [reflexivity|].
      split; [done|]. split; [done|]. apply Hres.
      unfold subscribed_users, target. rewrite ?Et. reflexivity.
    + unfold ret at 1.
      destruct (Hrun (record_log INFO ("Applying user filter for: "
                        +:+ JobProcessor.str_list (f :: flt)) w) eq_refl eq_refl)
        as (res & w' & Hrun' & Hs & Hc & Hr).
      exists res, w'. split; [|split; [done|split; [done|by apply Hres]]].
      unfold target in Hrun'. rewrite ?Et in Hrun'. exact Hrun'.
  - unfold bind at 1, ret at 1. destruct (Hrun w eq_refl eq_refl)
      as (res & w' & Hrun' & Hs & Hc & Hr).
    exists res, w'. split; [exact Hrun'|]. split; [done|]. split; [done|]. by apply Hres.
Qed.

(** X25: the payload phase of [_get_rotating_content] hands out a row
    and uses it up.  With the category's source configured, a store
    that answers, a clock and a sheet that has candidates, it returns
    the configured [header_text] with the [content] of the candidate
    the draw picks, and the candidates of the sheet afterwards are
    those before without the row drawn. *)
Theorem fetch_payload_consumes_its_row app_config key cfg url name w g i k t c cs :
  data_sources app_config !! key = Some cfg →
  cfg !! "spreadsheet_url"%string = Some url →
  cfg !! "worksheet_name"%string = Some name →
  faults w = [] → sheets w !! (url, name) = Some g → local_now w = Some t →
  list_index "used" (hd [] g) = Some i →
  list_index "date_used" (hd [] g) = Some k →
  single_column "used" (hd [] g) →
  candidates g None = c :: cs →
  ∃ n d w' g',
    (c :: cs) !! (hd 0 (rng w) mod length (c :: cs)) = Some (n, d)
    ∧ fetch_payload app_config key w
      = (Return (dict_get cfg "header_text" "", dict_get d "content" ""), w')
    ∧ sheets w' !! (url, name) = Some g'
    ∧ ∀ m d', (m, d') ∈ candidates g' None ↔ m ≠ n ∧ (m, d') ∈ candidates g None.
Proof.
  intros Hsrc Hurl Hname Hf Hs Ht Hi Hk Hsing Hcand.
  assert (Hlt : hd 0 (rng w) mod length (c :: cs) < length (c :: cs)).
  { apply Nat.mod_upper_bound. simpl. lia. }
  destruct (lookup_lt_is_Some_2 _ _ Hlt) as [[n d] Hnd].
  assert (Hin : (n, d) ∈ candidates g None).
  { rewrite Hcand. by eapply list_elem_of_lookup_2. }
  pose proof (candidate_nonempty _ _ _ _ Hin) as Hd.
  assert (Hrow : 2 ≤ n ∧ n - 1 < length g).
  { destruct g as [|header rows]; [by apply elem_of_nil in Hin|].
    apply candidates_elem in Hin as (Hn & row & Hrow & _).
    split; [done|]. by eapply lookup_lt_Some. }
  destruct Hrow as [Hn Hlen].
  destruct (get_worksheet_run url name w Hf)
    as (w1 & new & Hgw & Hf1 & Hs1 & Hr1 & Hl1 & _ & _ & _).
  rewrite Hs in Hgw.
  set (w2 := set_rng (tail (rng w1)) (record_call (GetAllValues (url, name)) w1)).
  pose proof (mark_run w2 (url, name) n g t i k) as Hmark.
  cbv zeta in Hmark. fold (mark_cells n i k t) in Hmark.
  exists n, d. eexists _, (write_cells (mark_cells n i k t) g).
  split; [done|]. split; [|split].
  - unfold fetch_payload. rewrite Hsrc.
    rewrite bool_decide_eq_false_2 by (intros ->; by rewrite lookup_empty in Hurl).
    cbv zeta. unfold bind at 1, subscript at 1. rewrite Hurl. unfold ret at 1.
    unfold bind at 1, subscript at 1. rewrite Hname. unfold ret at 1.
    unfold bind at 1. rewrite Hgw. unfold bind at 1.
    rewrite (get_unused_item_run w1 (url, name) None g c cs Hf1) by (done || by rewrite Hs1).
    rewrite <- Hr1 in Hnd. rewrite Hnd. rewrite bool_decide_eq_false_2 by done.
    unfold bind at 1. fold w2. rewrite Hmark; [reflexivity|done| | |done|done|lia].
    + simpl. by rewrite Hs1.
    + simpl. by rewrite Hl1.
  - simpl. by rewrite lookup_insert_eq.
  - intros m d'. by apply candidates_after_mark.
Qed.

End WithCaseMap.

Lemma fetch_payload_consumes_its_row_witness :
  ∃ w' g', fetch_payload payload_config "quotes" (world_of mixed_case_grid [0])
           = (Return ("Quote of the day"%string, "a"%string), w')
    ∧ sheets w' !! quotes = Some g'
    ∧ ∀ m d', (m, d') ∈ candidates g' None
              ↔ m ≠ 2 ∧ (m, d') ∈ candidates mixed_case_grid None.
Proof.
  destruct (fetch_payload_consumes_its_row (case_map := ascii_case) payload_config "quotes"
              {[ "spreadsheet_url"%string := "https://docs.example/d/1"%string;
                 "worksheet_name"%string := "Quotes"%string;
                 "header_text"%string := "Quote of the day"%string ]}
              "https://docs.example/d/1" "Quotes" (world_of mixed_case_grid [0])
              mixed_case_grid 1 2 "2025-03-14 08:00:00"
              (2, dict_zip (hd [] mixed_case_grid) ["a"; "FALSE"; ""]%string)
              [(3, dict_zip (hd [] mixed_case_grid) ["b"; "false"; ""]%string)])
    as (n & d & w' & g' & Hnd & Hrun & Hs & Hc);
    [reflexivity | reflexivity | reflexivity | reflexivity | reflexivity | reflexivity
    | reflexivity | reflexivity | apply single_used_sample | reflexivity |].
  injection Hnd as <- <-. exists w', g'. split; [exact Hrun|]. split; [exact Hs|exact Hc].
Defined.

